(** * SentinelBot: real-time threat classification

    A shallow embedding of [src/core_bots/sentinelbot.py] and the
    properties of its classification pipeline.

    Modelling conventions.
    - A Python [str] is the [string] of its UTF-8 bytes, so [.encode()] is
      the identity.  Case mapping ([str.lower], [re.IGNORECASE]) and the
      classes [\w], [\s] are those of Python on ASCII text
      ([Str.isascii]): they act on the ASCII range and leave every other
      byte alone.  On text with characters from U+0080 on, Python's
      Unicode tables do more ([str.lower] takes U+212A to [k],
      [re.IGNORECASE] lets [k] match it, [\w] and [\s] hold letters and
      spaces of other scripts), so there the code may find a match that
      the embedding does not.
    - Python [float] values (clock readings, scores, confidence) are exact
      rationals [Q]; Python [int] values are [Z].
    - Every [time.time()] reading, and the behaviour of the network, is an
      explicit input of the function that performs it.
    - [dict]s used as maps are [gmap]s, [set]s are [gset]s, [dict]s iterated
      in insertion order are association lists. *)

From Stdlib Require Import ZArith QArith Qminmax List Ascii String Bool Lia.
From stdpp Require Import gmap strings list fin_maps.

Local Open Scope string_scope.
Local Open Scope Z_scope.

(** ** Strings *)

Module Str.

(** [s.isascii()]: every character is below U+0080. *)
Fixpoint isascii (s : string) : bool :=
  match s with
  | EmptyString => true
  | String c s' => (N_of_ascii c <? 128)%N && isascii s'
  end.

(** [c.lower()] on one ASCII character; a byte from 128 on stays. *)
Definition lower_ascii (c : ascii) : ascii :=
  let n := N_of_ascii c in
  if ((65 <=? n) && (n <=? 90))%N then ascii_of_N (n + 32) else c.

(** [s.lower()] for [s] with [isascii s]; on other text the bytes from
    128 on stay as they are, where Python's [str.lower] also maps the
    letters of other scripts. *)
Fixpoint lower (s : string) : string :=
  match s with
  | EmptyString => EmptyString
  | String c s' => String (lower_ascii c) (lower s')
  end.

(** [s.startswith(p)] *)
Fixpoint startswith (p s : string) : bool :=
  match p, s with
  | EmptyString, _ => true
  | String a p', String b s' => Ascii.eqb a b && startswith p' s'
  | String _ _, EmptyString => false
  end.

(** [p in s] for strings: [p] occurs as a substring of [s]. *)
Fixpoint contains (p s : string) : bool :=
  startswith p s ||
  match s with
  | EmptyString => false
  | String _ s' => contains p s'
  end.

(** [c in s] for a single character [c]. *)
Fixpoint has_char (c : ascii) (s : string) : bool :=
  match s with
  | EmptyString => false
  | String a s' => Ascii.eqb a c || has_char c s'
  end.

(** [sep.join(parts)] *)
Fixpoint join (sep : string) (parts : list string) : string :=
  match parts with
  | [] => ""
  | [p] => p
  | p :: rest => p +:+ sep +:+ join sep rest
  end.

Definition newline : ascii := ascii_of_N 10.
Definition carriage_return : ascii := ascii_of_N 13.

End Str.

(** ** Regular expressions: [re.search(pattern, s, re.IGNORECASE)]

    The patterns of the detector use literals, groups, alternation,
    character classes and the quantifiers [*], [+], [*?]; none uses
    anchors or back-references, so whether [re.search] finds a match is a
    question about a regular language.  Matching is by derivatives. *)

Module Re.

Inductive regex :=
| Void
| Eps
| Sym (p : ascii -> bool)
| Cat (a b : regex)
| Alt (a b : regex)
| Star (a : regex).

Fixpoint nullable (r : regex) : bool :=
  match r with
  | Void => false
  | Eps => true
  | Sym _ => false
  | Cat a b => nullable a && nullable b
  | Alt a b => nullable a || nullable b
  | Star _ => true
  end.

Definition cat (a b : regex) : regex :=
  match a, b with
  | Void, _ | _, Void => Void
  | Eps, _ => b
  | _, _ => Cat a b
  end.

Definition alt (a b : regex) : regex :=
  match a, b with
  | Void, _ => b
  | _, Void => a
  | _, _ => Alt a b
  end.

Fixpoint deriv (c : ascii) (r : regex) : regex :=
  match r with
  | Void | Eps => Void
  | Sym p => if p c then Eps else Void
  | Cat a b =>
      if nullable a then alt (cat (deriv c a) b) (deriv c b)
      else cat (deriv c a) b
  | Alt a b => alt (deriv c a) (deriv c b)
  | Star a => cat (deriv c a) (Star a)
  end.

(** Some prefix of [s] is matched by [r]. *)
Fixpoint match_prefix (r : regex) (s : string) : bool :=
  nullable r ||
  match s with
  | EmptyString => false
  | String c s' => match_prefix (deriv c r) s'
  end.

(** [re.search]: some substring of [s] is matched by [r]. *)
Fixpoint search (r : regex) (s : string) : bool :=
  match_prefix r s ||
  match s with
  | EmptyString => false
  | String _ s' => search r s'
  end.

(** *** Pattern syntax, under [re.IGNORECASE] *)

(** A literal character, compared without case on the ASCII letters. *)
Definition chr (c : ascii) : regex :=
  Sym (fun x => Ascii.eqb (Str.lower_ascii x) (Str.lower_ascii c)).

(** A literal string. *)
Fixpoint lit (s : string) : regex :=
  match s with
  | EmptyString => Eps
  | String c s' => Cat (chr c) (lit s')
  end.

(** [[^c]] *)
Definition not_chr (c : ascii) : regex :=
  Sym (fun x => negb (Ascii.eqb x c)).

(** [.] (any character but a newline) *)
Definition dot : regex := not_chr Str.newline.

(** [\w] on ASCII text: letters, digits and [_]. *)
Definition word : regex :=
  Sym (fun x =>
         let n := N_of_ascii x in
         ((48 <=? n) && (n <=? 57) || (65 <=? n) && (n <=? 90)
          || (97 <=? n) && (n <=? 122) || (n =? 95))%N).

(** [\s] on ASCII text: the characters 9 to 13 and 28 to 32. *)
Definition space : regex :=
  Sym (fun x =>
         let n := N_of_ascii x in
         ((9 <=? n) && (n <=? 13) || (28 <=? n) && (n <=? 32))%N).

Definition plus (r : regex) : regex := Cat r (Star r).

Fixpoint seq (rs : list regex) : regex :=
  match rs with
  | [] => Eps
  | [r] => r
  | r :: rs' => Cat r (seq rs')
  end.

Fixpoint alts (rs : list regex) : regex :=
  match rs with
  | [] => Void
  | [r] => r
  | r :: rs' => Alt r (alts rs')
  end.

(** A pattern keeps its source text (reported in the threat) with its
    syntax tree. *)
Record pattern := { source : string; compiled : regex }.

End Re.

(** ** [hashlib.md5(...).hexdigest()] (RFC 1321) on 32-bit words in [Z] *)

Module Md5.

Definition mask32 : Z := 0xffffffff.
Definition add32 (a b : Z) : Z := Z.land (a + b) mask32.
Definition not32 (a : Z) : Z := Z.lxor a mask32.
Definition rotl32 (x : Z) (c : Z) : Z :=
  Z.land (Z.lor (Z.shiftl x c) (Z.shiftr x (32 - c))) mask32.

Definition shifts : list Z :=
  [7; 12; 17; 22; 7; 12; 17; 22; 7; 12; 17; 22; 7; 12; 17; 22;
   5; 9; 14; 20; 5; 9; 14; 20; 5; 9; 14; 20; 5; 9; 14; 20;
   4; 11; 16; 23; 4; 11; 16; 23; 4; 11; 16; 23; 4; 11; 16; 23;
   6; 10; 15; 21; 6; 10; 15; 21; 6; 10; 15; 21; 6; 10; 15; 21].

Definition K : list Z :=
  [0xd76aa478; 0xe8c7b756; 0x242070db; 0xc1bdceee;
   0xf57c0faf; 0x4787c62a; 0xa8304613; 0xfd469501;
   0x698098d8; 0x8b44f7af; 0xffff5bb1; 0x895cd7be;
   0x6b901122; 0xfd987193; 0xa679438e; 0x49b40821;
   0xf61e2562; 0xc040b340; 0x265e5a51; 0xe9b6c7aa;
   0xd62f105d; 0x02441453; 0xd8a1e681; 0xe7d3fbc8;
   0x21e1cde6; 0xc33707d6; 0xf4d50d87; 0x455a14ed;
   0xa9e3e905; 0xfcefa3f8; 0x676f02d9; 0x8d2a4c8a;
   0xfffa3942; 0x8771f681; 0x6d9d6122; 0xfde5380c;
   0xa4beea44; 0x4bdecfa9; 0xf6bb4b60; 0xbebfbc70;
   0x289b7ec6; 0xeaa127fa; 0xd4ef3085; 0x04881d05;
   0xd9d4d039; 0xe6db99e5; 0x1fa27cf8; 0xc4ac5665;
   0xf4292244; 0x432aff97; 0xab9423a7; 0xfc93a039;
   0x655b59c3; 0x8f0ccc92; 0xffeff47d; 0x85845dd1;
   0x6fa87e4f; 0xfe2ce6e0; 0xa3014314; 0x4e0811a1;
   0xf7537e82; 0xbd3af235; 0x2ad7d2bb; 0xeb86d391].

Definition nthZ (l : list Z) (i : Z) : Z := nth (Z.to_nat i) l 0.

(** The message as bytes, padded to a multiple of 64 bytes. *)
Fixpoint bytes_of (s : string) : list Z :=
  match s with
  | EmptyString => []
  | String c s' => Z.of_N (N_of_ascii c) :: bytes_of s'
  end.

Fixpoint le_bytes (n : nat) (x : Z) : list Z :=
  match n with
  | O => []
  | S n' => Z.land x 0xff :: le_bytes n' (Z.shiftr x 8)
  end.

Definition pad (msg : list Z) : list Z :=
  let len := Z.of_nat (length msg) in
  let zeros := (55 - len) mod 64 in
  (msg ++ [0x80] ++ repeat 0 (Z.to_nat zeros) ++ le_bytes 8 (8 * len))%list.

Fixpoint words (n : nat) (bs : list Z) : list Z :=
  match n, bs with
  | S n', b0 :: b1 :: b2 :: b3 :: rest =>
      (b0 + Z.shiftl b1 8 + Z.shiftl b2 16 + Z.shiftl b3 24) :: words n' rest
  | _, _ => []
  end.

Definition state : Type := Z * Z * Z * Z.

Definition round (M : list Z) (st : state) (i : Z) : state :=
  let '(A, B, C, D) := st in
  let '(F, g) :=
    if i <? 16 then (Z.lor (Z.land B C) (Z.land (not32 B) D), i)
    else if i <? 32 then (Z.lor (Z.land D B) (Z.land (not32 D) C), (5 * i + 1) mod 16)
    else if i <? 48 then (Z.lxor (Z.lxor B C) D, (3 * i + 5) mod 16)
    else (Z.lxor C (Z.lor B (not32 D)), (7 * i) mod 16) in
  let F' := add32 (add32 (add32 F A) (nthZ K i)) (nthZ M g) in
  (D, add32 B (rotl32 F' (nthZ shifts i)), B, C).

Definition chunk (st : state) (M : list Z) : state :=
  let '(a0, b0, c0, d0) := st in
  let '(A, B, C, D) := fold_left (round M) (map Z.of_nat (List.seq 0 64)) st in
  (add32 a0 A, add32 b0 B, add32 c0 C, add32 d0 D).

Fixpoint chunks (n : nat) (st : state) (ws : list Z) : state :=
  match n with
  | O => st
  | S n' => chunks n' (chunk st (firstn 16 ws)) (skipn 16 ws)
  end.

Definition digest (s : string) : list Z :=
  let bs := pad (bytes_of s) in
  let ws := words (length bs) bs in
  let '(a, b, c, d) :=
    chunks (length ws / 16)%nat
           (0x67452301, 0xefcdab89, 0x98badcfe, 0x10325476) ws in
  (le_bytes 4 a ++ le_bytes 4 b ++ le_bytes 4 c ++ le_bytes 4 d)%list.

Definition hex_digit (n : Z) : ascii :=
  ascii_of_N (Z.to_N (if n <? 10 then 48 + n else 87 + n)).

Fixpoint hex (bs : list Z) : string :=
  match bs with
  | [] => EmptyString
  | b :: bs' => String (hex_digit (Z.shiftr b 4)) (String (hex_digit (Z.land b 15)) (hex bs'))
  end.

Definition hexdigest (s : string) : string := hex (digest s).

End Md5.

(** ** Data model *)

(** [request_data]: a [dict] read with [.get]; a key may be absent. *)
Module Request.

Record t := {
  ip : option string;
  user_agent : option string;
  path : option string;
  method : option string;
  headers : option (list (string * string));
  query_params : option (list (string * string))
}.

(** [request_data.get(key, fallback)] *)
Definition get {A} (field : t -> option A) (fallback : A) (request_data : t) : A :=
  default fallback (field request_data).

End Request.

(** What a threat [dict] carries besides its type, severity and location. *)
Inductive Evidence :=
| Pattern (pattern : string)
| UserAgent (user_agent : string)
| RequestCount (request_count threshold : Z)
| Header (header : string).

(** One evaluator's finding: the [dict] with keys ['type'], ['severity'],
    the evidence key and ['location']. *)
Record Threat := {
  type : string;
  severity : Z;
  evidence : Evidence;
  location : string
}.

Inductive ThreatData :=
| Status (status : string)
| Threats (threats : list Threat) (method : string).

Record ThreatDetection := {
  threat_type : string;
  severity_level : Z;
  confidence : Q;
  source_ip : string;
  user_agent : string;
  request_path : string;
  threat_data : ThreatData;
  spider_score : Q;
  detection_time : Q;
  recommended_action : string
}.

Definition set_spider_score (d : ThreatDetection) (v : Q) : ThreatDetection :=
  {| threat_type := threat_type d; severity_level := severity_level d;
     confidence := confidence d; source_ip := source_ip d;
     user_agent := user_agent d; request_path := request_path d;
     threat_data := threat_data d; spider_score := v;
     detection_time := detection_time d;
     recommended_action := recommended_action d |}.

Definition set_severity_level (d : ThreatDetection) (v : Z) : ThreatDetection :=
  {| threat_type := threat_type d; severity_level := v;
     confidence := confidence d; source_ip := source_ip d;
     user_agent := user_agent d; request_path := request_path d;
     threat_data := threat_data d; spider_score := spider_score d;
     detection_time := detection_time d;
     recommended_action := recommended_action d |}.

Definition set_recommended_action (d : ThreatDetection) (v : string) : ThreatDetection :=
  {| threat_type := threat_type d; severity_level := severity_level d;
     confidence := confidence d; source_ip := source_ip d;
     user_agent := user_agent d; request_path := request_path d;
     threat_data := threat_data d; spider_score := spider_score d;
     detection_time := detection_time d;
     recommended_action := v |}.

(** [x < y] on clock readings and scores, as a [bool]. *)
Definition Qltb (x y : Q) : bool := negb (Qle_bool y x).

(** ** [LocalThreatDetector] *)

Module LocalThreatDetector.

Import Re.

Definition pct27_or_quote : regex := alts [lit "%27"; lit "'"].

Definition sql_injection_patterns : list pattern :=
  [ {| source := "(\%27)|(\')|(\-\-)|(\%23)|(#)";
       compiled := alts [lit "%27"; lit "'"; lit "--"; lit "%23"; lit "#"] |};
    {| source := "((\%3D)|(=))[^\n]*((\%27)|(\')|(\-\-)|(\%3B)|(;))";
       compiled := seq [alts [lit "%3D"; lit "="];
                        Star (not_chr Str.newline);
                        alts [lit "%27"; lit "'"; lit "--"; lit "%3B"; lit ";"]] |};
    {| source := "\w*((\%27)|(\'))((\%6F)|o|(\%4F))((\%72)|r|(\%52))";
       compiled := seq [Star word; pct27_or_quote;
                        alts [lit "%6F"; lit "o"; lit "%4F"];
                        alts [lit "%72"; lit "r"; lit "%52"]] |};
    {| source := "((\%27)|(\'))union";
       compiled := seq [pct27_or_quote; lit "union"] |};
    {| source := "exec(\s|\+)+(s|x)p\w+";
       compiled := seq [lit "exec"; plus (alts [space; lit "+"]);
                        alts [lit "s"; lit "x"]; lit "p"; plus word] |} ].

Definition tag_pair (name : string) : regex :=
  seq [lit ("<" +:+ name); Star (not_chr ">"%char); lit ">"; Star dot;
       lit ("</" +:+ name +:+ ">")].

Definition xss_patterns : list pattern :=
  [ {| source := "<script[^>]*>.*?</script>"; compiled := tag_pair "script" |};
    {| source := "javascript:"; compiled := lit "javascript:" |};
    {| source := "on\w+\s*=";
       compiled := seq [lit "on"; plus word; Star space; lit "="] |};
    {| source := "<iframe[^>]*>.*?</iframe>"; compiled := tag_pair "iframe" |};
    {| source := "<object[^>]*>.*?</object>"; compiled := tag_pair "object" |} ].

Definition path_traversal_patterns : list pattern :=
  [ {| source := "\.\.\/"; compiled := lit "../" |};
    {| source := "\.\.\\"; compiled := lit "..\" |};
    {| source := "\%2e\%2e\%2f"; compiled := lit "%2e%2e%2f" |};
    {| source := "\%2e\%2e\/"; compiled := lit "%2e%2e/" |};
    {| source := "\.\.%2f"; compiled := lit "..%2f" |} ].

Definition suspicious_user_agents : list string :=
  [ "sqlmap"; "nikto"; "nmap"; "masscan"; "zap"; "burp";
    "acunetix"; "nessus"; "openvas"; "w3af"; "skipfish" ].

Definition rate_limit_window : Q := 60.
Definition rate_limit_threshold : Z := 100.

(** The detector's mutable state: [request_counts], per IP the list of
    [(timestamp, count)] pairs. *)
Record t := { request_counts : gmap string (list (Q * Z)) }.

Definition init : t := {| request_counts := ∅ |}.

(** The first pattern of [patterns] that [re.search] finds in [input]. *)
Definition first_match (patterns : list pattern) (input : string) : option pattern :=
  List.find (fun p => search (compiled p) input) patterns.

Definition combined_input (path : string) (params : list (string * string)) : string :=
  path +:+ " " +:+ Str.join " " (map snd params).

Definition _check_sql_injection (path : string) (params : list (string * string))
  : option Threat :=
  match first_match sql_injection_patterns (combined_input path params) with
  | Some p => Some {| type := "sql_injection"; severity := 9;
                      evidence := Pattern (source p); location := "path_or_params" |}
  | None => None
  end.

Definition _check_xss (path : string) (params : list (string * string))
  : option Threat :=
  match first_match xss_patterns (combined_input path params) with
  | Some p => Some {| type := "xss"; severity := 7;
                      evidence := Pattern (source p); location := "path_or_params" |}
  | None => None
  end.

Definition _check_path_traversal (path : string) : option Threat :=
  match first_match path_traversal_patterns path with
  | Some p => Some {| type := "path_traversal"; severity := 6;
                      evidence := Pattern (source p); location := "path" |}
  | None => None
  end.

Definition _check_user_agent (user_agent : string) : option Threat :=
  let ua_lower := Str.lower user_agent in
  match List.find (fun suspicious_ua => Str.contains suspicious_ua ua_lower)
                  suspicious_user_agents with
  | Some suspicious_ua =>
      Some {| type := "suspicious_user_agent"; severity := 5;
              evidence := UserAgent suspicious_ua; location := "headers" |}
  | None => None
  end.

(** The comprehension that rebuilds [request_counts]: every IP keeps the
    entries with [timestamp > cutoff_time]. *)
Definition clean (cutoff_time : Q) (requests : list (Q * Z)) : list (Q * Z) :=
  List.filter (fun '(timestamp, _) => Qltb cutoff_time timestamp) requests.

(** [sum(count for _, count in requests)] *)
Definition total (requests : list (Q * Z)) : Z :=
  fold_right (fun '(_, count) acc => count + acc) 0 requests.

Definition _check_rate_limiting (self : t) (ip : string) (current_time : Q)
  : t * option Threat :=
  let cutoff_time := (current_time - rate_limit_window)%Q in
  let cleaned : gmap string (list (Q * Z)) :=
    clean cutoff_time <$> request_counts self in
  let with_ip : gmap string (list (Q * Z)) :=
    match cleaned !! ip with
    | Some _ => cleaned
    | None => <[ip := []]> cleaned
    end in
  let requests := (default [] (with_ip !! ip) ++ [(current_time, 1)])%list in
  let self' := {| request_counts := <[ip := requests]> with_ip |} in
  let total_requests := total requests in
  if rate_limit_threshold <? total_requests then
    (self', Some {| type := "rate_limit_violation"; severity := 6;
                    evidence := RequestCount total_requests rate_limit_threshold;
                    location := "rate_limiting" |})
  else (self', None).

Definition suspicious_headers : list string :=
  [ "x-forwarded-for"; "x-real-ip"; "x-originating-ip" ].

(** [name in suspicious_headers] *)
Definition is_suspicious_header (name : string) : bool :=
  existsb (String.eqb name) suspicious_headers.

Fixpoint _check_suspicious_headers (headers : list (string * string)) : option Threat :=
  match headers with
  | [] => None
  | (header_name, header_value) :: rest =>
      if is_suspicious_header (Str.lower header_name)
         && (Str.has_char Str.newline header_value
             || Str.has_char Str.carriage_return header_value)
      then Some {| type := "header_injection"; severity := 7;
                   evidence := Header header_name; location := "headers" |}
      else _check_suspicious_headers rest
  end.

(** The readings of [time.time()] during one local analysis, in the order
    they are made: at entry, in [_check_rate_limiting], at exit. *)
Record Clock := { start_time : Q; current_time : Q; end_time : Q }.

(** [threats.append(found); max_severity = max(max_severity, found['severity'])]
    when the evaluator found something. *)
Definition record_threat (found : option Threat) (acc : list Threat * Z)
  : list Threat * Z :=
  match found with
  | Some threat => ((fst acc ++ [threat])%list, Z.max (snd acc) (severity threat))
  | None => acc
  end.

Definition primary_threat (threats : list Threat) : string :=
  match threats with
  | first :: _ => type first
  | [] => "none"
  end.

(** [min(0.95, len(threats) * 0.2 + (max_severity / 10) * 0.5)] *)
Definition confidence_of (threats : list Threat) (max_severity : Z) : Q :=
  Qmin (95 # 100)
       (inject_Z (Z.of_nat (length threats)) * (2 # 10)
        + (inject_Z max_severity / 10) * (5 # 10)).

Definition action_of (max_severity : Z) : string :=
  if 8 <=? max_severity then "block_immediately"
  else if 5 <=? max_severity then "rate_limit"
  else if 3 <=? max_severity then "monitor_closely"
  else "allow".

(** [LocalThreatDetector.analyze_request] *)
Definition analyze_request (self : t) (request_data : Request.t) (clock : Clock)
  : t * ThreatDetection :=
  let ip := Request.get Request.ip "" request_data in
  let user_agent := Request.get Request.user_agent "" request_data in
  let path := Request.get Request.path "" request_data in
  let method := Request.get Request.method "GET" request_data in
  let headers := Request.get Request.headers [] request_data in
  let query_params := Request.get Request.query_params [] request_data in
  let acc := ([], 0) in
  let acc := record_threat (_check_sql_injection path query_params) acc in
  let acc := record_threat (_check_xss path query_params) acc in
  let acc := record_threat (_check_path_traversal path) acc in
  let acc := record_threat (_check_user_agent user_agent) acc in
  let '(self', rate_threat) := _check_rate_limiting self ip (current_time clock) in
  let acc := record_threat rate_threat acc in
  let acc := record_threat (_check_suspicious_headers headers) acc in
  let '(threats, max_severity) := acc in
  (self',
   {| threat_type := primary_threat threats;
      severity_level := max_severity;
      confidence := confidence_of threats max_severity;
      source_ip := ip;
      user_agent := user_agent;
      request_path := path;
      threat_data := Threats threats method;
      spider_score := 0;
      detection_time := (end_time clock - start_time clock) * 1000;
      recommended_action := action_of max_severity |}).

End LocalThreatDetector.

(** ** Exceptions and the network *)

Inductive exn := TimeoutError | ClientError | DecodeError | AttributeError.

(** What a call that may raise does. *)
Inductive outcome (A : Type) :=
| Return (a : A)
| Raise (e : exn).
Arguments Return {A} a.
Arguments Raise {A} e.

(** ** [SpiderThreatAPI] *)

Module SpiderThreatAPI.

(** The response body of the threat-intelligence service, a JSON object
    [{threat_score, threat_types, reputation}]; [threat_score] may be
    absent. *)
Record Result := {
  threat_score : option Q;
  threat_types : list string;
  reputation : option string
}.

(** [{"threat_score": 0.0, "threat_types": [], "reputation": "unknown"}] *)
Definition neutral : Result :=
  {| threat_score := Some 0%Q; threat_types := []; reputation := Some "unknown" |}.

Record Payload := {
  source_ip : option string;
  user_agent : option string;
  request_path : option string;
  request_method : string;
  headers : list (string * string);
  analysis_type : string;
  include_reputation : bool;
  include_patterns : bool
}.

(** What [session.post] and [response.json()] do: the service answers
    with a status and a body that parses or not, or the exchange fails
    ([TimeoutError] is the session's own timeout). *)
Inductive http_reply :=
| Response (status : Z) (json : outcome Result)
| Failed (e : exn).

(** [session] is [None] until [initialize] has run; [cache] maps a key
    to [(result, timestamp)]. *)
Record t := {
  session : bool;
  cache : gmap string (Result * Q)
}.

Definition init : t := {| session := false; cache := ∅ |}.
Definition initialize (self : t) : t := {| session := true; cache := cache self |}.

Definition cache_ttl : Q := 300.

Definition cache_key (request_data : Request.t) : string :=
  Md5.hexdigest (Request.get Request.ip "" request_data
                 +:+ Request.get Request.user_agent "" request_data
                 +:+ Request.get Request.path "" request_data).

Definition payload_of (request_data : Request.t) : Payload :=
  {| source_ip := Request.ip request_data;
     user_agent := Request.user_agent request_data;
     request_path := Request.path request_data;
     request_method := Request.get Request.method "GET" request_data;
     headers := Request.get Request.headers [] request_data;
     analysis_type := "real_time";
     include_reputation := true;
     include_patterns := true |}.

(** The cache check at the head of [analyze_threat]; [now] is read only
    when the key is present. *)
Definition cache_lookup (self : t) (request_data : Request.t) (now : Q)
  : option Result :=
  match cache self !! cache_key request_data with
  | Some (cached_result, timestamp) =>
      if Qltb (now - timestamp) cache_ttl then Some cached_result else None
  | None => None
  end.

(** What the two handlers of the [try] do with an exception: each logs
    it and returns the neutral score. *)
Definition recover (e : exn) : Result :=
  match e with
  | TimeoutError => neutral
  | _ => neutral
  end.

(** The body of the [try] once the request is out: the reply is
    inspected, a 200 with a body that parses is cached at time [now] and
    returned. *)
Definition try_post (self : t) (request_data : Request.t)
           (reply : http_reply) (now : Q) : t * outcome Result :=
  match reply with
  | Response status json =>
      if status =? 200 then
        match json with
        | Return result =>
            ({| session := session self;
                cache := <[cache_key request_data := (result, now)]> (cache self) |},
             Return result)
        | Raise e => (self, Raise e)
        end
      else (self, Return neutral)
  | Failed e => (self, Raise e)
  end.

(** The [try] with its two handlers. *)
Definition post_and_recover (self : t) (request_data : Request.t)
           (reply : http_reply) (now : Q) : t * outcome Result :=
  match try_post self request_data reply now with
  | (self', Raise e) => (self', Return (recover e))
  | (self', Return result) => (self', Return result)
  end.

(** [analyze_threat] up to its only suspension point: it has finished, or
    it has issued the request and waits for the reply.  It finishes at
    once from the cache, and also while [self.session] is [None]: then
    [self.session.post] raises [AttributeError] inside the [try] before
    anything is sent, and the handler returns the neutral score. *)
Inductive coroutine :=
| Finished (result : Result)
| Suspended (payload : Payload) (resume : http_reply -> Q -> t * outcome Result).

Definition analyze_threat (self : t) (request_data : Request.t) (now : Q)
  : coroutine :=
  match cache_lookup self request_data now with
  | Some cached_result => Finished cached_result
  | None =>
      if session self
      then Suspended (payload_of request_data) (post_and_recover self request_data)
      else Finished (recover AttributeError)
  end.

(** The network during one call: the reply, how long it takes to come,
    and the clock when it has come. *)
Record Network := { reply : http_reply; latency : Q; arrival : Q }.

(** [await coroutine]: the final state, the result, and the requests
    that went out. *)
Definition await (self : t) (c : coroutine) (net : Network)
  : t * outcome Result * list Payload :=
  match c with
  | Finished result => (self, Return result, [])
  | Suspended payload resume =>
      (resume (reply net) (arrival net), [payload])
  end.

(** [await asyncio.wait_for(coroutine, timeout)]: a coroutine still
    suspended at the deadline is cancelled and [TimeoutError] raised. *)
Definition wait_for (self : t) (c : coroutine) (timeout : Q) (net : Network)
  : t * outcome Result * list Payload :=
  match c with
  | Finished result => (self, Return result, [])
  | Suspended payload resume =>
      if Qltb (latency net) timeout
      then (resume (reply net) (arrival net), [payload])
      else (self, Raise TimeoutError, [payload])
  end.

End SpiderThreatAPI.

(** ** [SentinelBot] *)

Module SentinelBot.

Record t := {
  spider_api : SpiderThreatAPI.t;
  local_detector : LocalThreatDetector.t;
  blocked_ips : gset string;
  whitelist_ips : gset string;
  detection_count : Z;
  avg_detection_time : Q
}.

Definition target_response_time : Q := 50.

Definition init : t :=
  {| spider_api := SpiderThreatAPI.init;
     local_detector := LocalThreatDetector.init;
     blocked_ips := ∅;
     whitelist_ips := ∅;
     detection_count := 0;
     avg_detection_time := 0 |}.

(** What one classification does to the outside world, in order. *)
Inductive event :=
| WaitFor (timeout : Q)
| HttpPost (payload : SpiderThreatAPI.Payload)
| DbInsert (detection : ThreatDetection) (status : string).

(** The outside world during one classification: the readings of
    [time.time()] where the source makes them, and the network. *)
Record Env := {
  t_start : Q;
  t_listed : Q;
  local_clock : LocalThreatDetector.Clock;
  t_cache : Q;
  network : SpiderThreatAPI.Network;
  t_end : Q
}.

Definition _create_safe_detection (request_data : Request.t) (start_time now : Q)
  : ThreatDetection :=
  {| threat_type := "none";
     severity_level := 0;
     confidence := 1;
     source_ip := Request.get Request.ip "" request_data;
     user_agent := Request.get Request.user_agent "" request_data;
     request_path := Request.get Request.path "" request_data;
     threat_data := Status "whitelisted";
     spider_score := 0;
     detection_time := (now - start_time) * 1000;
     recommended_action := "allow" |}.

Definition _create_blocked_detection (request_data : Request.t) (start_time now : Q)
  : ThreatDetection :=
  {| threat_type := "blocked_ip";
     severity_level := 10;
     confidence := 1;
     source_ip := Request.get Request.ip "" request_data;
     user_agent := Request.get Request.user_agent "" request_data;
     request_path := Request.get Request.path "" request_data;
     threat_data := Status "blocked";
     spider_score := 10;
     detection_time := (now - start_time) * 1000;
     recommended_action := "block_immediately" |}.

(** The insert is attempted; a failure is logged and swallowed. *)
Definition _store_threat_detection (detection : ThreatDetection) : event :=
  DbInsert detection (if 0 <? severity_level detection then "active" else "resolved").

Definition _update_metrics (self : t) (detection_time : Q) : t :=
  let detection_time_ms := (detection_time * 1000)%Q in
  let detection_count' := detection_count self + 1 in
  {| spider_api := spider_api self;
     local_detector := local_detector self;
     blocked_ips := blocked_ips self;
     whitelist_ips := whitelist_ips self;
     detection_count := detection_count';
     avg_detection_time :=
       (avg_detection_time self * inject_Z (detection_count' - 1) + detection_time_ms)
       / inject_Z detection_count' |}.

Definition with_local_detector (self : t) (d : LocalThreatDetector.t) : t :=
  {| spider_api := spider_api self; local_detector := d;
     blocked_ips := blocked_ips self; whitelist_ips := whitelist_ips self;
     detection_count := detection_count self;
     avg_detection_time := avg_detection_time self |}.

Definition with_spider_api (self : t) (a : SpiderThreatAPI.t) : t :=
  {| spider_api := a; local_detector := local_detector self;
     blocked_ips := blocked_ips self; whitelist_ips := whitelist_ips self;
     detection_count := detection_count self;
     avg_detection_time := avg_detection_time self |}.

(** The [timeout] handed to [asyncio.wait_for]. *)
Definition remote_timeout : Q := 3 # 100.

(** The statements of the [try] after the remote result has come:
    the score is attached, and a score above 8.0 escalates. *)
Definition apply_spider_result (local_detection : ThreatDetection)
           (spider_result : SpiderThreatAPI.Result) : ThreatDetection :=
  let score := default 0%Q (SpiderThreatAPI.threat_score spider_result) in
  let detection := set_spider_score local_detection score in
  if Qltb 8 score then
    set_recommended_action
      (set_severity_level detection (Z.max (severity_level detection) 9))
      "block_immediately"
  else detection.

(** The [try ... except asyncio.TimeoutError ... except Exception]
    around the remote call. *)
Definition enhance (api : SpiderThreatAPI.t) (request_data : Request.t)
           (local_detection : ThreatDetection) (env : Env)
  : SpiderThreatAPI.t * ThreatDetection * list event :=
  let coroutine := SpiderThreatAPI.analyze_threat api request_data (t_cache env) in
  let '(api', result, posts) :=
    SpiderThreatAPI.wait_for api coroutine remote_timeout (network env) in
  let events := WaitFor remote_timeout :: map HttpPost posts in
  match result with
  | Return spider_result =>
      (api', apply_spider_result local_detection spider_result, events)
  | Raise TimeoutError => (api', local_detection, events)
  | Raise _ => (api', local_detection, events)
  end.

Definition analyze_request (self : t) (request_data : Request.t) (env : Env)
  : t * ThreatDetection * list event :=
  let start_time := t_start env in
  let source_ip := Request.get Request.ip "" request_data in
  if decide (source_ip ∈ whitelist_ips self) then
    (self, _create_safe_detection request_data start_time (t_listed env), [])
  else if decide (source_ip ∈ blocked_ips self) then
    (self, _create_blocked_detection request_data start_time (t_listed env), [])
  else
    let '(detector', local_detection) :=
      LocalThreatDetector.analyze_request
        (local_detector self) request_data (local_clock env) in
    let self := with_local_detector self detector' in
    if 8 <=? severity_level local_detection then
      (_update_metrics self (t_end env - start_time),
       local_detection,
       [_store_threat_detection local_detection])
    else
      let '(api', local_detection, events) :=
        if 5 <=? severity_level local_detection
        then enhance (spider_api self) request_data local_detection env
        else (spider_api self, local_detection, []) in
      let self := with_spider_api self api' in
      (_update_metrics self (t_end env - start_time),
       local_detection,
       (events ++ [_store_threat_detection local_detection])%list).

(** What the local detector returns when a classification reaches it:
    its new state and the local detection. *)
Definition local_result (self : t) (request_data : Request.t) (env : Env)
  : LocalThreatDetector.t * ThreatDetection :=
  LocalThreatDetector.analyze_request
    (local_detector self) request_data (local_clock env).

Definition local_detection (self : t) (request_data : Request.t) (env : Env)
  : ThreatDetection :=
  snd (local_result self request_data env).

Definition after_local (self : t) (request_data : Request.t) (env : Env) : t :=
  with_local_detector self (fst (local_result self request_data env)).

(** [block_ip] and [unblock_ip], on the in-memory set. *)
Definition block_ip (self : t) (ip : string) : t :=
  {| spider_api := spider_api self; local_detector := local_detector self;
     blocked_ips := {[ip]} ∪ blocked_ips self;
     whitelist_ips := whitelist_ips self;
     detection_count := detection_count self;
     avg_detection_time := avg_detection_time self |}.

Definition unblock_ip (self : t) (ip : string) : t :=
  {| spider_api := spider_api self; local_detector := local_detector self;
     blocked_ips := blocked_ips self ∖ {[ip]};
     whitelist_ips := whitelist_ips self;
     detection_count := detection_count self;
     avg_detection_time := avg_detection_time self |}.

End SentinelBot.

(** ** Concrete requests, states and environments *)

Module Scenario.

Import SentinelBot.

Definition request (ip user_agent path : string)
           (headers query_params : list (string * string)) : Request.t :=
  {| Request.ip := Some ip;
     Request.user_agent := Some user_agent;
     Request.path := Some path;
     Request.method := Some "GET";
     Request.headers := Some headers;
     Request.query_params := Some query_params |}.

(** A scanner's user agent and nothing else: local severity 5. *)
Definition scanner : Request.t :=
  request "10.0.0.1" "sqlmap/1.0" "/api/users" [] [].

(** The same source, agent and path, with a quote in a parameter:
    local severity 9. *)
Definition scanner_injecting : Request.t :=
  request "10.0.0.1" "sqlmap/1.0" "/api/users" [] [("id", "1' OR '1'='1")].

(** A path that climbs out of its directory (severity 6), with a line
    break in a forwarding header (severity 7). *)
Definition traversal_with_split_header : Request.t :=
  request "192.168.1.100" "Mozilla/5.0" "/static/../../etc/passwd"
          [ ("X-Forwarded-For",
             "10.0.0.1" +:+ String Str.carriage_return (String Str.newline "Set-Cookie: admin=1")) ]
          [].

(** A browser asking for a page: no threat. *)
Definition browser : Request.t :=
  request "192.168.1.100" "Mozilla/5.0 (Windows NT 10.0; Win64; x64)"
          "/api/users" [] [].

(** A bot after [initialize], with empty lists. *)
Definition ready : t :=
  with_spider_api init (SpiderThreatAPI.initialize SpiderThreatAPI.init).

Definition blocking : t := block_ip ready "10.0.0.1".

(** [whitelist_ips] is set by the operator. *)
Definition allowing (self : t) (ip : string) : t :=
  {| spider_api := spider_api self; local_detector := local_detector self;
     blocked_ips := blocked_ips self;
     whitelist_ips := {[ip]} ∪ whitelist_ips self;
     detection_count := detection_count self;
     avg_detection_time := avg_detection_time self |}.

Definition allowing_and_blocking : t := allowing blocking "10.0.0.1".

Definition scored (score : Q) : SpiderThreatAPI.Result :=
  {| SpiderThreatAPI.threat_score := Some score;
     SpiderThreatAPI.threat_types := ["scanner"];
     SpiderThreatAPI.reputation := Some "malicious" |}.

(** An environment in seconds: the classification starts at [start],
    the local analysis is over [local] later, the service takes
    [latency] to send [reply]. *)
Definition environment (start local latency : Q)
           (reply : SpiderThreatAPI.http_reply) : Env :=
  {| t_start := start;
     t_listed := start + (1 # 1000);
     local_clock := {| LocalThreatDetector.start_time := start;
                       LocalThreatDetector.current_time := start + (1 # 2) * local;
                       LocalThreatDetector.end_time := start + local |};
     t_cache := start + local;
     network := {| SpiderThreatAPI.reply := reply;
                   SpiderThreatAPI.latency := latency;
                   SpiderThreatAPI.arrival := start + local + latency |};
     t_end := start + local + Qmin latency remote_timeout + (1 # 1000) |}.

(** 2 ms of local analysis, the service answers 9.0 after 10 ms. *)
Definition quick_hostile : Env :=
  environment 1000 (2 # 1000) (10 # 1000)
              (SpiderThreatAPI.Response 200 (Return (scored 9))).

(** 2 ms of local analysis, the service answers 6.0 after 10 ms. *)
Definition quick_mild : Env :=
  environment 1000 (2 # 1000) (10 # 1000)
              (SpiderThreatAPI.Response 200 (Return (scored 6))).

(** The service needs 40 ms: the deadline passes first. *)
Definition too_late : Env :=
  environment 1000 (2 # 1000) (40 # 1000)
              (SpiderThreatAPI.Response 200 (Return (scored 9))).

(** The service answers 503. *)
Definition unavailable : Env :=
  environment 1000 (2 # 1000) (10 # 1000)
              (SpiderThreatAPI.Response 503 (Raise DecodeError)).

(** 45 ms of local analysis, so that 5 ms of the 50 ms target remain,
    and the service answers 9.0 after 20 ms. *)
Definition slow_local : Env :=
  environment 1000 (45 # 1000) (20 # 1000)
              (SpiderThreatAPI.Response 200 (Return (scored 9))).

(** One minute after [quick_mild]. *)
Definition a_minute_later : Env :=
  environment 1060 (2 # 1000) (10 # 1000)
              (SpiderThreatAPI.Response 200 (Return (scored 7))).

End Scenario.

(** More requests. *)
Module Requests.

(** A browser following a link with a fragment. *)
Definition browser_fragment : Request.t :=
  Scenario.request "192.168.1.100" "Mozilla/5.0 (Windows NT 10.0; Win64; x64)"
                   "/docs/index.html#install" [] [].

End Requests.

(** ** Reading a trace *)

(** The deadlines of the remote calls a classification issued. *)
Definition deadlines (events : list SentinelBot.event) : list Q :=
  flat_map (fun e => match e with SentinelBot.WaitFor timeout => [timeout] | _ => [] end)
           events.

(** The requests a classification sent to the remote service. *)
Definition posts (events : list SentinelBot.event) : list SpiderThreatAPI.Payload :=
  flat_map (fun e => match e with SentinelBot.HttpPost payload => [payload] | _ => [] end)
           events.

(** ** The deadline of the remote call, as the specification words it

    [min(remaining_budget, 30ms)], the remaining budget being what is left
    of the latency target when the local analysis is over.  In seconds. *)

Definition remaining_budget (env : SentinelBot.Env) : Q :=
  SentinelBot.target_response_time / 1000
  - (LocalThreatDetector.end_time (SentinelBot.local_clock env) - SentinelBot.t_start env).

Definition deadline_of_spec (env : SentinelBot.Env) : Q :=
  Qmin (remaining_budget env) (3 # 100).

(** ** Header values *)

(** The value holds a raw newline or carriage return. *)
Definition raw_line_break (value : string) : Prop :=
  In Str.newline (list_ascii_of_string value)
  \/ In Str.carriage_return (list_ascii_of_string value).

(** A header the evaluator reports: its lower-cased name is one of the
    three forwarding headers and its value holds a raw line break. *)
Definition injected_forwarding_header
           (headers : list (string * string)) (name : string) : Prop :=
  exists value,
    In (name, value) headers
    /\ In (Str.lower name) LocalThreatDetector.suspicious_headers
    /\ raw_line_break value.

Module Headers.

Definition line_break : string :=
  String Str.carriage_return (String Str.newline EmptyString).

(** A line break in a header that is not a forwarding header. *)
Definition split_agent : list (string * string) :=
  [ ("Accept", "*/*");
    ("User-Agent", "Mozilla/5.0" +:+ line_break +:+ "Set-Cookie: admin=1") ].

(** A line break in a forwarding header. *)
Definition split_forwarded : list (string * string) :=
  [ ("Accept", "*/*");
    ("X-Forwarded-For", "10.0.0.1" +:+ line_break +:+ "Set-Cookie: admin=1") ].

End Headers.

(** ** The evaluators of one local analysis, in the order of the source *)

Definition evaluations (self : LocalThreatDetector.t) (request_data : Request.t)
           (clock : LocalThreatDetector.Clock) : list (string * option Threat) :=
  let ip := Request.get Request.ip "" request_data in
  let user_agent := Request.get Request.user_agent "" request_data in
  let path := Request.get Request.path "" request_data in
  let headers := Request.get Request.headers [] request_data in
  let query_params := Request.get Request.query_params [] request_data in
  [ ("sql_injection", LocalThreatDetector._check_sql_injection path query_params);
    ("xss", LocalThreatDetector._check_xss path query_params);
    ("path_traversal", LocalThreatDetector._check_path_traversal path);
    ("suspicious_user_agent", LocalThreatDetector._check_user_agent user_agent);
    ("rate_limit_violation",
      snd (LocalThreatDetector._check_rate_limiting
             self ip (LocalThreatDetector.current_time clock)));
    ("header_injection", LocalThreatDetector._check_suspicious_headers headers) ].

(** The name of the first evaluator that found something, ['none'] when
    none did. *)
Fixpoint first_matching (results : list (string * option Threat)) : string :=
  match results with
  | [] => "none"
  | (name, Some _) :: _ => name
  | (_, None) :: rest => first_matching rest
  end.

(** The threats the evaluators found, in order. *)
Definition found_threats (results : list (string * option Threat)) : list Threat :=
  flat_map (fun '(_, found) => match found with Some t => [t] | None => [] end)
           results.

(** The severities of the evaluators that found something. *)
Definition severities (results : list (string * option Threat)) : list Z :=
  flat_map (fun '(_, found) => match found with Some t => [severity t] | None => [] end)
           results.

(** ** Successive rate checks *)

(** [_check_rate_limiting] called for one IP at the given times, in turn:
    the final state and what each call returned. *)
Fixpoint replay (self : LocalThreatDetector.t) (ip : string) (times : list Q)
  : LocalThreatDetector.t * list (option Threat) :=
  match times with
  | [] => (self, [])
  | now :: rest =>
      let '(self', signal) := LocalThreatDetector._check_rate_limiting self ip now in
      let '(final, signals) := replay self' ip rest in
      (final, signal :: signals)
  end.

(** The requests all fall inside one window: any two are less than
    [rate_limit_window] apart. *)
Definition within_window (times : list Q) : Prop :=
  forall t t', In t times -> In t' times ->
               (t' - LocalThreatDetector.rate_limit_window < t)%Q.

(** The entries of an IP, none when it has no key yet. *)
Definition entries (self : LocalThreatDetector.t) (ip : string) : list (Q * Z) :=
  default [] (LocalThreatDetector.request_counts self !! ip).

(** 101 requests, half a second apart. *)
Definition burst : list Q :=
  map (fun n => (Z.of_nat n # 2)%Q) (List.seq 0 101).

(** ** The remote call of a classification *)

(** What [await asyncio.wait_for(self.spider_api.analyze_threat(request_data), 0.03)]
    gives in a classification that reaches it. *)
Definition remote_outcome (self : SentinelBot.t) (request_data : Request.t)
           (env : SentinelBot.Env) : outcome SpiderThreatAPI.Result :=
  let api := SentinelBot.spider_api self in
  snd (fst (SpiderThreatAPI.wait_for
              api
              (SpiderThreatAPI.analyze_threat api request_data (SentinelBot.t_cache env))
              SentinelBot.remote_timeout (SentinelBot.network env))).

(** [threat_score], 0.0 when the key is absent. *)
Definition score_of (result : SpiderThreatAPI.Result) : Q :=
  default 0%Q (SpiderThreatAPI.threat_score result).

(** The exchange with the service fails: the transport raises (a timeout
    of the session included), the status is not 200, or the body does not
    parse. *)
Definition remote_failure (reply : SpiderThreatAPI.http_reply) : Prop :=
  match reply with
  | SpiderThreatAPI.Failed _ => True
  | SpiderThreatAPI.Response status json =>
      status <> 200 \/ exists e, json = Raise e
  end.

(** ** Successive classifications and their latencies *)

(** The IP of the request is on one of the two lists. *)
Definition listed (self : SentinelBot.t) (request_data : Request.t) : Prop :=
  Request.get Request.ip "" request_data ∈ SentinelBot.whitelist_ips self
  \/ Request.get Request.ip "" request_data ∈ SentinelBot.blocked_ips self.

(** Classifications in turn, each in the state the previous one left. *)
Fixpoint classify_all (self : SentinelBot.t)
         (inputs : list (Request.t * SentinelBot.Env)) : SentinelBot.t :=
  match inputs with
  | [] => self
  | (request_data, env) :: rest =>
      classify_all (fst (fst (SentinelBot.analyze_request self request_data env))) rest
  end.

(** The latency of a classification, in milliseconds. *)
Definition latency_ms (env : SentinelBot.Env) : Q :=
  (SentinelBot.t_end env - SentinelBot.t_start env) * 1000.

(** The latencies of the classifications whose IP is on neither list. *)
Definition recorded_latencies (self : SentinelBot.t)
           (inputs : list (Request.t * SentinelBot.Env)) : list Q :=
  flat_map (fun '(request_data, env) =>
              if decide (listed self request_data) then [] else [latency_ms env])
           inputs.

Definition Qsum (l : list Q) : Q := fold_right Qplus 0%Q l.

(** ** Substrings *)

(** [p] occurs in [s]: [s] is some text, then [p], then some text. *)
Definition occurs_in (p s : string) : Prop :=
  exists before after, s = before +:+ p +:+ after.

(** The texts the five path-traversal patterns stand for: each pattern is
    a sequence of escaped literal characters. *)
Definition path_traversal_literals : list string :=
  [ "../"; "..\"; "%2e%2e%2f"; "%2e%2e/"; "..%2f" ].

(** The values of the query parameters, as [params.values()] lists them. *)
Definition values (params : list (string * string)) : list string := map snd params.

(** ** Reading a detection *)

(** The threats a detection carries; none for a listed IP. *)
Definition threats_of (detection : ThreatDetection) : list Threat :=
  match threat_data detection with
  | Threats threats _ => threats
  | Status _ => []
  end.

(** The rows a classification tried to insert, with their status. *)
Definition db_inserts (events : list SentinelBot.event)
  : list (ThreatDetection * string) :=
  flat_map (fun e => match e with
                     | SentinelBot.DbInsert detection status => [(detection, status)]
                     | _ => []
                     end)
           events.

(** Two requests whose IP, user agent and path differ and run together to
    the same text. *)
Module Collision.

Definition first : Request.t :=
  Scenario.request "10.0.0.1" "23-agent" "/api/users" [] [].

Definition second : Request.t :=
  Scenario.request "10.0.0.12" "3-agent" "/api/users" [] [].

End Collision.

(** ** [SentinelBot.get_threat_stats] *)

Module Reporting.

(** The row the statistics query returns; [AVG] over no score is [NULL]. *)
Record Row := {
  total_threats : Z;
  critical_threats : Z;
  high_threats : Z;
  avg_spider_score : option Q;
  unique_ips : Z
}.

(** The [dict] that [get_threat_stats] returns. *)
Record Stats := {
  stats_total_threats : Z;
  stats_critical_threats : Z;
  stats_high_threats : Z;
  stats_avg_spider_score : Q;
  unique_threat_ips : Z;
  blocked_ips_count : Z;
  avg_detection_time_ms : Q;
  target_met : bool;
  detection_count : Z
}.

(** The query is not guarded: what it raises reaches the caller. *)
Definition get_threat_stats (self : SentinelBot.t) (fetched : outcome Row)
  : outcome Stats :=
  match fetched with
  | Raise e => Raise e
  | Return stats =>
      Return
        {| stats_total_threats := total_threats stats;
           stats_critical_threats := critical_threats stats;
           stats_high_threats := high_threats stats;
           stats_avg_spider_score := default 0%Q (avg_spider_score stats);
           unique_threat_ips := unique_ips stats;
           blocked_ips_count := Z.of_nat (size (SentinelBot.blocked_ips self));
           avg_detection_time_ms := SentinelBot.avg_detection_time self;
           target_met := Qle_bool (SentinelBot.avg_detection_time self)
                                  SentinelBot.target_response_time;
           detection_count := SentinelBot.detection_count self |}
  end.

End Reporting.

(** * Properties *)

(** ** Test vectors for [Md5.hexdigest] *)

Example md5_empty : Md5.hexdigest "" = "d41d8cd98f00b204e9800998ecf8427e".
Proof. vm_compute. reflexivity. Qed.

Example md5_abc : Md5.hexdigest "abc" = "900150983cd24fb0d6963f7d28e17f72".
Proof. vm_compute. reflexivity. Qed.

Example md5_request :
  Md5.hexdigest "10.0.0.1sqlmap/1.0/api/users" = "2e471d68c226da5ec8fd6048bb5482f0".
Proof. vm_compute. reflexivity. Qed.

Example md5_two_blocks :
  Md5.hexdigest "aaaaaaaaaaaaaaaaaaaaaaaaaaaaaaaaaaaaaaaaaaaaaaaaaaaaaaaaaaaaaaaaaaaaaa"
  = "0f5c6c4e740bfcc08c3c26ccb2673d46".
Proof. vm_compute. reflexivity. Qed.

(** A decidable proposition about concrete data, settled by evaluation. *)
Ltac by_computation :=
  refine (bool_decide_unpack _ _); vm_compute; exact I.

(** ** Rational comparisons *)

Lemma Qltb_lt (x y : Q) : Qltb x y = true <-> (x < y)%Q.
Proof.
  unfold Qltb. rewrite negb_true_iff. split.
  - intros H. apply Qnot_le_lt. intros Hle.
    apply Qle_bool_iff in Hle. congruence.
  - intros H. destruct (Qle_bool y x) eqn:E; [|reflexivity].
    apply Qle_bool_iff in E. exfalso. exact (Qlt_not_le _ _ H E).
Qed.

Lemma Qltb_ge (x y : Q) : Qltb x y = false <-> (y <= x)%Q.
Proof.
  unfold Qltb. rewrite negb_false_iff. apply Qle_bool_iff.
Qed.

(** ** The branches of [SentinelBot.analyze_request] *)

Section Branches.

Import SentinelBot.

Variables (self : t) (request_data : Request.t) (env : Env).

Let source_ip := Request.get Request.ip "" request_data.

Local Abbreviation local_detection := (local_detection self request_data env).
Local Abbreviation after_local := (after_local self request_data env).

Lemma analyze_request_whitelisted :
  source_ip ∈ whitelist_ips self ->
  analyze_request self request_data env
  = (self, _create_safe_detection request_data (t_start env) (t_listed env), []).
Proof.
  intros H. unfold analyze_request. fold source_ip.
  destruct (decide (source_ip ∈ whitelist_ips self)); [reflexivity | contradiction].
Qed.

Lemma analyze_request_blocked :
  source_ip ∉ whitelist_ips self ->
  source_ip ∈ blocked_ips self ->
  analyze_request self request_data env
  = (self, _create_blocked_detection request_data (t_start env) (t_listed env), []).
Proof.
  intros Hw Hb. unfold analyze_request. fold source_ip.
  destruct (decide (source_ip ∈ whitelist_ips self)); [contradiction |].
  destruct (decide (source_ip ∈ blocked_ips self)); [reflexivity | contradiction].
Qed.

Lemma analyze_request_unlisted :
  source_ip ∉ whitelist_ips self ->
  source_ip ∉ blocked_ips self ->
  analyze_request self request_data env
  = if 8 <=? severity_level local_detection then
      (_update_metrics after_local (t_end env - t_start env),
       local_detection, [_store_threat_detection local_detection])
    else
      let '(api', detection, events) :=
        if 5 <=? severity_level local_detection
        then enhance (spider_api after_local) request_data local_detection env
        else (spider_api after_local, local_detection, []) in
      (_update_metrics (with_spider_api after_local api') (t_end env - t_start env),
       detection,
       (events ++ [_store_threat_detection detection])%list).
Proof.
  intros Hw Hb. unfold analyze_request. fold source_ip.
  destruct (decide (source_ip ∈ whitelist_ips self)); [contradiction |].
  destruct (decide (source_ip ∈ blocked_ips self)); [contradiction |].
  unfold local_detection, after_local, local_result.
  destruct (LocalThreatDetector.analyze_request _ _ _) as [detector' d].
  reflexivity.
Qed.

Lemma analyze_request_high :
  source_ip ∉ whitelist_ips self ->
  source_ip ∉ blocked_ips self ->
  8 <= severity_level local_detection ->
  analyze_request self request_data env
  = (_update_metrics after_local (t_end env - t_start env),
     local_detection, [_store_threat_detection local_detection]).
Proof.
  intros Hw Hb Hs. rewrite analyze_request_unlisted by assumption.
  apply Z.leb_le in Hs. rewrite Hs. reflexivity.
Qed.

Lemma analyze_request_low :
  source_ip ∉ whitelist_ips self ->
  source_ip ∉ blocked_ips self ->
  severity_level local_detection < 5 ->
  analyze_request self request_data env
  = (_update_metrics after_local (t_end env - t_start env),
     local_detection, [_store_threat_detection local_detection]).
Proof.
  intros Hw Hb Hs. rewrite analyze_request_unlisted by assumption.
  assert (H8 : (8 <=? severity_level local_detection) = false)
    by (apply Z.leb_gt; lia).
  assert (H5 : (5 <=? severity_level local_detection) = false)
    by (apply Z.leb_gt; lia).
  rewrite H8, H5. destruct after_local; reflexivity.
Qed.

Lemma analyze_request_medium :
  source_ip ∉ whitelist_ips self ->
  source_ip ∉ blocked_ips self ->
  5 <= severity_level local_detection < 8 ->
  analyze_request self request_data env
  = let '(api', detection, events) :=
      enhance (spider_api after_local) request_data local_detection env in
    (_update_metrics (with_spider_api after_local api') (t_end env - t_start env),
     detection,
     (events ++ [_store_threat_detection detection])%list).
Proof.
  intros Hw Hb [Hs5 Hs8]. rewrite analyze_request_unlisted by assumption.
  assert (H8 : (8 <=? severity_level local_detection) = false)
    by (apply Z.leb_gt; lia).
  apply Z.leb_le in Hs5. rewrite H8, Hs5. reflexivity.
Qed.

Lemma local_detection_spider_score : spider_score local_detection = 0%Q.
Proof.
  unfold local_detection, local_result, LocalThreatDetector.analyze_request.
  destruct (LocalThreatDetector._check_rate_limiting _ _ _) as [d' rate].
  destruct (LocalThreatDetector.record_threat _ _) as [threats max_severity].
  reflexivity.
Qed.

Lemma local_detection_action :
  recommended_action local_detection
  = LocalThreatDetector.action_of (severity_level local_detection).
Proof.
  unfold local_detection, local_result, LocalThreatDetector.analyze_request.
  destruct (LocalThreatDetector._check_rate_limiting _ _ _) as [d' rate].
  destruct (LocalThreatDetector.record_threat _ _) as [threats max_severity].
  reflexivity.
Qed.

End Branches.

(** ** Allow list before block list *)

(** C10. A request whose source IP is in the allow set and in the block
    set at once is classified as allow-listed: severity 0, action
    [allow], confidence 1.0, nothing else touched. *)
Theorem allow_list_takes_precedence
        (self : SentinelBot.t) (request_data : Request.t) (env : SentinelBot.Env) :
  Request.get Request.ip "" request_data ∈ SentinelBot.whitelist_ips self ->
  Request.get Request.ip "" request_data ∈ SentinelBot.blocked_ips self ->
  let '(self', detection, events) := SentinelBot.analyze_request self request_data env in
  severity_level detection = 0
  /\ recommended_action detection = "allow"
  /\ confidence detection = 1%Q
  /\ threat_type detection = "none"
  /\ threat_data detection = Status "whitelisted"
  /\ self' = self /\ events = [].
Proof.
  intros Hallow _. rewrite analyze_request_whitelisted by exact Hallow.
  cbn. repeat split; reflexivity.
Qed.

(** The scanner's address on both lists at once. *)
Lemma allow_list_takes_precedence_witness :
  let '(self', detection, events) :=
    SentinelBot.analyze_request Scenario.allowing_and_blocking
                                Scenario.scanner Scenario.quick_hostile in
  severity_level detection = 0
  /\ recommended_action detection = "allow"
  /\ confidence detection = 1%Q
  /\ threat_type detection = "none"
  /\ threat_data detection = Status "whitelisted"
  /\ self' = Scenario.allowing_and_blocking /\ events = [].
Proof.
  apply (allow_list_takes_precedence Scenario.allowing_and_blocking
                                     Scenario.scanner Scenario.quick_hostile).
  - by_computation.
  - by_computation.
Defined.

(** ** The remote score of a classification that makes no remote call *)

(** C1, as amended. When the remote service is not consulted (the IP is
    allow-listed or block-listed, or the local severity is at least 8 or
    below 5), no remote call is issued, and the remote score of the result
    is 0, except for a block-listed IP that is not allow-listed, whose
    result carries the remote score 10. *)
Theorem remote_score_without_remote_call
        (self : SentinelBot.t) (request_data : Request.t) (env : SentinelBot.Env) :
  let source_ip := Request.get Request.ip "" request_data in
  let local_severity :=
    severity_level (SentinelBot.local_detection self request_data env) in
  source_ip ∈ SentinelBot.whitelist_ips self
  \/ source_ip ∈ SentinelBot.blocked_ips self
  \/ 8 <= local_severity
  \/ local_severity < 5 ->
  let '(_, detection, events) := SentinelBot.analyze_request self request_data env in
  deadlines events = [] /\ posts events = []
  /\ spider_score detection
     = if decide ((source_ip ∉ SentinelBot.whitelist_ips self)
                  /\ (source_ip ∈ SentinelBot.blocked_ips self))
       then 10%Q else 0%Q.
Proof.
  intros source_ip local_severity H.
  destruct (decide (source_ip ∈ SentinelBot.whitelist_ips self)) as [Hw | Hw].
  { rewrite analyze_request_whitelisted by exact Hw.
    rewrite decide_False by tauto. repeat split; reflexivity. }
  destruct (decide (source_ip ∈ SentinelBot.blocked_ips self)) as [Hb | Hb].
  { rewrite analyze_request_blocked by assumption.
    rewrite decide_True by tauto. repeat split; reflexivity. }
  rewrite decide_False by tauto.
  destruct H as [H | [H | [H | H]]]; try contradiction.
  - rewrite analyze_request_high by assumption.
    repeat split; try reflexivity. apply local_detection_spider_score.
  - rewrite analyze_request_low by assumption.
    repeat split; try reflexivity. apply local_detection_spider_score.
Qed.

(** An injecting request (local severity 9) and a block-listed address. *)
Lemma remote_score_without_remote_call_witness :
  (let '(_, detection, events) :=
     SentinelBot.analyze_request Scenario.ready Scenario.scanner_injecting
                                 Scenario.quick_hostile in
   deadlines events = [] /\ posts events = [] /\ spider_score detection = 0%Q)
  /\ (let '(_, detection, events) :=
        SentinelBot.analyze_request Scenario.blocking Scenario.scanner
                                    Scenario.quick_hostile in
      deadlines events = [] /\ posts events = [] /\ spider_score detection = 10%Q).
Proof.
  split.
  - apply (remote_score_without_remote_call
             Scenario.ready Scenario.scanner_injecting Scenario.quick_hostile).
    right; right; left. vm_compute. discriminate.
  - apply (remote_score_without_remote_call
             Scenario.blocking Scenario.scanner Scenario.quick_hostile).
    right; left. by_computation.
Defined.

(** C1, as stated, fails for a block-listed IP: no remote call is made and
    the remote score of the result is 10, not 0. *)
Lemma blocked_ip_has_remote_score_ten :
  Request.get Request.ip "" Scenario.scanner ∈ SentinelBot.blocked_ips Scenario.blocking
  /\ let '(_, detection, events) :=
       SentinelBot.analyze_request Scenario.blocking Scenario.scanner
                                   Scenario.quick_hostile in
     deadlines events = [] /\ posts events = []
     /\ spider_score detection = 10%Q /\ ~ (spider_score detection == 0)%Q.
Proof.
  split; [by_computation |].
  rewrite analyze_request_blocked; [| by_computation | by_computation].
  cbn. repeat split. discriminate.
Qed.

(** ** The remote call and its deadline *)

Lemma deadlines_posts (payloads : list SpiderThreatAPI.Payload) :
  deadlines (map SentinelBot.HttpPost payloads) = [].
Proof. induction payloads; [reflexivity | exact IHpayloads]. Qed.

Lemma posts_posts (payloads : list SpiderThreatAPI.Payload) :
  posts (map SentinelBot.HttpPost payloads) = payloads.
Proof.
  induction payloads as [| p rest IH]; [reflexivity |].
  change (p :: posts (map SentinelBot.HttpPost rest) = p :: rest). now rewrite IH.
Qed.

Section Enhance.

Import SentinelBot.

Variables (api : SpiderThreatAPI.t) (request_data : Request.t)
          (local : ThreatDetection) (env : Env).

(** The entry is in the cache and fresh: nothing is sent. *)
Lemma enhance_cached (cached_result : SpiderThreatAPI.Result) :
  SpiderThreatAPI.cache_lookup api request_data (t_cache env) = Some cached_result ->
  enhance api request_data local env
  = (api, apply_spider_result local cached_result, [WaitFor remote_timeout]).
Proof.
  intros H. unfold enhance, SpiderThreatAPI.analyze_threat. rewrite H. reflexivity.
Qed.

(** The request is sent and the reply does not come before the deadline. *)
Lemma enhance_late :
  SpiderThreatAPI.cache_lookup api request_data (t_cache env) = None ->
  SpiderThreatAPI.session api = true ->
  (remote_timeout <= SpiderThreatAPI.latency (network env))%Q ->
  enhance api request_data local env
  = (api, local,
     [WaitFor remote_timeout; HttpPost (SpiderThreatAPI.payload_of request_data)]).
Proof.
  intros H Hsession Hlate. apply Qltb_ge in Hlate.
  unfold enhance, SpiderThreatAPI.analyze_threat, SpiderThreatAPI.wait_for.
  rewrite H, Hsession, Hlate. reflexivity.
Qed.

(** The session is closed: the call finishes at once with the neutral
    score and nothing is sent. *)
Lemma enhance_closed :
  SpiderThreatAPI.cache_lookup api request_data (t_cache env) = None ->
  SpiderThreatAPI.session api = false ->
  enhance api request_data local env
  = (api, apply_spider_result local SpiderThreatAPI.neutral, [WaitFor remote_timeout]).
Proof.
  intros H Hsession.
  unfold enhance, SpiderThreatAPI.analyze_threat, SpiderThreatAPI.wait_for.
  rewrite H, Hsession. reflexivity.
Qed.

(** The request is sent and the reply comes before the deadline. *)
Lemma enhance_in_time :
  SpiderThreatAPI.cache_lookup api request_data (t_cache env) = None ->
  SpiderThreatAPI.session api = true ->
  (SpiderThreatAPI.latency (network env) < remote_timeout)%Q ->
  enhance api request_data local env
  = let '(api', result) :=
      SpiderThreatAPI.post_and_recover
        api request_data (SpiderThreatAPI.reply (network env))
        (SpiderThreatAPI.arrival (network env)) in
    (api',
     match result with
     | Return spider_result => apply_spider_result local spider_result
     | Raise _ => local
     end,
     [WaitFor remote_timeout; HttpPost (SpiderThreatAPI.payload_of request_data)]).
Proof.
  intros H Hsession Hin. apply Qltb_lt in Hin.
  unfold enhance, SpiderThreatAPI.analyze_threat, SpiderThreatAPI.wait_for.
  rewrite H, Hsession, Hin.
  destruct (SpiderThreatAPI.post_and_recover _ _ _ _) as [api' [r | []]];
    reflexivity.
Qed.

(** Whatever happens, one call with the one deadline. *)
Lemma enhance_deadlines :
  deadlines (snd (enhance api request_data local env)) = [remote_timeout].
Proof.
  unfold enhance.
  destruct (SpiderThreatAPI.wait_for _ _ _ _) as [[api' [r | e]] payloads];
    [| destruct e]; cbn; rewrite deadlines_posts; reflexivity.
Qed.

End Enhance.

Lemma deadlines_app (xs ys : list SentinelBot.event) :
  deadlines (xs ++ ys) = (deadlines xs ++ deadlines ys)%list.
Proof. apply flat_map_app. Qed.

Lemma posts_app (xs ys : list SentinelBot.event) :
  posts (xs ++ ys) = (posts xs ++ posts ys)%list.
Proof. apply flat_map_app. Qed.

(** C2, as amended. A classification whose IP is on neither list and
    whose local severity is in [5, 8) issues one remote call, with the
    fixed deadline of 30 ms whatever time has elapsed; that is the
    deadline of the specification exactly when at least 30 ms of the
    budget remain. *)
Theorem remote_deadline_is_fixed
        (self : SentinelBot.t) (request_data : Request.t) (env : SentinelBot.Env) :
  Request.get Request.ip "" request_data ∉ SentinelBot.whitelist_ips self ->
  Request.get Request.ip "" request_data ∉ SentinelBot.blocked_ips self ->
  5 <= severity_level (SentinelBot.local_detection self request_data env) < 8 ->
  deadlines (snd (SentinelBot.analyze_request self request_data env)) = [3 # 100]
  /\ ((3 # 100 == deadline_of_spec env)%Q <-> (3 # 100 <= remaining_budget env)%Q).
Proof.
  intros Hw Hb Hs. split.
  - rewrite analyze_request_medium by assumption.
    pose proof (enhance_deadlines
                  (SentinelBot.spider_api (SentinelBot.after_local self request_data env))
                  request_data
                  (SentinelBot.local_detection self request_data env) env) as Hd.
    destruct (SentinelBot.enhance _ _ _ _) as [[api' detection] events].
    unfold snd in Hd |- *. rewrite deadlines_app, Hd. reflexivity.
  - unfold deadline_of_spec. split.
    + intros Heq. rewrite Heq. apply Q.le_min_l.
    + intros Hle. symmetry. apply Q.min_r. exact Hle.
Qed.

(** The scanner's request after 2 ms of local analysis. *)
Lemma remote_deadline_is_fixed_witness :
  deadlines (snd (SentinelBot.analyze_request
                    Scenario.ready Scenario.scanner Scenario.quick_hostile))
  = [3 # 100]
  /\ ((3 # 100 == deadline_of_spec Scenario.quick_hostile)%Q
      <-> (3 # 100 <= remaining_budget Scenario.quick_hostile)%Q).
Proof.
  apply (remote_deadline_is_fixed Scenario.ready Scenario.scanner Scenario.quick_hostile).
  - by_computation.
  - by_computation.
  - vm_compute. split; [discriminate | reflexivity].
Defined.

(** C2, as stated, fails when less than 30 ms of the budget remain.  After
    45 ms of local analysis 5 ms of the 50 ms target are left; the call
    is issued with a deadline of 30 ms all the same, and the score of a
    reply that takes 20 ms is attached to the result. *)
Lemma deadline_ignores_remaining_budget :
  5 <= severity_level (SentinelBot.local_detection
                         Scenario.ready Scenario.scanner Scenario.slow_local) < 8
  /\ (deadline_of_spec Scenario.slow_local == 5 # 1000)%Q
  /\ let '(_, detection, events) :=
       SentinelBot.analyze_request Scenario.ready Scenario.scanner Scenario.slow_local in
     deadlines events = [3 # 100]
     /\ ~ (3 # 100 == deadline_of_spec Scenario.slow_local)%Q
     /\ spider_score detection = 9%Q.
Proof.
  split; [vm_compute; split; [discriminate | reflexivity] |].
  split; [vm_compute; reflexivity |].
  vm_compute. repeat split. discriminate.
Qed.

(** ** The header evaluator *)

Lemma has_char_In (c : ascii) (s : string) :
  Str.has_char c s = true <-> In c (list_ascii_of_string s).
Proof.
  induction s as [| a s IH]; cbn.
  - split; [discriminate | tauto].
  - rewrite orb_true_iff, IH, Ascii.eqb_eq. tauto.
Qed.

Lemma line_break_spec (value : string) :
  Str.has_char Str.newline value || Str.has_char Str.carriage_return value = true
  <-> raw_line_break value.
Proof.
  unfold raw_line_break. rewrite orb_true_iff, !has_char_In. tauto.
Qed.

Lemma is_suspicious_header_spec (name : string) :
  LocalThreatDetector.is_suspicious_header name = true
  <-> In name LocalThreatDetector.suspicious_headers.
Proof.
  unfold LocalThreatDetector.is_suspicious_header. rewrite existsb_exists. split.
  - intros [x [Hin Heq]]. apply String.eqb_eq in Heq. now subst.
  - intros Hin. exists name. split; [exact Hin | apply String.eqb_refl].
Qed.

(** C3, as amended. The header evaluator produces a signal exactly when
    some header whose lower-cased name is [x-forwarded-for], [x-real-ip]
    or [x-originating-ip] has a value holding a raw newline or carriage
    return; the signal has type [header_injection] and severity 7 and
    names such a header.  Line breaks in other headers are not looked at. *)
Theorem header_injection_in_forwarding_headers (headers : list (string * string)) :
  ((exists name, injected_forwarding_header headers name)
   <-> exists threat, LocalThreatDetector._check_suspicious_headers headers = Some threat)
  /\ (forall threat,
        LocalThreatDetector._check_suspicious_headers headers = Some threat ->
        type threat = "header_injection" /\ severity threat = 7
        /\ exists name, evidence threat = Header name
                        /\ injected_forwarding_header headers name).
Proof.
  induction headers as [| [name value] rest [IHiff IHsome]].
  - split.
    + split; [intros [n [v [[] _]]] | intros [t Ht]; discriminate].
    + intros t Ht. discriminate.
  - cbn [LocalThreatDetector._check_suspicious_headers].
    destruct (LocalThreatDetector.is_suspicious_header (Str.lower name)
              && (Str.has_char Str.newline value
                  || Str.has_char Str.carriage_return value)) eqn:E.
    + apply andb_true_iff in E as [Hname Hvalue].
      apply is_suspicious_header_spec in Hname. apply line_break_spec in Hvalue.
      assert (Hhere : injected_forwarding_header ((name, value) :: rest) name)
        by (exists value; cbn; tauto).
      split.
      * split; [eauto | intros _; eauto].
      * intros t Ht. injection Ht as <-. cbn. eauto.
    + assert (Hnot : ~ (In (Str.lower name) LocalThreatDetector.suspicious_headers
                        /\ raw_line_break value)).
      { rewrite <- is_suspicious_header_spec, <- line_break_spec.
        rewrite <- andb_true_iff, E. discriminate. }
      assert (Hweak : forall n, injected_forwarding_header rest n ->
                                injected_forwarding_header ((name, value) :: rest) n).
      { intros n [v [Hin Hrest]]. exists v. cbn. tauto. }
      split.
      * rewrite <- IHiff. split.
        -- intros [n [v [[Heq | Hin] [Hn Hv]]]].
           ++ injection Heq as -> ->. tauto.
           ++ exists n, v. tauto.
        -- intros [n Hn]. eauto.
      * intros t Ht. destruct (IHsome t Ht) as [Hty [Hsev [n [Hev Hn]]]]. eauto 6.
Qed.

(** A line break in [X-Forwarded-For] is reported. *)
Lemma header_injection_in_forwarding_headers_witness :
  exists threat,
    LocalThreatDetector._check_suspicious_headers Headers.split_forwarded = Some threat.
Proof.
  apply (proj1 (header_injection_in_forwarding_headers Headers.split_forwarded)).
  exists "X-Forwarded-For". eexists. split; [right; left; reflexivity |].
  split; [left; reflexivity |]. right. vm_compute. tauto.
Defined.

(** C3, as stated, fails for a header that is not a forwarding header: a
    [User-Agent] value with a raw carriage return and newline produces no
    signal. *)
Lemma line_break_in_other_header_is_ignored :
  (exists name value, In (name, value) Headers.split_agent /\ raw_line_break value)
  /\ LocalThreatDetector._check_suspicious_headers Headers.split_agent = None.
Proof.
  split; [| reflexivity].
  eexists. eexists. split; [right; left; reflexivity |].
  left. vm_compute. tauto.
Qed.

(** ** The primary threat type *)

Section EvaluatorTypes.

Import LocalThreatDetector.

Lemma _check_sql_injection_type path params threat :
  _check_sql_injection path params = Some threat ->
  type threat = "sql_injection" /\ severity threat = 9.
Proof.
  unfold _check_sql_injection. destruct (first_match _ _); [| discriminate].
  intros [= <-]. split; reflexivity.
Qed.

Lemma _check_xss_type path params threat :
  _check_xss path params = Some threat ->
  type threat = "xss" /\ severity threat = 7.
Proof.
  unfold _check_xss. destruct (first_match _ _); [| discriminate].
  intros [= <-]. split; reflexivity.
Qed.

Lemma _check_path_traversal_type path threat :
  _check_path_traversal path = Some threat ->
  type threat = "path_traversal" /\ severity threat = 6.
Proof.
  unfold _check_path_traversal. destruct (first_match _ _); [| discriminate].
  intros [= <-]. split; reflexivity.
Qed.

Lemma _check_user_agent_type user_agent threat :
  _check_user_agent user_agent = Some threat ->
  type threat = "suspicious_user_agent" /\ severity threat = 5.
Proof.
  unfold _check_user_agent. destruct (List.find _ _); [| discriminate].
  intros [= <-]. split; reflexivity.
Qed.

Lemma _check_rate_limiting_type self ip now threat :
  snd (_check_rate_limiting self ip now) = Some threat ->
  type threat = "rate_limit_violation" /\ severity threat = 6.
Proof.
  unfold _check_rate_limiting. destruct (rate_limit_threshold <? _); [| discriminate].
  intros [= <-]. split; reflexivity.
Qed.

Lemma _check_suspicious_headers_type headers threat :
  _check_suspicious_headers headers = Some threat ->
  type threat = "header_injection" /\ severity threat = 7.
Proof.
  induction headers as [| [name value] rest IH]; [discriminate |].
  cbn [_check_suspicious_headers]. destruct (_ && _); [| exact IH].
  intros [= <-]. split; reflexivity.
Qed.

End EvaluatorTypes.

(** The threats and the severity a local analysis reports are those its
    six evaluations have accumulated. *)
Lemma analyze_request_accumulates
      (self : LocalThreatDetector.t) (request_data : Request.t)
      (clock : LocalThreatDetector.Clock) :
  let detection := snd (LocalThreatDetector.analyze_request self request_data clock) in
  let acc :=
    fold_left (fun acc result => LocalThreatDetector.record_threat (snd result) acc)
              (evaluations self request_data clock) ([], 0) in
  threat_type detection = LocalThreatDetector.primary_threat (fst acc)
  /\ severity_level detection = snd acc.
Proof.
  unfold LocalThreatDetector.analyze_request, evaluations. cbn [fold_left].
  destruct (LocalThreatDetector._check_rate_limiting _ _ _) as [self' rate].
  cbn [snd].
  destruct (LocalThreatDetector.record_threat _ _) as [threats max_severity].
  split; reflexivity.
Qed.

Lemma accumulate_spec (results : list (string * option Threat))
      (threats : list Threat) (max_severity : Z) :
  fold_left (fun acc result => LocalThreatDetector.record_threat (snd result) acc)
            results (threats, max_severity)
  = ((threats ++ found_threats results)%list,
     fold_left Z.max (severities results) max_severity).
Proof.
  revert threats max_severity.
  induction results as [| [name [t |]] rest IH]; intros threats max_severity.
  - cbn. now rewrite app_nil_r.
  - cbn [fold_left snd LocalThreatDetector.record_threat fst].
    rewrite IH. cbn. now rewrite <- app_assoc.
  - cbn [fold_left snd LocalThreatDetector.record_threat]. rewrite IH. reflexivity.
Qed.

Lemma fold_max_from (l : list Z) (m : Z) :
  0 <= m -> fold_left Z.max l m = Z.max m (fold_right Z.max 0 l).
Proof.
  revert m. induction l as [| a l IH]; intros m Hm; cbn.
  - lia.
  - rewrite IH by lia. lia.
Qed.

Lemma fold_max_nonneg (l : list Z) : 0 <= fold_right Z.max 0 l.
Proof. induction l as [| a l IH]; cbn; lia. Qed.

Lemma primary_threat_first_matching (results : list (string * option Threat)) :
  (forall name threat, In (name, Some threat) results -> type threat = name) ->
  LocalThreatDetector.primary_threat (found_threats results) = first_matching results.
Proof.
  induction results as [| [name [t |]] rest IH]; intros Hnames.
  - reflexivity.
  - cbn. apply Hnames. now left.
  - cbn. apply IH. intros n t Hin. apply Hnames. now right.
Qed.

Lemma evaluations_types
      (self : LocalThreatDetector.t) (request_data : Request.t)
      (clock : LocalThreatDetector.Clock) (name : string) (threat : Threat) :
  In (name, Some threat) (evaluations self request_data clock) -> type threat = name.
Proof.
  intros Hin. unfold evaluations in Hin. cbn [In] in Hin.
  destruct Hin as [H | [H | [H | [H | [H | [H | []]]]]]];
    injection H as <- H.
  - now apply _check_sql_injection_type in H.
  - now apply _check_xss_type in H.
  - now apply _check_path_traversal_type in H.
  - now apply _check_user_agent_type in H.
  - now apply _check_rate_limiting_type in H.
  - now apply _check_suspicious_headers_type in H.
Qed.

(** C7. The primary threat type of a local analysis is the type of the
    first evaluator, in the order sql_injection, xss, path_traversal,
    suspicious_user_agent, rate_limit_violation, header_injection, that
    found something, and ['none'] when none did; the severity is the
    greatest among those found, wherever it was found.  A path traversal
    (severity 6) followed by a header injection (severity 7) is reported
    as [path_traversal] with severity 7. *)
Theorem primary_threat_is_first_match
        (self : LocalThreatDetector.t) (request_data : Request.t)
        (clock : LocalThreatDetector.Clock) :
  let detection := snd (LocalThreatDetector.analyze_request self request_data clock) in
  threat_type detection = first_matching (evaluations self request_data clock)
  /\ severity_level detection
     = fold_right Z.max 0 (severities (evaluations self request_data clock))
  /\ (forall name threat,
        In (name, Some threat) (evaluations self request_data clock) ->
        type threat = name)
  /\ let mixed :=
       snd (LocalThreatDetector.analyze_request
              LocalThreatDetector.init Scenario.traversal_with_split_header clock) in
     threat_type mixed = "path_traversal" /\ severity_level mixed = 7.
Proof.
  cbv zeta.
  destruct (analyze_request_accumulates self request_data clock) as [Htype Hseverity].
  cbv zeta in Htype, Hseverity. rewrite Htype, Hseverity. clear Htype Hseverity.
  rewrite accumulate_spec. cbn [fst snd app].
  split; [| split; [| split]].
  - apply primary_threat_first_matching, evaluations_types.
  - rewrite fold_max_from by lia.
    pose proof (fold_max_nonneg (severities (evaluations self request_data clock))).
    lia.
  - apply evaluations_types.
  - vm_compute. split; reflexivity.
Qed.

(** ** The rate window *)

Section RateWindow.

Import LocalThreatDetector.

Lemma clean_In cutoff requests timestamp count :
  In (timestamp, count) (clean cutoff requests)
  <-> In (timestamp, count) requests /\ (cutoff < timestamp)%Q.
Proof.
  unfold clean. rewrite filter_In, Qltb_lt. reflexivity.
Qed.

Lemma clean_keeps cutoff (times : list Q) :
  (forall t, In t times -> (cutoff < t)%Q) ->
  clean cutoff (map (fun t => (t, 1)) times) = map (fun t => (t, 1)) times.
Proof.
  induction times as [| t rest IH]; intros H; [reflexivity |].
  cbn. rewrite (proj2 (Qltb_lt cutoff t)) by (apply H; now left).
  f_equal. apply IH. intros t' Ht'. apply H. now right.
Qed.

Lemma total_app xs ys : total (xs ++ ys) = total xs + total ys.
Proof.
  induction xs as [| [t c] xs IH]; [reflexivity |].
  change (c + total (xs ++ ys) = c + total xs + total ys). rewrite IH. lia.
Qed.

Lemma total_ones (requests : list (Q * Z)) :
  Forall (fun entry => snd entry = 1) requests ->
  total requests = Z.of_nat (length requests).
Proof.
  induction 1 as [| [t c] rest Hc _ IH]; [reflexivity |].
  change (c + total rest = Z.of_nat (S (length rest))).
  cbn in Hc. subst c. rewrite IH. lia.
Qed.

(** One call: the window of [ip] becomes the entries newer than the
    cutoff followed by the current request. *)
Lemma _check_rate_limiting_spec (self : t) (ip : string) (now : Q) :
  let window :=
    (clean (now - rate_limit_window) (entries self ip) ++ [(now, 1)])%list in
  _check_rate_limiting self ip now
  = ({| request_counts :=
          <[ip := window]> (clean (now - rate_limit_window) <$> request_counts self) |},
     if rate_limit_threshold <? total window
     then Some {| type := "rate_limit_violation"; severity := 6;
                  evidence := RequestCount (total window) rate_limit_threshold;
                  location := "rate_limiting" |}
     else None).
Proof.
  unfold _check_rate_limiting, entries. cbv zeta.
  rewrite lookup_fmap.
  destruct (request_counts self !! ip) as [requests |] eqn:E; cbn [fmap option_fmap option_map].
  - rewrite lookup_fmap, E. cbn.
    destruct (rate_limit_threshold <? _); reflexivity.
  - rewrite lookup_insert_eq, insert_insert_eq. cbn.
    destruct (rate_limit_threshold <? _); reflexivity.
Qed.

Lemma replay_from (ip : string) (times done : list Q) (self : t) :
  entries self ip = map (fun t => (t, 1)) done ->
  (forall t t', In t done -> In t' times -> (t' - rate_limit_window < t)%Q) ->
  within_window times ->
  forall n, (n < length times)%nat ->
            nth n (snd (replay self ip times)) None <> None
            <-> (100 < length done + S n)%nat.
Proof.
  revert done self.
  induction times as [| now rest IH]; intros done self Hentries Hdone Hin n Hn;
    [cbn in Hn; lia |].
  cbn [replay]. rewrite _check_rate_limiting_spec. cbv zeta.
  rewrite Hentries, clean_keeps
    by (intros t Ht; apply (Hdone t now Ht); now left).
  set (self' := {| request_counts := _ |}).
  assert (Hentries' : entries self' ip = map (fun t => (t, 1)) (done ++ [now])).
  { unfold entries, self'. cbn. rewrite lookup_insert_eq. cbn.
    now rewrite map_app. }
  assert (Htotal : total (map (fun t : Q => (t, 1)) done ++ [(now, 1)])
                   = Z.of_nat (length done) + 1).
  { rewrite total_app, total_ones.
    - rewrite length_map. reflexivity.
    - apply List.Forall_forall. intros [t c] Hx. apply in_map_iff in Hx as [x [Hx _]].
      now injection Hx as _ <-. }
  specialize (IH (done ++ [now])%list self' Hentries').
  destruct (replay self' ip rest) as [final signals]. cbn [snd] in IH |- *.
  destruct n as [| n].
  - cbn [nth]. rewrite Htotal. unfold rate_limit_threshold.
    destruct (100 <? Z.of_nat (length done) + 1) eqn:E.
    + apply Z.ltb_lt in E. split; [intros _; lia | intros _; discriminate].
    + apply Z.ltb_ge in E. split; [intros H; now elim H | intros H; lia].
  - cbn [nth]. rewrite IH.
    + rewrite length_app. cbn. lia.
    + intros t t' Ht Ht'. apply in_app_iff in Ht as [Ht | [<- | []]].
      * apply (Hdone t t' Ht). now right.
      * apply Hin; [now left | now right].
    + intros t t' Ht Ht'. apply Hin; now right.
    + cbn in Hn. lia.
Qed.

Lemma within_window_check (times : list Q) :
  forallb (fun t => forallb (fun t' => Qltb (t' - rate_limit_window) t) times) times
  = true ->
  within_window times.
Proof.
  intros H t t' Ht Ht'. rewrite forallb_forall in H.
  specialize (H t Ht). rewrite forallb_forall in H.
  apply Qltb_lt, H, Ht'.
Qed.

End RateWindow.

(** C6. A call of the rate-window evaluator drops, for the IP, every
    entry that is not newer than now minus the 60 s window (so all older
    ones), appends the current request, and returns a
    [rate_limit_violation] signal exactly when the count in the window
    exceeds 100.  Hence, for requests of one IP that all fall inside one
    window, starting with no entry for that IP, the signal appears on the
    101st and every later request and on none before. *)
Theorem rate_limit_after_threshold (self : LocalThreatDetector.t) (ip : string) :
  (forall now,
      let cutoff := (now - 60)%Q in
      let window :=
        (LocalThreatDetector.clean cutoff (entries self ip) ++ [(now, 1)])%list in
      let '(self', signal) := LocalThreatDetector._check_rate_limiting self ip now in
      entries self' ip = window
      /\ (forall timestamp count,
            In (timestamp, count) (LocalThreatDetector.clean cutoff (entries self ip))
            <-> In (timestamp, count) (entries self ip) /\ (cutoff < timestamp)%Q)
      /\ (Forall (fun entry => snd entry = 1) (entries self ip) ->
          LocalThreatDetector.total window = Z.of_nat (length window))
      /\ (signal <> None <-> 100 < LocalThreatDetector.total window)
      /\ (forall threat, signal = Some threat ->
                         type threat = "rate_limit_violation" /\ severity threat = 6))
  /\ (forall times,
         entries self ip = [] ->
         within_window times ->
         forall n, (n < length times)%nat ->
                   nth n (snd (replay self ip times)) None <> None <-> (101 <= S n)%nat).
Proof.
  split.
  - intros now. cbv zeta. rewrite _check_rate_limiting_spec. cbv zeta.
    fold LocalThreatDetector.rate_limit_window.
    set (window := (_ ++ _)%list).
    split; [| split; [| split; [| split]]].
    + unfold entries at 1. cbn. now rewrite lookup_insert_eq.
    + intros timestamp count. apply clean_In.
    + intros Hones. apply total_ones. unfold window.
      apply List.Forall_app. split.
      * apply List.Forall_forall. intros [t c] Hx. apply clean_In in Hx as [Hx _].
        rewrite List.Forall_forall in Hones. exact (Hones _ Hx).
      * repeat constructor.
    + unfold LocalThreatDetector.rate_limit_threshold.
      destruct (100 <? LocalThreatDetector.total window) eqn:E.
      * apply Z.ltb_lt in E. split; [intros _; exact E | intros _; discriminate].
      * apply Z.ltb_ge in E. split; [intros H; now elim H | intros H; lia].
    + intros threat.
      destruct (LocalThreatDetector.rate_limit_threshold <? _); [| discriminate].
      intros [= <-]. split; reflexivity.
  - intros times Hempty Hin n Hn.
    rewrite (replay_from ip times [] self Hempty); [cbn; lia | | exact Hin | exact Hn].
    intros t t' [].
Qed.

(** 101 requests in 50 s: the 100th passes, the 101st is flagged. *)
Lemma rate_limit_after_threshold_witness :
  nth 99 (snd (replay LocalThreatDetector.init "10.0.0.1" burst)) None = None
  /\ nth 100 (snd (replay LocalThreatDetector.init "10.0.0.1" burst)) None <> None.
Proof.
  pose proof (proj2 (rate_limit_after_threshold LocalThreatDetector.init "10.0.0.1")
                    burst eq_refl
                    (within_window_check burst eq_refl)) as H.
  split.
  - destruct (nth 99 (snd (replay LocalThreatDetector.init "10.0.0.1" burst)) None)
      as [threat |] eqn:E; [| reflexivity].
    exfalso.
    assert (Hsome : Some threat <> None) by discriminate.
    rewrite <- E in Hsome.
    apply (H 99%nat) in Hsome; [lia | cbn; lia].
  - apply (H 100%nat); [cbn; lia | lia].
Defined.

(** ** Escalation by the remote score, and what a failed call leaves *)

Lemma set_spider_score_same (d : ThreatDetection) (v : Q) :
  spider_score d = v -> set_spider_score d v = d.
Proof. destruct d. cbn. now intros <-. Qed.

Lemma post_and_recover_failure
      (api : SpiderThreatAPI.t) (request_data : Request.t)
      (reply : SpiderThreatAPI.http_reply) (now : Q) :
  remote_failure reply ->
  SpiderThreatAPI.post_and_recover api request_data reply now
  = (api, Return SpiderThreatAPI.neutral).
Proof.
  unfold SpiderThreatAPI.post_and_recover, SpiderThreatAPI.try_post.
  destruct reply as [status json | e]; cbn.
  - intros [Hstatus | [e ->]].
    + apply Z.eqb_neq in Hstatus. now rewrite Hstatus.
    + destruct (status =? 200); [destruct e |]; reflexivity.
  - intros _. destruct e; reflexivity.
Qed.

Lemma post_and_recover_returns
      (api : SpiderThreatAPI.t) (request_data : Request.t)
      (reply : SpiderThreatAPI.http_reply) (now : Q) :
  exists result,
    snd (SpiderThreatAPI.post_and_recover api request_data reply now) = Return result.
Proof.
  unfold SpiderThreatAPI.post_and_recover, SpiderThreatAPI.try_post.
  destruct reply as [status [result | e] | e]; cbn;
    try destruct (status =? 200); try destruct e; eexists; reflexivity.
Qed.

Section Medium.

Import SentinelBot.

Variables (self : t) (request_data : Request.t) (env : Env).

Hypothesis not_allowed : Request.get Request.ip "" request_data ∉ whitelist_ips self.
Hypothesis not_blocked : Request.get Request.ip "" request_data ∉ blocked_ips self.
Hypothesis medium : 5 <= severity_level (local_detection self request_data env) < 8.

(** The detection of a classification that reaches the remote call. *)
Lemma medium_detection :
  snd (fst (analyze_request self request_data env))
  = match remote_outcome self request_data env with
    | Return spider_result =>
        apply_spider_result (local_detection self request_data env) spider_result
    | Raise _ => local_detection self request_data env
    end.
Proof.
  rewrite analyze_request_medium by assumption.
  unfold remote_outcome, enhance.
  change (spider_api (after_local self request_data env)) with (spider_api self).
  destruct (SpiderThreatAPI.wait_for _ _ _ _) as [[api' [r | e]] payloads];
    [| destruct e]; reflexivity.
Qed.

Lemma medium_action :
  recommended_action (local_detection self request_data env) = "rate_limit".
Proof.
  rewrite local_detection_action. unfold LocalThreatDetector.action_of.
  destruct medium as [H5 H8].
  assert (E8 : (8 <=? severity_level (local_detection self request_data env)) = false)
    by (apply Z.leb_gt; lia).
  apply Z.leb_le in H5. now rewrite E8, H5.
Qed.

Lemma remote_outcome_late :
  SpiderThreatAPI.cache_lookup (spider_api self) request_data (t_cache env) = None ->
  SpiderThreatAPI.session (spider_api self) = true ->
  (remote_timeout <= SpiderThreatAPI.latency (network env))%Q ->
  remote_outcome self request_data env = Raise TimeoutError.
Proof.
  intros Hmiss Hsession Hlate. apply Qltb_ge in Hlate.
  unfold remote_outcome, SpiderThreatAPI.analyze_threat, SpiderThreatAPI.wait_for.
  now rewrite Hmiss, Hsession, Hlate.
Qed.

Lemma remote_outcome_closed :
  SpiderThreatAPI.cache_lookup (spider_api self) request_data (t_cache env) = None ->
  SpiderThreatAPI.session (spider_api self) = false ->
  remote_outcome self request_data env = Return SpiderThreatAPI.neutral.
Proof.
  intros Hmiss Hsession.
  unfold remote_outcome, SpiderThreatAPI.analyze_threat, SpiderThreatAPI.wait_for.
  now rewrite Hmiss, Hsession.
Qed.

Lemma remote_outcome_in_time_failure :
  SpiderThreatAPI.cache_lookup (spider_api self) request_data (t_cache env) = None ->
  SpiderThreatAPI.session (spider_api self) = true ->
  (SpiderThreatAPI.latency (network env) < remote_timeout)%Q ->
  remote_failure (SpiderThreatAPI.reply (network env)) ->
  remote_outcome self request_data env = Return SpiderThreatAPI.neutral.
Proof.
  intros Hmiss Hsession Hin Hfail. apply Qltb_lt in Hin.
  unfold remote_outcome, SpiderThreatAPI.analyze_threat, SpiderThreatAPI.wait_for.
  rewrite Hmiss, Hsession, Hin. now rewrite post_and_recover_failure.
Qed.

Lemma remote_outcome_failure :
  SpiderThreatAPI.cache_lookup (spider_api self) request_data (t_cache env) = None ->
  remote_failure (SpiderThreatAPI.reply (network env)) ->
  remote_outcome self request_data env = Return SpiderThreatAPI.neutral
  \/ remote_outcome self request_data env = Raise TimeoutError.
Proof.
  intros Hmiss Hfail.
  unfold remote_outcome, SpiderThreatAPI.analyze_threat, SpiderThreatAPI.wait_for.
  rewrite Hmiss.
  destruct (SpiderThreatAPI.session (spider_api self)); [| left; reflexivity].
  destruct (Qltb _ _); [left | right; reflexivity].
  now rewrite post_and_recover_failure.
Qed.

(** A remote call that times out or fails leaves the local detection. *)
Lemma medium_detection_unchanged :
  SpiderThreatAPI.cache_lookup (spider_api self) request_data (t_cache env) = None ->
  (remote_timeout <= SpiderThreatAPI.latency (network env))%Q
  \/ remote_failure (SpiderThreatAPI.reply (network env)) ->
  snd (fst (analyze_request self request_data env))
  = local_detection self request_data env.
Proof.
  intros Hmiss H. rewrite medium_detection.
  assert (Hneutral : apply_spider_result (local_detection self request_data env)
                                         SpiderThreatAPI.neutral
                     = local_detection self request_data env).
  { unfold apply_spider_result. cbn.
    apply set_spider_score_same, local_detection_spider_score. }
  destruct (SpiderThreatAPI.session (spider_api self)) eqn:Hsession;
    [| now rewrite remote_outcome_closed].
  destruct H as [Hlate | Hfail].
  - now rewrite remote_outcome_late.
  - destruct (remote_outcome_failure Hmiss Hfail) as [-> | ->];
      [exact Hneutral | reflexivity].
Qed.

End Medium.

(** C5. In a classification whose IP is on neither list and whose local
    severity is in [5, 8): when the remote call returns a threat score
    above 8.0, the result has severity max(local severity, 9), action
    [block_immediately] and that score; when the call times out or fails,
    the result keeps the local severity and the local action, which is
    [rate_limit]. *)
Theorem remote_escalation_or_local_result
        (self : SentinelBot.t) (request_data : Request.t) (env : SentinelBot.Env) :
  Request.get Request.ip "" request_data ∉ SentinelBot.whitelist_ips self ->
  Request.get Request.ip "" request_data ∉ SentinelBot.blocked_ips self ->
  5 <= severity_level (SentinelBot.local_detection self request_data env) < 8 ->
  let local := SentinelBot.local_detection self request_data env in
  let detection := snd (fst (SentinelBot.analyze_request self request_data env)) in
  (forall spider_result,
      remote_outcome self request_data env = Return spider_result ->
      (8 < score_of spider_result)%Q ->
      severity_level detection = Z.max (severity_level local) 9
      /\ severity_level detection = 9
      /\ recommended_action detection = "block_immediately"
      /\ spider_score detection = score_of spider_result)
  /\ (SpiderThreatAPI.cache_lookup (SentinelBot.spider_api self) request_data
                                   (SentinelBot.t_cache env) = None ->
      (SentinelBot.remote_timeout
       <= SpiderThreatAPI.latency (SentinelBot.network env))%Q
      \/ remote_failure (SpiderThreatAPI.reply (SentinelBot.network env)) ->
      severity_level detection = severity_level local
      /\ recommended_action detection = recommended_action local
      /\ recommended_action detection = "rate_limit").
Proof.
  intros Hw Hb Hs local detection. split.
  - intros spider_result Hout Hscore. unfold detection.
    rewrite medium_detection, Hout by assumption.
    unfold SentinelBot.apply_spider_result. fold (score_of spider_result).
    rewrite (proj2 (Qltb_lt _ _) Hscore). cbn. fold local.
    repeat split; try reflexivity. unfold local. lia.
  - intros Hmiss Hfail. unfold detection.
    rewrite medium_detection_unchanged by assumption.
    repeat split. now apply medium_action.
Qed.

(** The scanner's request, scored 9.0 in time, and answered too late. *)
Lemma remote_escalation_or_local_result_witness :
  (let detection :=
     snd (fst (SentinelBot.analyze_request
                 Scenario.ready Scenario.scanner Scenario.quick_hostile)) in
   severity_level detection = 9
   /\ recommended_action detection = "block_immediately")
  /\ (let detection :=
        snd (fst (SentinelBot.analyze_request
                    Scenario.ready Scenario.scanner Scenario.too_late)) in
      severity_level detection = 5
      /\ recommended_action detection = "rate_limit").
Proof.
  assert (Hw : Request.get Request.ip "" Scenario.scanner
               ∉ SentinelBot.whitelist_ips Scenario.ready) by by_computation.
  assert (Hb : Request.get Request.ip "" Scenario.scanner
               ∉ SentinelBot.blocked_ips Scenario.ready) by by_computation.
  split.
  - destruct (remote_escalation_or_local_result
                Scenario.ready Scenario.scanner Scenario.quick_hostile Hw Hb)
      as [Hup _]; [vm_compute; split; [discriminate | reflexivity] |].
    destruct (Hup (Scenario.scored 9)) as [_ [H9 [Hact _]]];
      [vm_compute; reflexivity | vm_compute; reflexivity |].
    split; assumption.
  - destruct (remote_escalation_or_local_result
                Scenario.ready Scenario.scanner Scenario.too_late Hw Hb)
      as [_ Hkeep]; [vm_compute; split; [discriminate | reflexivity] |].
    destruct Hkeep as [Hsev [_ Hact]];
      [vm_compute; reflexivity | left; vm_compute; discriminate |].
    split; [rewrite Hsev; vm_compute; reflexivity | exact Hact].
Defined.

(** ** Remote failures are recovered *)

(** C8, as amended. Take a remote scoring call, as the classifier makes
    it, that does not end in the cache.  With the session open and the
    reply there before the 30 ms deadline, a timeout of the session, a
    transport error, a status other than 200 or a body that does not parse
    makes the remote client return the neutral score
    [{threat_score: 0, threat_types: [], reputation: unknown}], the cache
    left as it was.  With the session closed the client returns the
    neutral score at once and sends nothing.  When the deadline passes
    first, the client returns nothing: the call is cancelled and
    [asyncio.wait_for] raises [TimeoutError], which the classifier
    catches.  In each of these cases the classification returns its local
    detection, with remote score 0: no remote failure reaches its
    caller. *)
Theorem remote_failure_gives_neutral_score
        (api : SpiderThreatAPI.t) (request_data : Request.t)
        (now : Q) (net : SpiderThreatAPI.Network) :
  SpiderThreatAPI.cache_lookup api request_data now = None ->
  let call :=
    SpiderThreatAPI.wait_for
      api (SpiderThreatAPI.analyze_threat api request_data now)
      SentinelBot.remote_timeout net in
  (SpiderThreatAPI.session api = true ->
   (SpiderThreatAPI.latency net < SentinelBot.remote_timeout)%Q ->
   remote_failure (SpiderThreatAPI.reply net) ->
   call = (api, Return SpiderThreatAPI.neutral, [SpiderThreatAPI.payload_of request_data]))
  /\ (SpiderThreatAPI.session api = true ->
      (SentinelBot.remote_timeout <= SpiderThreatAPI.latency net)%Q ->
      call = (api, Raise TimeoutError, [SpiderThreatAPI.payload_of request_data]))
  /\ (SpiderThreatAPI.session api = false ->
      call = (api, Return SpiderThreatAPI.neutral, []))
  /\ SpiderThreatAPI.threat_score SpiderThreatAPI.neutral = Some 0%Q
  /\ SpiderThreatAPI.reputation SpiderThreatAPI.neutral = Some "unknown"
  /\ (forall self env,
         SentinelBot.spider_api self = api ->
         SentinelBot.t_cache env = now ->
         SentinelBot.network env = net ->
         Request.get Request.ip "" request_data ∉ SentinelBot.whitelist_ips self ->
         Request.get Request.ip "" request_data ∉ SentinelBot.blocked_ips self ->
         5 <= severity_level (SentinelBot.local_detection self request_data env) < 8 ->
         SpiderThreatAPI.session api = false
         \/ (SentinelBot.remote_timeout <= SpiderThreatAPI.latency net)%Q
         \/ remote_failure (SpiderThreatAPI.reply net) ->
         snd (fst (SentinelBot.analyze_request self request_data env))
         = SentinelBot.local_detection self request_data env
         /\ spider_score (snd (fst (SentinelBot.analyze_request self request_data env)))
            = 0%Q).
Proof.
  intros Hmiss. cbv zeta.
  unfold SpiderThreatAPI.analyze_threat, SpiderThreatAPI.wait_for. rewrite Hmiss.
  split; [| split; [| split; [| split; [| split]]]]; try reflexivity.
  - intros Hsession Hin Hfail. apply Qltb_lt in Hin.
    rewrite Hsession, Hin. now rewrite post_and_recover_failure.
  - intros Hsession Hlate. apply Qltb_ge in Hlate. now rewrite Hsession, Hlate.
  - intros Hsession. now rewrite Hsession.
  - intros self env <- <- <- Hw Hb Hs Hfail.
    assert (Hlocal : snd (fst (SentinelBot.analyze_request self request_data env))
                     = SentinelBot.local_detection self request_data env).
    { destruct (SpiderThreatAPI.session (SentinelBot.spider_api self)) eqn:Hsession.
      - apply medium_detection_unchanged; try assumption.
        destruct Hfail as [Hclosed | Hfail]; [discriminate | exact Hfail].
      - rewrite medium_detection, remote_outcome_closed by assumption.
        unfold SentinelBot.apply_spider_result. cbn.
        apply set_spider_score_same, local_detection_spider_score. }
    split; [exact Hlocal |]. rewrite Hlocal. apply local_detection_spider_score.
Qed.

(** The service answers 503 in time, and answers too late. *)
Lemma remote_failure_gives_neutral_score_witness :
  SpiderThreatAPI.wait_for
    (SentinelBot.spider_api Scenario.ready)
    (SpiderThreatAPI.analyze_threat
       (SentinelBot.spider_api Scenario.ready) Scenario.scanner
       (SentinelBot.t_cache Scenario.unavailable))
    SentinelBot.remote_timeout
    (SentinelBot.network Scenario.unavailable)
  = (SentinelBot.spider_api Scenario.ready, Return SpiderThreatAPI.neutral,
     [SpiderThreatAPI.payload_of Scenario.scanner])
  /\ snd (fst (SentinelBot.analyze_request
                 Scenario.ready Scenario.scanner Scenario.too_late))
     = SentinelBot.local_detection Scenario.ready Scenario.scanner Scenario.too_late.
Proof.
  split.
  - apply (remote_failure_gives_neutral_score
             (SentinelBot.spider_api Scenario.ready) Scenario.scanner
             (SentinelBot.t_cache Scenario.unavailable)
             (SentinelBot.network Scenario.unavailable)).
    + reflexivity.
    + reflexivity.
    + vm_compute. reflexivity.
    + left. vm_compute. discriminate.
  - apply (remote_failure_gives_neutral_score
             (SentinelBot.spider_api Scenario.ready) Scenario.scanner
             (SentinelBot.t_cache Scenario.too_late)
             (SentinelBot.network Scenario.too_late));
      try reflexivity.
    + by_computation.
    + by_computation.
    + vm_compute. split; [discriminate | reflexivity].
    + right. left. vm_compute. discriminate.
Defined.

(** C8, as stated, fails for the timeout of the classifier's own deadline:
    when the service needs 40 ms, the remote client does not return the
    neutral score; the call is cancelled and [TimeoutError] is raised at
    the call, where the classifier catches it and keeps its local
    detection. *)
Lemma deadline_timeout_is_raised_at_the_call :
  SpiderThreatAPI.cache_lookup (SentinelBot.spider_api Scenario.ready) Scenario.scanner
                               (SentinelBot.t_cache Scenario.too_late) = None
  /\ SpiderThreatAPI.session (SentinelBot.spider_api Scenario.ready) = true
  /\ (SentinelBot.remote_timeout
      <= SpiderThreatAPI.latency (SentinelBot.network Scenario.too_late))%Q
  /\ remote_outcome Scenario.ready Scenario.scanner Scenario.too_late
     = Raise TimeoutError
  /\ remote_outcome Scenario.ready Scenario.scanner Scenario.too_late
     <> Return SpiderThreatAPI.neutral
  /\ snd (fst (SentinelBot.analyze_request
                 Scenario.ready Scenario.scanner Scenario.too_late))
     = SentinelBot.local_detection Scenario.ready Scenario.scanner Scenario.too_late.
Proof.
  split; [reflexivity |]. split; [reflexivity |].
  split; [vm_compute; discriminate |].
  split; [vm_compute; reflexivity |].
  split; [vm_compute; discriminate |].
  vm_compute. reflexivity.
Qed.

(** ** Metrics *)

Section Metrics.

Import SentinelBot.

Lemma _update_metrics_count self detection_time :
  detection_count (_update_metrics self detection_time) = detection_count self + 1.
Proof. reflexivity. Qed.

Lemma _update_metrics_average self detection_time :
  avg_detection_time (_update_metrics self detection_time)
  = ((avg_detection_time self * inject_Z (detection_count self)
      + detection_time * 1000)
     / inject_Z (detection_count self + 1))%Q.
Proof.
  cbn. now replace (detection_count self + 1 - 1) with (detection_count self) by lia.
Qed.

(** A classification that passes the lists updates the metrics once,
    with its latency, and leaves the lists alone. *)
Lemma analyze_request_updates_metrics self request_data env :
  ~ listed self request_data ->
  exists before,
    fst (fst (analyze_request self request_data env))
    = _update_metrics before (t_end env - t_start env)
    /\ detection_count before = detection_count self
    /\ avg_detection_time before = avg_detection_time self
    /\ whitelist_ips before = whitelist_ips self
    /\ blocked_ips before = blocked_ips self.
Proof.
  intros Hl. unfold listed in Hl.
  rewrite analyze_request_unlisted by tauto.
  destruct (8 <=? _).
  - eexists. split; [reflexivity |]. repeat split.
  - destruct (if 5 <=? _ then _ else _) as [[api' detection] events].
    eexists. split; [reflexivity |]. repeat split.
Qed.

Lemma analyze_request_listed self request_data env :
  listed self request_data ->
  fst (fst (analyze_request self request_data env)) = self.
Proof.
  intros Hl.
  destruct (decide (Request.get Request.ip "" request_data ∈ whitelist_ips self))
    as [Hw | Hw].
  - now rewrite analyze_request_whitelisted.
  - destruct Hl as [Hl | Hl]; [contradiction |].
    now rewrite analyze_request_blocked.
Qed.

Lemma recorded_latencies_lists self self' inputs :
  whitelist_ips self' = whitelist_ips self ->
  blocked_ips self' = blocked_ips self ->
  recorded_latencies self' inputs = recorded_latencies self inputs.
Proof.
  intros Hw Hb. unfold recorded_latencies, listed. now rewrite Hw, Hb.
Qed.

Lemma classify_all_metrics inputs :
  forall self (n : nat) (sum : Q),
    detection_count self = Z.of_nat n ->
    (avg_detection_time self * inject_Z (Z.of_nat n) == sum)%Q ->
    let final := classify_all self inputs in
    let recorded := recorded_latencies self inputs in
    detection_count final = Z.of_nat (n + length recorded)
    /\ (avg_detection_time final * inject_Z (detection_count final)
        == sum + Qsum recorded)%Q.
Proof.
  induction inputs as [| [request_data env] rest IH]; intros self n sum Hn Hsum.
  - cbn. rewrite Nat.add_0_r, Hn. split; [reflexivity |].
    rewrite Hsum. ring.
  - cbn [classify_all]. unfold recorded_latencies. cbn [flat_map].
    fold (recorded_latencies self rest).
    destruct (decide (listed self request_data)) as [Hl | Hl].
    + rewrite analyze_request_listed by exact Hl. cbn [app].
      now apply IH.
    + destruct (analyze_request_updates_metrics self request_data env Hl)
        as [before [-> [Hc [Ha [Hw Hb]]]]].
      cbn [app length].
      set (self' := _update_metrics before (t_end env - t_start env)).
      assert (Hn' : detection_count self' = Z.of_nat (S n)).
      { unfold self'. rewrite _update_metrics_count, Hc, Hn. lia. }
      assert (Hsum' : (avg_detection_time self' * inject_Z (Z.of_nat (S n))
                       == sum + latency_ms env)%Q).
      { unfold self'. rewrite _update_metrics_average, Hc, Ha, Hn.
        replace (Z.of_nat (S n)) with (Z.of_nat n + 1) by lia.
        rewrite <- Hsum. unfold latency_ms.
        field. rewrite inject_Z_plus. intros H.
        assert (Hpos : (0 < inject_Z (Z.of_nat n) + inject_Z 1)%Q).
        { rewrite <- inject_Z_plus. change 0%Q with (inject_Z 0).
          rewrite <- Zlt_Qlt. lia. }
        rewrite H in Hpos. discriminate. }
      destruct (IH self' (S n) (sum + latency_ms env)%Q Hn' Hsum') as [IHc IHa].
      rewrite (recorded_latencies_lists self self') in IHc, IHa by assumption.
      split.
      * rewrite IHc. f_equal. lia.
      * rewrite IHa. cbn [Qsum fold_right]. fold (Qsum (recorded_latencies self rest)).
        ring.
Qed.

End Metrics.

(** C4, as amended. A classification whose IP is on neither list updates
    the metrics exactly once, with its latency: the count grows by 1 and
    the average becomes (average * count + latency) / (count + 1), so that
    from a count of 0 the count is the number of such classifications and
    the average is the arithmetic mean of their latencies.  A
    classification of an allow-listed or block-listed IP returns without
    touching the metrics.  (Latencies are exact rationals.) *)
Theorem metrics_follow_unlisted_classifications (self : SentinelBot.t) :
  (forall request_data env,
      listed self request_data ->
      fst (fst (SentinelBot.analyze_request self request_data env)) = self)
  /\ (forall request_data env,
         ~ listed self request_data ->
         let self' := fst (fst (SentinelBot.analyze_request self request_data env)) in
         SentinelBot.detection_count self' = SentinelBot.detection_count self + 1
         /\ SentinelBot.avg_detection_time self'
            = ((SentinelBot.avg_detection_time self
                * inject_Z (SentinelBot.detection_count self) + latency_ms env)
               / inject_Z (SentinelBot.detection_count self + 1))%Q)
  /\ (forall inputs,
         SentinelBot.detection_count self = 0 ->
         let final := classify_all self inputs in
         let recorded := recorded_latencies self inputs in
         SentinelBot.detection_count final = Z.of_nat (length recorded)
         /\ (recorded <> [] ->
             (SentinelBot.avg_detection_time final
              == Qsum recorded / inject_Z (Z.of_nat (length recorded)))%Q)).
Proof.
  split; [| split].
  - intros request_data env. apply analyze_request_listed.
  - intros request_data env Hl self'. unfold self'.
    destruct (analyze_request_updates_metrics self request_data env Hl)
      as [before [-> [Hc [Ha _]]]].
    rewrite _update_metrics_count, _update_metrics_average, Hc, Ha.
    split; reflexivity.
  - intros inputs H0 final recorded.
    destruct (classify_all_metrics inputs self 0%nat 0%Q H0) as [Hc Ha].
    { cbn. ring. }
    fold final recorded in Hc, Ha. cbn [Nat.add] in Hc.
    split; [exact Hc |].
    intros Hne. rewrite Hc in Ha.
    assert (Hlen : ~ (inject_Z (Z.of_nat (length recorded)) == 0)%Q).
    { intros H. destruct recorded as [| x xs]; [now apply Hne |].
      assert (Hpos : (0 < inject_Z (Z.of_nat (length (x :: xs))))%Q).
      { change 0%Q with (inject_Z 0). rewrite <- Zlt_Qlt. cbn [length]. lia. }
      rewrite H in Hpos. discriminate. }
    rewrite Qplus_0_l in Ha. rewrite <- Ha. field. exact Hlen.
Qed.

(** One block-listed and two unlisted classifications. *)
Lemma metrics_follow_unlisted_classifications_witness :
  fst (fst (SentinelBot.analyze_request
              Scenario.blocking Scenario.scanner Scenario.quick_hostile))
  = Scenario.blocking
  /\ SentinelBot.detection_count
       (fst (fst (SentinelBot.analyze_request
                    Scenario.ready Scenario.scanner Scenario.quick_hostile)))
     = SentinelBot.detection_count Scenario.ready + 1
  /\ SentinelBot.detection_count
       (classify_all Scenario.blocking
                     [ (Scenario.scanner, Scenario.quick_hostile);
                       (Scenario.browser, Scenario.quick_mild);
                       (Scenario.browser, Scenario.slow_local) ])
     = 2.
Proof.
  destruct (metrics_follow_unlisted_classifications Scenario.blocking)
    as [Hlisted [_ Hall]].
  destruct (metrics_follow_unlisted_classifications Scenario.ready)
    as [_ [Hunlisted _]].
  split; [| split].
  - apply Hlisted. right. by_computation.
  - apply Hunlisted. intros [H | H]; revert H; by_computation.
  - apply (Hall [ (Scenario.scanner, Scenario.quick_hostile);
                  (Scenario.browser, Scenario.quick_mild);
                  (Scenario.browser, Scenario.slow_local) ]).
    reflexivity.
Defined.

(** C4, as stated, fails on the two short paths: the classification of a
    block-listed IP, and of an allow-listed one, leaves the count of
    classifications where it was. *)
Lemma listed_classification_is_not_counted :
  listed Scenario.blocking Scenario.scanner
  /\ SentinelBot.detection_count
       (fst (fst (SentinelBot.analyze_request
                    Scenario.blocking Scenario.scanner Scenario.quick_hostile)))
     <> SentinelBot.detection_count Scenario.blocking + 1
  /\ listed (Scenario.allowing Scenario.ready "10.0.0.1") Scenario.scanner
  /\ SentinelBot.detection_count
       (fst (fst (SentinelBot.analyze_request
                    (Scenario.allowing Scenario.ready "10.0.0.1")
                    Scenario.scanner Scenario.quick_hostile)))
     <> SentinelBot.detection_count (Scenario.allowing Scenario.ready "10.0.0.1") + 1.
Proof.
  assert (Hb : listed Scenario.blocking Scenario.scanner)
    by (right; by_computation).
  assert (Ha : listed (Scenario.allowing Scenario.ready "10.0.0.1") Scenario.scanner)
    by (left; by_computation).
  split; [exact Hb |]. split; [| split; [exact Ha |]].
  - rewrite analyze_request_listed by exact Hb. cbn. lia.
  - rewrite analyze_request_listed by exact Ha. cbn. lia.
Qed.

(** ** The cache of remote results *)

Lemma apply_spider_result_score (d : ThreatDetection) (result : SpiderThreatAPI.Result) :
  spider_score (SentinelBot.apply_spider_result d result) = score_of result.
Proof.
  unfold SentinelBot.apply_spider_result. fold (score_of result).
  destruct (Qltb 8 (score_of result)); reflexivity.
Qed.

Lemma cache_key_same (r1 r2 : Request.t) :
  Request.get Request.ip "" r1 = Request.get Request.ip "" r2 ->
  Request.get Request.user_agent "" r1 = Request.get Request.user_agent "" r2 ->
  Request.get Request.path "" r1 = Request.get Request.path "" r2 ->
  SpiderThreatAPI.cache_key r1 = SpiderThreatAPI.cache_key r2.
Proof.
  intros Hip Hua Hpath. unfold SpiderThreatAPI.cache_key.
  now rewrite Hip, Hua, Hpath.
Qed.

Section Cache.

Import SentinelBot.

Variables (self : t) (request_data : Request.t) (env : Env)
          (result : SpiderThreatAPI.Result).

Hypothesis unlisted : ~ listed self request_data.
Hypothesis medium : 5 <= severity_level (local_detection self request_data env) < 8.

(** The state of the remote client after a reply with status 200 and
    the body [result]. *)
Let api_after : SpiderThreatAPI.t :=
  {| SpiderThreatAPI.session := true;
     SpiderThreatAPI.cache :=
       <[SpiderThreatAPI.cache_key request_data
         := (result, SpiderThreatAPI.arrival (network env))]>
         (SpiderThreatAPI.cache (spider_api self)) |}.

(** A classification whose remote call goes out and succeeds. *)
Lemma analyze_request_remote_success :
  SpiderThreatAPI.cache_lookup (spider_api self) request_data (t_cache env) = None ->
  SpiderThreatAPI.session (spider_api self) = true ->
  SpiderThreatAPI.reply (network env) = SpiderThreatAPI.Response 200 (Return result) ->
  (SpiderThreatAPI.latency (network env) < remote_timeout)%Q ->
  analyze_request self request_data env
  = let detection :=
      apply_spider_result (local_detection self request_data env) result in
    (_update_metrics
       (with_spider_api (after_local self request_data env) api_after)
       (t_end env - t_start env),
     detection,
     [WaitFor remote_timeout;
      HttpPost (SpiderThreatAPI.payload_of request_data);
      _store_threat_detection detection]).
Proof.
  intros Hmiss Hsession Hreply Hin. unfold listed in unlisted.
  rewrite analyze_request_medium by tauto.
  change (spider_api (after_local self request_data env)) with (spider_api self).
  rewrite enhance_in_time by assumption.
  unfold SpiderThreatAPI.post_and_recover, SpiderThreatAPI.try_post.
  rewrite Hsession, Hreply. reflexivity.
Qed.

(** A classification that finds a fresh entry in the cache. *)
Lemma analyze_request_cache_hit :
  SpiderThreatAPI.cache_lookup (spider_api self) request_data (t_cache env)
  = Some result ->
  analyze_request self request_data env
  = let detection :=
      apply_spider_result (local_detection self request_data env) result in
    (_update_metrics
       (with_spider_api (after_local self request_data env) (spider_api self))
       (t_end env - t_start env),
     detection,
     [WaitFor remote_timeout; _store_threat_detection detection]).
Proof.
  intros Hhit. unfold listed in unlisted.
  rewrite analyze_request_medium by tauto.
  change (spider_api (after_local self request_data env)) with (spider_api self).
  rewrite enhance_cached with (cached_result := result) by assumption.
  reflexivity.
Qed.

End Cache.

(** A classification that makes no remote call sends nothing. *)
Lemma no_posts_outside_medium
      (self : SentinelBot.t) (request_data : Request.t) (env : SentinelBot.Env) :
  ~ listed self request_data ->
  ~ 5 <= severity_level (SentinelBot.local_detection self request_data env) < 8 ->
  posts (snd (SentinelBot.analyze_request self request_data env)) = [].
Proof.
  intros Hl Hs. unfold listed in Hl.
  destruct (Z_le_gt_dec 8 (severity_level
                             (SentinelBot.local_detection self request_data env))).
  - rewrite analyze_request_high by tauto. reflexivity.
  - rewrite analyze_request_low by (tauto || lia). reflexivity.
Qed.

(** C9, as amended. Take two classifications in a row with the same
    source IP, user agent and path, the first of which sends its remote
    request and gets a 200 with a body before the deadline, the second
    of which checks the cache less than 300 s after that reply came.
    Then one request in total goes to the remote service.  When the
    second classification reaches the remote step too (local severity in
    [5, 8)), it is served from the cache and has the remote score of the
    first. *)
Theorem second_classification_is_served_from_cache
        (self : SentinelBot.t) (first second : Request.t)
        (env1 env2 : SentinelBot.Env) (result : SpiderThreatAPI.Result) :
  Request.get Request.ip "" first = Request.get Request.ip "" second ->
  Request.get Request.user_agent "" first = Request.get Request.user_agent "" second ->
  Request.get Request.path "" first = Request.get Request.path "" second ->
  ~ listed self first ->
  5 <= severity_level (SentinelBot.local_detection self first env1) < 8 ->
  SpiderThreatAPI.cache_lookup (SentinelBot.spider_api self) first
                               (SentinelBot.t_cache env1) = None ->
  SpiderThreatAPI.session (SentinelBot.spider_api self) = true ->
  SpiderThreatAPI.reply (SentinelBot.network env1)
  = SpiderThreatAPI.Response 200 (Return result) ->
  (SpiderThreatAPI.latency (SentinelBot.network env1) < SentinelBot.remote_timeout)%Q ->
  (SentinelBot.t_cache env2 - SpiderThreatAPI.arrival (SentinelBot.network env1)
   < 300)%Q ->
  let '(self1, detection1, events1) := SentinelBot.analyze_request self first env1 in
  let '(_, detection2, events2) := SentinelBot.analyze_request self1 second env2 in
  length (posts events1 ++ posts events2) = 1%nat
  /\ spider_score detection1 = score_of result
  /\ (5 <= severity_level (SentinelBot.local_detection self1 second env2) < 8 ->
      remote_outcome self1 second env2 = Return result
      /\ posts events2 = []
      /\ spider_score detection2 = spider_score detection1).
Proof.
  intros Hip Hua Hpath Hl Hs Hmiss Hsession Hreply Hin Hfresh.
  rewrite (analyze_request_remote_success self first env1 result) by assumption.
  cbv zeta.
  set (self1 := SentinelBot._update_metrics _ _).
  assert (Hl2 : ~ listed self1 second).
  { unfold listed in *. rewrite <- Hip. exact Hl. }
  assert (Hhit : SpiderThreatAPI.cache_lookup
                   (SentinelBot.spider_api self1) second (SentinelBot.t_cache env2)
                 = Some result).
  { unfold SpiderThreatAPI.cache_lookup, self1. cbn.
    rewrite <- (cache_key_same first second) by assumption.
    rewrite lookup_insert_eq. unfold SpiderThreatAPI.cache_ttl.
    now rewrite (proj2 (Qltb_lt _ _) Hfresh). }
  destruct (decide (5 <= severity_level
                            (SentinelBot.local_detection self1 second env2) < 8))
    as [Hs2 | Hs2].
  - rewrite (analyze_request_cache_hit self1 second env2 result) by assumption.
    cbv zeta. split; [reflexivity |].
    split; [apply apply_spider_result_score |].
    intros _. split; [| split].
    + unfold remote_outcome, SpiderThreatAPI.analyze_threat. now rewrite Hhit.
    + reflexivity.
    + now rewrite !apply_spider_result_score.
  - pose proof (no_posts_outside_medium self1 second env2 Hl2 Hs2) as Hposts.
    destruct (SentinelBot.analyze_request self1 second env2)
      as [[self2 detection2] events2].
    cbn [snd] in Hposts. rewrite Hposts.
    split; [reflexivity |].
    split; [apply apply_spider_result_score |].
    intros Hs2'. contradiction.
Qed.

(** The scanner's request twice, a minute apart. *)
Lemma second_classification_is_served_from_cache_witness :
  let '(self1, detection1, events1) :=
    SentinelBot.analyze_request Scenario.ready Scenario.scanner Scenario.quick_mild in
  let '(_, detection2, events2) :=
    SentinelBot.analyze_request self1 Scenario.scanner Scenario.a_minute_later in
  length (posts events1 ++ posts events2) = 1%nat
  /\ spider_score detection1 = score_of (Scenario.scored 6)
  /\ (5 <= severity_level
             (SentinelBot.local_detection self1 Scenario.scanner Scenario.a_minute_later)
      < 8 ->
      remote_outcome self1 Scenario.scanner Scenario.a_minute_later
      = Return (Scenario.scored 6)
      /\ posts events2 = []
      /\ spider_score detection2 = spider_score detection1).
Proof.
  apply (second_classification_is_served_from_cache
           Scenario.ready Scenario.scanner Scenario.scanner
           Scenario.quick_mild Scenario.a_minute_later (Scenario.scored 6));
    try reflexivity.
  - intros [H | H]; revert H; by_computation.
  - vm_compute. split; [discriminate | reflexivity].
Defined.

(** C9, as stated, fails when the second classification does not reach
    the remote step.  The scanner's request is scored 6.0 by the service;
    a minute later the same source, agent and path come with a quote in a
    parameter: the local severity is 9, the cache is not consulted, and
    the remote score of the result is 0, not 6. *)
Lemma second_classification_may_skip_the_cache :
  Request.get Request.ip "" Scenario.scanner
  = Request.get Request.ip "" Scenario.scanner_injecting
  /\ Request.get Request.user_agent "" Scenario.scanner
     = Request.get Request.user_agent "" Scenario.scanner_injecting
  /\ Request.get Request.path "" Scenario.scanner
     = Request.get Request.path "" Scenario.scanner_injecting
  /\ (SentinelBot.t_cache Scenario.a_minute_later
      - SpiderThreatAPI.arrival (SentinelBot.network Scenario.quick_mild) < 300)%Q
  /\ let '(self1, detection1, events1) :=
       SentinelBot.analyze_request Scenario.ready Scenario.scanner Scenario.quick_mild in
     let '(_, detection2, events2) :=
       SentinelBot.analyze_request self1 Scenario.scanner_injecting
                                   Scenario.a_minute_later in
     posts events1 = [SpiderThreatAPI.payload_of Scenario.scanner]
     /\ spider_score detection1 = 6%Q
     /\ severity_level detection2 = 9
     /\ deadlines events2 = [] /\ posts events2 = []
     /\ spider_score detection2 = 0%Q
     /\ ~ (spider_score detection2 == spider_score detection1)%Q.
Proof.
  do 3 (split; [reflexivity |]).
  split; [vm_compute; reflexivity |].
  vm_compute. repeat split. discriminate.
Qed.

(** * Further properties of the detector *)

(** ** Strings and literal patterns *)

Lemma append_nil (b : string) : "" +:+ b = b.
Proof. reflexivity. Qed.

Lemma append_cons (x : ascii) (a b : string) : String x a +:+ b = String x (a +:+ b).
Proof. reflexivity. Qed.

Lemma append_assoc (a b c : string) : (a +:+ b) +:+ c = a +:+ b +:+ c.
Proof.
  induction a as [| x a IH]; [reflexivity |].
  now rewrite !append_cons, IH.
Qed.

Lemma lower_append (a b : string) :
  Str.lower (a +:+ b) = Str.lower a +:+ Str.lower b.
Proof.
  induction a as [| x a IH]; [reflexivity |].
  rewrite append_cons. cbn [Str.lower]. now rewrite append_cons, IH.
Qed.

Lemma has_char_append (c : ascii) (a b : string) :
  Str.has_char c (a +:+ b) = Str.has_char c a || Str.has_char c b.
Proof.
  induction a as [| x a IH]; [reflexivity |].
  rewrite append_cons. cbn [Str.has_char]. now rewrite IH, orb_assoc.
Qed.

Lemma startswith_spec (p s : string) :
  Str.startswith p s = true <-> exists after, s = p +:+ after.
Proof.
  revert s. induction p as [| a p IH]; intros s.
  - split; [intros _; now exists s | reflexivity].
  - destruct s as [| b s]; cbn [Str.startswith].
    + split; [discriminate | intros [after H]; discriminate].
    + rewrite andb_true_iff, Ascii.eqb_eq, IH. split.
      * intros [-> [after ->]]. now exists after.
      * intros [after H]. rewrite append_cons in H. injection H as -> ->.
        split; [reflexivity | now exists after].
Qed.

Lemma contains_spec (p s : string) :
  Str.contains p s = true <-> occurs_in p s.
Proof.
  unfold occurs_in. induction s as [| b s IH].
  - cbn [Str.contains]. rewrite orb_false_r, startswith_spec. split.
    + intros [after H]. now exists "", after.
    + intros [[| x before] [after H]]; [now exists after | discriminate].
  - cbn [Str.contains]. rewrite orb_true_iff, IH, startswith_spec. split.
    + intros [[after H] | [before [after H]]].
      * now exists "", after.
      * exists (String b before), after. now rewrite append_cons, H.
    + intros [[| x before] [after H]].
      * left. now exists after.
      * right. rewrite append_cons in H. injection H as -> ->.
        now exists before, after.
Qed.

Lemma contains_append_l (p a b : string) :
  Str.contains p a = true -> Str.contains p (a +:+ b) = true.
Proof.
  rewrite !contains_spec. intros [before [after ->]].
  exists before, (after +:+ b). now rewrite !append_assoc.
Qed.

Section Matching.

Import Re.

Lemma match_prefix_unfold r s :
  match_prefix r s
  = nullable r || match s with
                  | EmptyString => false
                  | String c s' => match_prefix (deriv c r) s'
                  end.
Proof. destruct s; reflexivity. Qed.

Lemma match_prefix_Void s : match_prefix Void s = false.
Proof. induction s as [| c s IH]; [reflexivity | exact IH]. Qed.

Lemma cat_Eps r : cat Eps r = r.
Proof. destruct r; reflexivity. Qed.

(** A literal pattern matches a prefix exactly when the text starts with
    it, letter case aside. *)
Lemma match_prefix_lit p s :
  match_prefix (lit p) s = Str.startswith (Str.lower p) (Str.lower s).
Proof.
  revert s. induction p as [| c p IH]; intros s.
  - destruct s; reflexivity.
  - rewrite match_prefix_unfold. destruct s as [| x s]; [reflexivity |].
    cbn [lit nullable chr andb orb deriv Str.lower Str.startswith].
    rewrite (Ascii.eqb_sym (Str.lower_ascii c)).
    destruct (Ascii.eqb (Str.lower_ascii x) (Str.lower_ascii c)).
    + rewrite cat_Eps. apply IH.
    + cbn. apply match_prefix_Void.
Qed.

(** [re.search] with a literal pattern is a substring test, letter case
    aside. *)
Lemma search_lit p s :
  search (lit p) s = Str.contains (Str.lower p) (Str.lower s).
Proof.
  induction s as [| x s IH].
  - cbn [search Str.contains Str.lower]. now rewrite match_prefix_lit.
  - cbn [search Str.contains Str.lower]. rewrite IH.
    now rewrite match_prefix_lit.
Qed.

(** A pattern that one character satisfies is found in every text with
    that character. *)
Lemma search_char r c s :
  nullable (deriv c r) = true -> Str.has_char c s = true -> search r s = true.
Proof.
  intros Hc. induction s as [| x s IH]; [discriminate |].
  cbn [Str.has_char search]. rewrite orb_true_iff, Ascii.eqb_eq.
  intros [-> | H].
  - rewrite match_prefix_unfold.
    rewrite (match_prefix_unfold (deriv c r)), Hc. now rewrite orb_true_r.
  - rewrite (IH H). apply orb_true_r.
Qed.

Lemma first_match_found patterns input :
  LocalThreatDetector.first_match patterns input <> None
  <-> exists p, In p patterns /\ search (compiled p) input = true.
Proof.
  unfold LocalThreatDetector.first_match. split.
  - destruct (List.find _ _) as [p |] eqn:E; [| intros H; now elim H].
    intros _. apply find_some in E. now exists p.
  - intros [p [Hin Hp]] Hnone.
    pose proof (find_none _ _ Hnone p Hin) as H. cbn in H. congruence.
Qed.

End Matching.

Lemma has_char_join (c : ascii) (parts : list string) (part : string) :
  In part parts -> Str.has_char c part = true ->
  Str.has_char c (Str.join " " parts) = true.
Proof.
  induction parts as [| p rest IH]; intros Hin Hc; [destruct Hin |].
  destruct Hin as [-> | Hin].
  - destruct rest as [| q rest']; [exact Hc |].
    change (Str.join " " (part :: q :: rest'))
      with (part +:+ " " +:+ Str.join " " (q :: rest')).
    now rewrite has_char_append, Hc.
  - destruct rest as [| q rest']; [destruct Hin |].
    change (Str.join " " (p :: q :: rest'))
      with (p +:+ " " +:+ Str.join " " (q :: rest')).
    rewrite !has_char_append, (IH Hin Hc). now rewrite !orb_true_r.
Qed.

(** The character is in the path or in the value of a query parameter. *)
Lemma has_char_combined_input (c : ascii) path params :
  Str.has_char c path = true
  \/ (exists value, In value (values params) /\ Str.has_char c value = true) ->
  Str.has_char c (LocalThreatDetector.combined_input path params) = true.
Proof.
  unfold LocalThreatDetector.combined_input, values. rewrite !has_char_append.
  intros [H | [value [Hin H]]].
  - now rewrite H.
  - rewrite (has_char_join c _ value Hin H). now rewrite !orb_true_r.
Qed.

(** ** What the pattern evaluators flag *)

(** The first SQL pattern is satisfied by an apostrophe and by a hash
    sign alone. *)
Lemma _check_sql_injection_on_char
      (path : string) (params : list (string * string)) (c : ascii) :
  c = "'"%char \/ c = "#"%char ->
  Str.has_char c (LocalThreatDetector.combined_input path params) = true ->
  LocalThreatDetector._check_sql_injection path params
  = Some {| type := "sql_injection"; severity := 9;
            evidence := Pattern "(\%27)|(\')|(\-\-)|(\%23)|(#)";
            location := "path_or_params" |}.
Proof.
  intros Hc Hin.
  unfold LocalThreatDetector._check_sql_injection, LocalThreatDetector.first_match.
  cbn [LocalThreatDetector.sql_injection_patterns List.find Re.compiled].
  rewrite (search_char _ c); [reflexivity | | exact Hin].
  destruct Hc as [-> | ->]; vm_compute; reflexivity.
Qed.

(** X1. An apostrophe or a hash sign anywhere in the path or in the value
    of a query parameter makes the SQL evaluator report [sql_injection]
    with severity 9, by its first pattern. *)
Theorem quote_or_hash_is_sql_injection
        (path : string) (params : list (string * string)) (c : ascii) :
  c = "'"%char \/ c = "#"%char ->
  Str.has_char c path = true
  \/ (exists value, In value (values params) /\ Str.has_char c value = true) ->
  LocalThreatDetector._check_sql_injection path params
  = Some {| type := "sql_injection"; severity := 9;
            evidence := Pattern "(\%27)|(\')|(\-\-)|(\%23)|(#)";
            location := "path_or_params" |}.
Proof.
  intros Hc Hin. apply _check_sql_injection_on_char with (c := c); [exact Hc |].
  now apply has_char_combined_input.
Qed.

(** A fragment in a page address. *)
Lemma quote_or_hash_is_sql_injection_witness :
  LocalThreatDetector._check_sql_injection "/docs/index.html#install" []
  = Some {| type := "sql_injection"; severity := 9;
            evidence := Pattern "(\%27)|(\')|(\-\-)|(\%23)|(#)";
            location := "path_or_params" |}.
Proof.
  apply (quote_or_hash_is_sql_injection "/docs/index.html#install" [] "#"%char).
  - right. reflexivity.
  - left. vm_compute. reflexivity.
Defined.

(** X2. The path-traversal evaluator reports a threat exactly when the
    lower-cased path holds one of the five texts [../], [..\],
    [%2e%2e%2f], [%2e%2e/], [..%2f]; the threat has type [path_traversal]
    and severity 6.  Query parameters are not looked at, and no other
    encoding of a climbing path is recognised. *)
Theorem path_traversal_literals_only (path : string) :
  (LocalThreatDetector._check_path_traversal path <> None
   <-> exists marker, In marker path_traversal_literals
                      /\ occurs_in marker (Str.lower path))
  /\ (forall threat,
         LocalThreatDetector._check_path_traversal path = Some threat ->
         type threat = "path_traversal" /\ severity threat = 6
         /\ location threat = "path").
Proof.
  split.
  - assert (Hfound : LocalThreatDetector._check_path_traversal path <> None
                     <-> LocalThreatDetector.first_match
                           LocalThreatDetector.path_traversal_patterns path <> None).
    { unfold LocalThreatDetector._check_path_traversal.
      destruct (LocalThreatDetector.first_match _ _); split; congruence. }
    rewrite Hfound, first_match_found. split.
    + intros [p [Hin Hp]].
      cbn [LocalThreatDetector.path_traversal_patterns In] in Hin.
      destruct Hin as [<- | [<- | [<- | [<- | [<- | []]]]]];
        cbn [Re.compiled] in Hp; rewrite search_lit in Hp;
        apply contains_spec in Hp; eexists; (split; [| exact Hp]);
        cbn; tauto.
    + intros [marker [Hin Hm]]. apply contains_spec in Hm.
      cbn [path_traversal_literals In] in Hin.
      destruct Hin as [<- | [<- | [<- | [<- | [<- | []]]]]].
      * exists {| Re.source := "\.\.\/"; Re.compiled := Re.lit "../" |}.
        split; [cbn; tauto | cbn [Re.compiled]; now rewrite search_lit].
      * exists {| Re.source := "\.\.\\"; Re.compiled := Re.lit "..\" |}.
        split; [cbn; tauto | cbn [Re.compiled]; now rewrite search_lit].
      * exists {| Re.source := "\%2e\%2e\%2f"; Re.compiled := Re.lit "%2e%2e%2f" |}.
        split; [cbn; tauto | cbn [Re.compiled]; now rewrite search_lit].
      * exists {| Re.source := "\%2e\%2e\/"; Re.compiled := Re.lit "%2e%2e/" |}.
        split; [cbn; tauto | cbn [Re.compiled]; now rewrite search_lit].
      * exists {| Re.source := "\.\.%2f"; Re.compiled := Re.lit "..%2f" |}.
        split; [cbn; tauto | cbn [Re.compiled]; now rewrite search_lit].
  - intros threat. unfold LocalThreatDetector._check_path_traversal.
    destruct (LocalThreatDetector.first_match _ _); [| discriminate].
    intros [= <-]. repeat split.
Qed.

(** An upper-case percent-encoding of [../]. *)
Lemma path_traversal_literals_only_witness :
  LocalThreatDetector._check_path_traversal "/files/%2E%2E%2Fetc/passwd" <> None.
Proof.
  apply (proj1 (path_traversal_literals_only "/files/%2E%2E%2Fetc/passwd")).
  exists "%2e%2e%2f". split; [cbn; tauto |].
  exists "/files/", "etc/passwd". reflexivity.
Defined.

(** X3. On an ASCII user agent, the user-agent evaluator reports a threat
    exactly when the lower-cased user agent holds one of the eleven
    scanner names, anywhere and so also inside a longer word; the threat
    has type [suspicious_user_agent] and severity 5 and names a scanner
    that occurs. *)
Theorem user_agent_substring_match (user_agent : string) :
  Str.isascii user_agent = true ->
  (LocalThreatDetector._check_user_agent user_agent <> None
   <-> exists name, In name LocalThreatDetector.suspicious_user_agents
                    /\ occurs_in name (Str.lower user_agent))
  /\ (forall threat,
         LocalThreatDetector._check_user_agent user_agent = Some threat ->
         type threat = "suspicious_user_agent" /\ severity threat = 5
         /\ exists name, evidence threat = UserAgent name
                         /\ In name LocalThreatDetector.suspicious_user_agents
                         /\ occurs_in name (Str.lower user_agent)).
Proof.
  intros _. unfold LocalThreatDetector._check_user_agent. cbv zeta.
  destruct (List.find _ _) as [name |] eqn:E.
  - apply find_some in E as [Hin Hname]. apply contains_spec in Hname.
    split.
    + split; [intros _; eauto | discriminate].
    + intros threat [= <-]. repeat split. eauto.
  - split.
    + split; [intros H; now elim H |].
      intros [name [Hin Hname]]. apply contains_spec in Hname.
      pose proof (find_none _ _ E name Hin) as H. cbn in H. congruence.
    + discriminate.
Qed.

(** An automation service whose name holds [zap]. *)
Lemma user_agent_substring_match_witness :
  LocalThreatDetector._check_user_agent "Zapier/2.1 (webhook delivery)" <> None.
Proof.
  apply (proj1 (user_agent_substring_match
                  "Zapier/2.1 (webhook delivery)" eq_refl)).
  exists "zap". split; [cbn; tauto |].
  exists "", "ier/2.1 (webhook delivery)". reflexivity.
Defined.

(** X4. A path that holds [javascript:], in any letter case, makes the
    XSS evaluator report a threat of type [xss] and severity 7. *)
Theorem javascript_scheme_is_xss (path : string) (params : list (string * string)) :
  occurs_in "javascript:" (Str.lower path) ->
  exists threat,
    LocalThreatDetector._check_xss path params = Some threat
    /\ type threat = "xss" /\ severity threat = 7.
Proof.
  intros Hocc. apply contains_spec in Hocc.
  assert (Hfound : LocalThreatDetector.first_match
                     LocalThreatDetector.xss_patterns
                     (LocalThreatDetector.combined_input path params) <> None).
  { apply first_match_found.
    exists {| Re.source := "javascript:"; Re.compiled := Re.lit "javascript:" |}.
    split; [cbn; tauto |]. cbn [Re.compiled]. rewrite search_lit.
    unfold LocalThreatDetector.combined_input. rewrite lower_append.
    now apply contains_append_l. }
  unfold LocalThreatDetector._check_xss.
  destruct (LocalThreatDetector.first_match _ _) as [p |]; [| now elim Hfound].
  eexists. repeat split.
Qed.

(** A link target in a redirect address. *)
Lemma javascript_scheme_is_xss_witness :
  exists threat,
    LocalThreatDetector._check_xss "/redirect/JavaScript:void(0)" [] = Some threat
    /\ type threat = "xss" /\ severity threat = 7.
Proof.
  apply (javascript_scheme_is_xss "/redirect/JavaScript:void(0)" []).
  exists "/redirect/", "void(0)". reflexivity.
Defined.

(** ** The report of a local analysis *)

Section LocalReport.

Variables (self : LocalThreatDetector.t) (request_data : Request.t)
          (clock : LocalThreatDetector.Clock).

Let results := evaluations self request_data clock.
Let detection := snd (LocalThreatDetector.analyze_request self request_data clock).

(** Every field of the detection in terms of the six evaluations. *)
Lemma analyze_request_report :
  detection
  = let threats := found_threats results in
    let max_severity := fold_right Z.max 0 (severities results) in
    {| threat_type := LocalThreatDetector.primary_threat threats;
       severity_level := max_severity;
       confidence := LocalThreatDetector.confidence_of threats max_severity;
       source_ip := Request.get Request.ip "" request_data;
       user_agent := Request.get Request.user_agent "" request_data;
       request_path := Request.get Request.path "" request_data;
       threat_data := Threats threats (Request.get Request.method "GET" request_data);
       spider_score := 0;
       detection_time := (LocalThreatDetector.end_time clock
                          - LocalThreatDetector.start_time clock) * 1000;
       recommended_action := LocalThreatDetector.action_of max_severity |}.
Proof.
  pose proof (accumulate_spec results [] 0) as Hacc.
  rewrite fold_max_from in Hacc by lia.
  pose proof (fold_max_nonneg (severities results)) as Hnonneg.
  rewrite Z.max_r in Hacc by exact Hnonneg.
  clear Hnonneg. unfold detection, results in *. unfold evaluations in *.
  unfold LocalThreatDetector.analyze_request. cbv zeta in *.
  cbn [fold_left snd app] in Hacc.
  destruct (LocalThreatDetector._check_rate_limiting _ _ _) as [self' rate].
  cbn [snd] in Hacc |- *. rewrite Hacc. reflexivity.
Qed.

Lemma evaluations_severities (name : string) (threat : Threat) :
  In (name, Some threat) results -> In (severity threat) [5; 6; 7; 9].
Proof.
  intros Hin. unfold results, evaluations in Hin. cbn [In] in Hin.
  destruct Hin as [H | [H | [H | [H | [H | [H | []]]]]]];
    injection H as _ H.
  - apply _check_sql_injection_type in H as [_ ->]. cbn. tauto.
  - apply _check_xss_type in H as [_ ->]. cbn. tauto.
  - apply _check_path_traversal_type in H as [_ ->]. cbn. tauto.
  - apply _check_user_agent_type in H as [_ ->]. cbn. tauto.
  - apply _check_rate_limiting_type in H as [_ ->]. cbn. tauto.
  - apply _check_suspicious_headers_type in H as [_ ->]. cbn. tauto.
Qed.

End LocalReport.

Lemma severities_In (results : list (string * option Threat)) (x : Z) :
  In x (severities results)
  <-> exists name threat, In (name, Some threat) results /\ severity threat = x.
Proof.
  unfold severities. rewrite in_flat_map. split.
  - intros [[name [t |]] [Hin Hx]]; [| destruct Hx].
    destruct Hx as [<- | []]. eauto.
  - intros [name [t [Hin <-]]]. exists (name, Some t). split; [exact Hin | now left].
Qed.

Lemma found_threats_length (results : list (string * option Threat)) :
  length (found_threats results) = length (severities results).
Proof.
  induction results as [| [name [t |]] rest IH]; cbn; [reflexivity | | exact IH].
  unfold found_threats, severities in IH. now rewrite IH.
Qed.

Lemma fold_max_In (l : list Z) :
  l = [] /\ fold_right Z.max 0 l = 0
  \/ (l <> [] /\ (fold_right Z.max 0 l = 0 \/ In (fold_right Z.max 0 l) l)).
Proof.
  induction l as [| a l IH]; [left; split; reflexivity |].
  right. split; [discriminate |]. cbn [fold_right].
  destruct (Z.max_spec a (fold_right Z.max 0 l)) as [[_ ->] | [_ ->]].
  - destruct IH as [[-> H0] | [_ [H0 | Hin]]]; cbn; tauto.
  - right. now left.
Qed.

Lemma fold_max_upper (l : list Z) (x : Z) :
  In x l -> x <= fold_right Z.max 0 l.
Proof.
  induction l as [| a l IH]; [intros [] |].
  cbn [fold_right In]. intros [-> | H]; [lia | specialize (IH H); lia].
Qed.

(** The severity of a local analysis is 0 when nothing was found and
    otherwise one of 5, 6, 7, 9, the greatest found. *)
Lemma local_severity_values
      (self : LocalThreatDetector.t) (request_data : Request.t)
      (clock : LocalThreatDetector.Clock) :
  let detection := snd (LocalThreatDetector.analyze_request self request_data clock) in
  (threats_of detection = [] /\ severity_level detection = 0)
  \/ (threats_of detection <> [] /\ In (severity_level detection) [5; 6; 7; 9]).
Proof.
  cbv zeta. rewrite analyze_request_report. cbv zeta.
  unfold threats_of. cbn [threat_data severity_level].
  set (results := evaluations self request_data clock).
  assert (Hlen := found_threats_length results).
  destruct (fold_max_In (severities results)) as [[Hnil H0] | [Hne [H0 | Hin]]].
  - left. rewrite Hnil in Hlen. destruct (found_threats results); [| discriminate].
    split; [reflexivity | exact H0].
  - exfalso. destruct (severities results) as [| x xs] eqn:E; [now apply Hne |].
    assert (Hx : In x (severities results)) by (rewrite E; now left).
    pose proof (fold_max_upper _ _ Hx) as Hup. rewrite E in Hup.
    apply severities_In in Hx as [name [t [Hin Hsev]]].
    apply evaluations_severities in Hin. rewrite Hsev in Hin.
    cbn in Hin. lia.
  - right. split.
    + intros Hnil. rewrite Hnil in Hlen. destruct (severities results); [now apply Hne |].
      discriminate.
    + apply severities_In in Hin as [name [t [Hin Hsev]]].
      apply evaluations_severities in Hin. now rewrite Hsev in Hin.
Qed.

Lemma local_detection_severity_values
      (self : SentinelBot.t) (request_data : Request.t) (env : SentinelBot.Env) :
  In (severity_level (SentinelBot.local_detection self request_data env)) [0; 5; 6; 7; 9].
Proof.
  unfold SentinelBot.local_detection, SentinelBot.local_result.
  destruct (local_severity_values (SentinelBot.local_detector self) request_data
                                  (SentinelBot.local_clock env))
    as [[_ ->] | [_ H]]; cbn in *; tauto.
Qed.

(** ** Severity and action of a classification *)

(** X5. Whatever path a classification takes, its severity is one of 0, 5,
    6, 7, 9, 10 and its recommended action is the one the severity maps
    to (8 and above [block_immediately], 5 to 7 [rate_limit], below 3
    [allow]); the action [monitor_closely] is never recommended. *)
Theorem action_follows_severity
        (self : SentinelBot.t) (request_data : Request.t) (env : SentinelBot.Env) :
  let detection := snd (fst (SentinelBot.analyze_request self request_data env)) in
  In (severity_level detection) [0; 5; 6; 7; 9; 10]
  /\ recommended_action detection
     = LocalThreatDetector.action_of (severity_level detection)
  /\ recommended_action detection <> "monitor_closely".
Proof.
  cbv zeta.
  assert (Hstep : forall d : ThreatDetection,
             In (severity_level d) [0; 5; 6; 7; 9; 10] ->
             recommended_action d = LocalThreatDetector.action_of (severity_level d) ->
             In (severity_level d) [0; 5; 6; 7; 9; 10]
             /\ recommended_action d = LocalThreatDetector.action_of (severity_level d)
             /\ recommended_action d <> "monitor_closely").
  { intros d Hin Hact. split; [exact Hin |]. split; [exact Hact |].
    rewrite Hact. cbn in Hin.
    destruct Hin as [<- | [<- | [<- | [<- | [<- | [<- | []]]]]]]; discriminate. }
  assert (Hlocal := local_detection_severity_values self request_data env).
  assert (Haction := local_detection_action self request_data env).
  destruct (decide (Request.get Request.ip "" request_data
                    ∈ SentinelBot.whitelist_ips self)) as [Hw | Hw].
  { rewrite analyze_request_whitelisted by exact Hw.
    apply Hstep; [cbn; tauto | reflexivity]. }
  destruct (decide (Request.get Request.ip "" request_data
                    ∈ SentinelBot.blocked_ips self)) as [Hb | Hb].
  { rewrite analyze_request_blocked by assumption.
    apply Hstep; [cbn; tauto | reflexivity]. }
  assert (Hkeep : In (severity_level (SentinelBot.local_detection self request_data env))
                     [0; 5; 6; 7; 9; 10]) by (cbn in Hlocal |- *; tauto).
  destruct (Z_le_gt_dec 8 (severity_level
                             (SentinelBot.local_detection self request_data env))).
  { rewrite analyze_request_high by assumption. now apply Hstep. }
  destruct (Z_le_gt_dec 5 (severity_level
                             (SentinelBot.local_detection self request_data env))).
  - rewrite medium_detection by (assumption || lia).
    destruct (remote_outcome self request_data env) as [result | e];
      [| now apply Hstep].
    unfold SentinelBot.apply_spider_result.
    destruct (Qltb 8 _).
    + apply Hstep; cbn [severity_level recommended_action set_recommended_action
                        set_severity_level set_spider_score].
      * replace (Z.max _ 9) with 9 by lia. cbn. tauto.
      * replace (Z.max _ 9) with 9 by lia. reflexivity.
    + apply Hstep; [exact Hkeep | exact Haction].
  - rewrite analyze_request_low by (assumption || lia). now apply Hstep.
Qed.

(** ** Confidence *)

Lemma inject_Z_le_Q (a b : Z) : a <= b -> (inject_Z a <= inject_Z b)%Q.
Proof. intros H. now rewrite <- Zle_Qle. Qed.

(** X6. The confidence of a local analysis is 0 when no evaluator found
    anything and lies between 0.45 and 0.95 otherwise; a classification
    of a listed IP has confidence 1, so every classification has a
    confidence between 0 and 1. *)
Theorem confidence_bounds
        (self : SentinelBot.t) (request_data : Request.t) (env : SentinelBot.Env) :
  let local := SentinelBot.local_detection self request_data env in
  let detection := snd (fst (SentinelBot.analyze_request self request_data env)) in
  (threats_of local = [] -> (confidence local == 0)%Q)
  /\ (threats_of local <> [] ->
      (45 # 100 <= confidence local)%Q /\ (confidence local <= 95 # 100)%Q)
  /\ (0 <= confidence detection)%Q /\ (confidence detection <= 1)%Q.
Proof.
  cbv zeta.
  assert (Hlocal :
            (threats_of (SentinelBot.local_detection self request_data env) = [] ->
             (confidence (SentinelBot.local_detection self request_data env) == 0)%Q)
            /\ (threats_of (SentinelBot.local_detection self request_data env) <> [] ->
                (45 # 100 <= confidence (SentinelBot.local_detection self request_data env))%Q
                /\ (confidence (SentinelBot.local_detection self request_data env)
                    <= 95 # 100)%Q)).
  { unfold SentinelBot.local_detection, SentinelBot.local_result.
    pose proof (local_severity_values (SentinelBot.local_detector self) request_data
                                      (SentinelBot.local_clock env)) as Hvalues.
    cbv zeta in Hvalues. revert Hvalues.
    rewrite analyze_request_report. cbv zeta.
    unfold threats_of. cbn [threat_data severity_level confidence].
    set (threats := found_threats _). set (m := fold_right Z.max 0 _).
    intros Hvalues. clearbody threats m.
    unfold LocalThreatDetector.confidence_of. split.
    - intros Hnil. destruct Hvalues as [[_ Hm] | [Hne _]]; [| contradiction].
      rewrite Hnil, Hm. reflexivity.
    - intros Hne. destruct Hvalues as [[Hnil _] | [_ Hm]]; [contradiction |].
      split; [| apply Q.le_min_l].
      apply Q.min_glb; [discriminate |].
      assert (Hn : (1 <= inject_Z (Z.of_nat (length threats)))%Q).
      { change 1%Q with (inject_Z 1). apply inject_Z_le_Q.
        destruct threats; [contradiction | cbn [length]; lia]. }
      assert (H5 : (5 <= inject_Z m)%Q).
      { change 5%Q with (inject_Z 5). apply inject_Z_le_Q. cbn in Hm. lia. }
      unfold Qdiv. change (/ 10)%Q with (1 # 10)%Q.
      apply Qle_trans with (y := (1 * (2 # 10) + 5 * (1 # 10) * (5 # 10))%Q);
        [vm_compute; discriminate |].
      apply Qplus_le_compat.
      + apply Qmult_le_compat_r; [exact Hn | discriminate].
      + apply Qmult_le_compat_r; [| discriminate].
        apply Qmult_le_compat_r; [exact H5 | discriminate]. }
  destruct Hlocal as [Hnone Hsome]. split; [exact Hnone |]. split; [exact Hsome |].
  assert (Hrange : (0 <= confidence (SentinelBot.local_detection self request_data env))%Q
                   /\ (confidence (SentinelBot.local_detection self request_data env)
                       <= 1)%Q).
  { destruct (threats_of (SentinelBot.local_detection self request_data env)) eqn:E.
    - rewrite (Hnone eq_refl). split; discriminate.
    - destruct Hsome as [Hlow Hhigh]; [discriminate |]. split.
      + eapply Qle_trans; [| exact Hlow]. discriminate.
      + eapply Qle_trans; [exact Hhigh |]. discriminate. }
  destruct (decide (Request.get Request.ip "" request_data
                    ∈ SentinelBot.whitelist_ips self)) as [Hw | Hw].
  { rewrite analyze_request_whitelisted by exact Hw. split; discriminate. }
  destruct (decide (Request.get Request.ip "" request_data
                    ∈ SentinelBot.blocked_ips self)) as [Hb | Hb].
  { rewrite analyze_request_blocked by assumption. split; discriminate. }
  destruct (Z_le_gt_dec 8 (severity_level
                             (SentinelBot.local_detection self request_data env))).
  { now rewrite analyze_request_high by assumption. }
  destruct (Z_le_gt_dec 5 (severity_level
                             (SentinelBot.local_detection self request_data env))).
  - rewrite medium_detection by (assumption || lia).
    destruct (remote_outcome self request_data env) as [result | e];
      [| exact Hrange].
    unfold SentinelBot.apply_spider_result. destruct (Qltb 8 _); exact Hrange.
  - now rewrite analyze_request_low by (assumption || lia).
Qed.

(** The scanner's request: one threat of severity 5, confidence 0.45. *)
Lemma confidence_bounds_witness :
  (45 # 100 <= confidence (SentinelBot.local_detection
                             Scenario.ready Scenario.scanner Scenario.quick_mild))%Q
  /\ (confidence (SentinelBot.local_detection
                    Scenario.ready Scenario.scanner Scenario.quick_mild) <= 95 # 100)%Q.
Proof.
  apply (confidence_bounds Scenario.ready Scenario.scanner Scenario.quick_mild).
  vm_compute. discriminate.
Defined.

(** ** A quote or a hash sign blocks the request *)

Lemma local_severity_at_least
      (self : SentinelBot.t) (request_data : Request.t) (env : SentinelBot.Env)
      (name : string) (threat : Threat) :
  In (name, Some threat)
     (evaluations (SentinelBot.local_detector self) request_data
                  (SentinelBot.local_clock env)) ->
  severity threat
  <= severity_level (SentinelBot.local_detection self request_data env).
Proof.
  intros Hin. unfold SentinelBot.local_detection, SentinelBot.local_result.
  rewrite analyze_request_report. cbv zeta. cbn [severity_level].
  apply fold_max_upper, severities_In. eauto.
Qed.

(** X7. A request from an IP on neither list whose path, or the value of
    one of whose query parameters, holds an apostrophe or a hash sign is
    classified as [sql_injection] with severity 9 and action
    [block_immediately]; the remote service is not asked and the remote
    score is 0. *)
Theorem quote_or_hash_blocks_without_remote_call
        (self : SentinelBot.t) (request_data : Request.t) (env : SentinelBot.Env)
        (c : ascii) :
  Request.get Request.ip "" request_data ∉ SentinelBot.whitelist_ips self ->
  Request.get Request.ip "" request_data ∉ SentinelBot.blocked_ips self ->
  c = "'"%char \/ c = "#"%char ->
  Str.has_char c (Request.get Request.path "" request_data) = true
  \/ (exists value,
         In value (values (Request.get Request.query_params [] request_data))
         /\ Str.has_char c value = true) ->
  let '(_, detection, events) := SentinelBot.analyze_request self request_data env in
  threat_type detection = "sql_injection"
  /\ severity_level detection = 9
  /\ recommended_action detection = "block_immediately"
  /\ spider_score detection = 0%Q
  /\ deadlines events = [] /\ posts events = [].
Proof.
  intros Hw Hb Hc Hin.
  pose proof (_check_sql_injection_on_char
                _ _ c Hc (has_char_combined_input c _ _ Hin)) as Hsql.
  set (found := {| type := "sql_injection" |}) in Hsql.
  assert (Hs : severity_level (SentinelBot.local_detection self request_data env) = 9).
  { pose proof (local_severity_at_least self request_data env "sql_injection" found)
      as Hlow.
    pose proof (local_detection_severity_values self request_data env) as Hvalues.
    assert (9 <= severity_level (SentinelBot.local_detection self request_data env)).
    { apply Hlow. unfold evaluations. rewrite Hsql. now left. }
    cbn in Hvalues. lia. }
  rewrite analyze_request_high by (assumption || lia).
  split; [| split; [exact Hs | split; [| split; [| split; reflexivity]]]].
  - unfold SentinelBot.local_detection, SentinelBot.local_result.
    rewrite analyze_request_report. cbv zeta. cbn [threat_type].
    unfold evaluations. rewrite Hsql. reflexivity.
  - rewrite local_detection_action, Hs. reflexivity.
  - apply local_detection_spider_score.
Qed.

(** A browser following a link with a fragment. *)
Lemma quote_or_hash_blocks_without_remote_call_witness :
  let '(_, detection, events) :=
    SentinelBot.analyze_request Scenario.ready Requests.browser_fragment
                                Scenario.quick_mild in
  threat_type detection = "sql_injection"
  /\ severity_level detection = 9
  /\ recommended_action detection = "block_immediately"
  /\ spider_score detection = 0%Q
  /\ deadlines events = [] /\ posts events = [].
Proof.
  apply (quote_or_hash_blocks_without_remote_call
           Scenario.ready Requests.browser_fragment Scenario.quick_mild "#"%char).
  - by_computation.
  - by_computation.
  - right. reflexivity.
  - left. vm_compute. reflexivity.
Defined.

(** ** The rate window of every IP *)

Lemma entries_after_check (self : LocalThreatDetector.t) (ip other : string) (now : Q) :
  entries (fst (LocalThreatDetector._check_rate_limiting self ip now)) other
  = if decide (other = ip)
    then (LocalThreatDetector.clean (now - LocalThreatDetector.rate_limit_window)
                                    (entries self ip) ++ [(now, 1)])%list
    else LocalThreatDetector.clean (now - LocalThreatDetector.rate_limit_window)
                                   (entries self other).
Proof.
  rewrite _check_rate_limiting_spec. cbv zeta. unfold entries at 1. cbn [fst].
  cbn [LocalThreatDetector.request_counts].
  destruct (decide (other = ip)) as [-> | Hne].
  - now rewrite lookup_insert_eq.
  - rewrite lookup_insert_ne by congruence. rewrite lookup_fmap.
    unfold entries. now destruct (LocalThreatDetector.request_counts self !! other).
Qed.

(** X8. A rate check for one IP at time [now] prunes the window of every
    IP: for another IP the entries newer than [now - 60] stay and nothing
    is added; afterwards every entry of every IP is newer than [now - 60]
    and carries the count 1 if all did before; no IP ever loses its key,
    and the checked IP has one. *)
Theorem rate_check_prunes_every_ip
        (self : LocalThreatDetector.t) (ip : string) (now : Q) :
  let self' := fst (LocalThreatDetector._check_rate_limiting self ip now) in
  (forall other, other <> ip ->
                 entries self' other
                 = LocalThreatDetector.clean (now - 60) (entries self other))
  /\ (forall any timestamp count,
         In (timestamp, count) (entries self' any) -> (now - 60 < timestamp)%Q)
  /\ ((forall any, Forall (fun entry => snd entry = 1) (entries self any)) ->
      forall any, Forall (fun entry => snd entry = 1) (entries self' any))
  /\ dom (LocalThreatDetector.request_counts self)
     ⊆ dom (LocalThreatDetector.request_counts self')
  /\ ip ∈ dom (LocalThreatDetector.request_counts self').
Proof.
  cbv zeta. split; [| split; [| split; [| split]]].
  - intros other Hne. rewrite entries_after_check. now rewrite decide_False.
  - intros any timestamp count. rewrite entries_after_check.
    destruct (decide (any = ip)) as [-> | Hne].
    + rewrite in_app_iff, clean_In. intros [[_ H] | [H | []]]; [exact H |].
      injection H as <- _. unfold LocalThreatDetector.rate_limit_window.
      apply Qlt_minus_iff. ring_simplify. reflexivity.
    + rewrite clean_In. tauto.
  - intros Hones any. rewrite entries_after_check.
    assert (Hclean : forall who,
               Forall (fun entry : Q * Z => snd entry = 1)
                      (LocalThreatDetector.clean
                         (now - LocalThreatDetector.rate_limit_window)
                         (entries self who))).
    { intros who. apply List.Forall_forall. intros [t c] Hx.
      apply clean_In in Hx as [Hx _]. specialize (Hones who).
      rewrite List.Forall_forall in Hones. exact (Hones _ Hx). }
    destruct (decide (any = ip)).
    + apply List.Forall_app. split; [apply Hclean | repeat constructor].
    + apply Hclean.
  - rewrite _check_rate_limiting_spec. cbv zeta. cbn [fst].
    cbn [LocalThreatDetector.request_counts].
    rewrite dom_insert_L, dom_fmap_L. set_solver.
  - rewrite _check_rate_limiting_spec. cbv zeta. cbn [fst].
    cbn [LocalThreatDetector.request_counts].
    rewrite dom_insert_L. set_solver.
Qed.

(** X9. After a quiet window the count starts again: when no entry of the
    IP is newer than [now - 60], the check leaves the single entry of the
    current request and reports nothing. *)
Theorem rate_window_restarts
        (self : LocalThreatDetector.t) (ip : string) (now : Q) :
  (forall timestamp count,
      In (timestamp, count) (entries self ip) -> (timestamp <= now - 60)%Q) ->
  let '(self', signal) := LocalThreatDetector._check_rate_limiting self ip now in
  entries self' ip = [(now, 1)] /\ signal = None.
Proof.
  intros Hold.
  assert (Hclean : LocalThreatDetector.clean
                     (now - LocalThreatDetector.rate_limit_window) (entries self ip)
                   = []).
  { destruct (LocalThreatDetector.clean _ _) as [| [t c] rest] eqn:E; [reflexivity |].
    assert (Hin : In (t, c) (LocalThreatDetector.clean
                               (now - LocalThreatDetector.rate_limit_window)
                               (entries self ip))) by (rewrite E; now left).
    apply clean_In in Hin as [Hin Hnew]. specialize (Hold t c Hin).
    exfalso. exact (Qlt_not_le _ _ Hnew Hold). }
  pose proof (entries_after_check self ip ip now) as Hentries.
  rewrite decide_True, Hclean in Hentries by reflexivity.
  rewrite _check_rate_limiting_spec in Hentries |- *. cbv zeta in Hentries |- *.
  rewrite Hclean in Hentries |- *. cbn [fst] in Hentries. split; [exact Hentries |].
  reflexivity.
Qed.

(** 150 entries that are two minutes old. *)
Lemma rate_window_restarts_witness :
  let '(self', signal) :=
    LocalThreatDetector._check_rate_limiting
      (fst (replay LocalThreatDetector.init "10.0.0.1" (burst ++ burst)))
      "10.0.0.1" 200 in
  entries self' "10.0.0.1" = [(200%Q, 1)] /\ signal = None.
Proof.
  apply (rate_window_restarts
           (fst (replay LocalThreatDetector.init "10.0.0.1" (burst ++ burst)))
           "10.0.0.1" 200).
  intros timestamp count Hin.
  assert (Hall : forallb (fun entry : Q * Z => Qle_bool (fst entry) (200 - 60))
                         (entries (fst (replay LocalThreatDetector.init "10.0.0.1"
                                               (burst ++ burst))) "10.0.0.1")
                 = true) by (vm_compute; reflexivity).
  rewrite forallb_forall in Hall. apply Qle_bool_iff. exact (Hall _ Hin).
Defined.

(** ** What a classification leaves behind *)

Lemma local_analysis_state
      (self : LocalThreatDetector.t) (request_data : Request.t)
      (clock : LocalThreatDetector.Clock) :
  fst (LocalThreatDetector.analyze_request self request_data clock)
  = fst (LocalThreatDetector._check_rate_limiting
           self (Request.get Request.ip "" request_data)
           (LocalThreatDetector.current_time clock)).
Proof.
  unfold LocalThreatDetector.analyze_request.
  destruct (LocalThreatDetector._check_rate_limiting _ _ _) as [self' rate].
  destruct (LocalThreatDetector.record_threat _ _) as [threats max_severity].
  reflexivity.
Qed.

Lemma analyze_request_local_detector
      (self : SentinelBot.t) (request_data : Request.t) (env : SentinelBot.Env) :
  ~ listed self request_data ->
  SentinelBot.local_detector (fst (fst (SentinelBot.analyze_request self request_data env)))
  = fst (SentinelBot.local_result self request_data env).
Proof.
  intros Hl. unfold listed in Hl.
  rewrite analyze_request_unlisted by tauto.
  destruct (8 <=? _); [reflexivity |].
  destruct (if 5 <=? _ then _ else _) as [[api' detection] events]. reflexivity.
Qed.

(** X10. A classification of an IP on neither list records the request in
    the rate window of that IP, whatever it decides, a block included;
    a classification of a listed IP leaves the windows alone, so the
    requests of a block-listed IP are not counted. *)
Theorem classification_records_request
        (self : SentinelBot.t) (request_data : Request.t) (env : SentinelBot.Env) :
  let ip := Request.get Request.ip "" request_data in
  let now := LocalThreatDetector.current_time (SentinelBot.local_clock env) in
  let before := SentinelBot.local_detector self in
  let after :=
    SentinelBot.local_detector
      (fst (fst (SentinelBot.analyze_request self request_data env))) in
  (listed self request_data -> after = before)
  /\ (~ listed self request_data ->
      after = fst (LocalThreatDetector._check_rate_limiting before ip now)
      /\ entries after ip
         = (LocalThreatDetector.clean (now - 60) (entries before ip) ++ [(now, 1)])%list).
Proof.
  cbv zeta. split.
  - intros Hl. now rewrite analyze_request_listed.
  - intros Hl. rewrite analyze_request_local_detector by exact Hl.
    unfold SentinelBot.local_result. rewrite local_analysis_state.
    split; [reflexivity |].
    rewrite entries_after_check. now rewrite decide_True.
Qed.

(** The injecting scanner is blocked and counted. *)
Lemma classification_records_request_witness :
  entries (SentinelBot.local_detector
             (fst (fst (SentinelBot.analyze_request
                          Scenario.ready Scenario.scanner_injecting Scenario.quick_mild))))
          "10.0.0.1"
  = [(LocalThreatDetector.current_time (SentinelBot.local_clock Scenario.quick_mild), 1)].
Proof.
  refine (proj2 (proj2 (classification_records_request
                          Scenario.ready Scenario.scanner_injecting Scenario.quick_mild)
                       _)).
  intros [H | H]; revert H; by_computation.
Defined.

Lemma db_inserts_posts (payloads : list SpiderThreatAPI.Payload) :
  db_inserts (map SentinelBot.HttpPost payloads) = [].
Proof. induction payloads; [reflexivity | exact IHpayloads]. Qed.

Lemma enhance_db_inserts api request_data local env :
  db_inserts (snd (SentinelBot.enhance api request_data local env)) = [].
Proof.
  unfold SentinelBot.enhance.
  destruct (SpiderThreatAPI.wait_for _ _ _ _) as [[api' [r | e]] payloads];
    [| destruct e]; cbn; apply db_inserts_posts.
Qed.

(** X11. A classification of an IP on neither list tries one insert into
    the threats table: the detection it returns, after the remote step,
    with status [active] when the severity is above 0 and [resolved] when
    it is 0.  A classification of a listed IP inserts nothing, so hits
    from block-listed IPs are not stored. *)
Theorem one_insert_per_unlisted_classification
        (self : SentinelBot.t) (request_data : Request.t) (env : SentinelBot.Env) :
  let '(_, detection, events) := SentinelBot.analyze_request self request_data env in
  (listed self request_data -> db_inserts events = [])
  /\ (~ listed self request_data ->
      db_inserts events
      = [(detection, if 0 <? severity_level detection then "active" else "resolved")]).
Proof.
  destruct (decide (Request.get Request.ip "" request_data
                    ∈ SentinelBot.whitelist_ips self)) as [Hw | Hw].
  { rewrite analyze_request_whitelisted by exact Hw. unfold listed.
    split; [reflexivity | tauto]. }
  destruct (decide (Request.get Request.ip "" request_data
                    ∈ SentinelBot.blocked_ips self)) as [Hb | Hb].
  { rewrite analyze_request_blocked by assumption. unfold listed.
    split; [reflexivity | tauto]. }
  rewrite analyze_request_unlisted by assumption.
  assert (Hl : ~ listed self request_data) by (unfold listed; tauto).
  destruct (8 <=? _).
  - split; [contradiction | reflexivity].
  - destruct (5 <=? _).
    + pose proof (enhance_db_inserts
                    (SentinelBot.spider_api
                       (SentinelBot.after_local self request_data env))
                    request_data
                    (SentinelBot.local_detection self request_data env) env) as He.
      destruct (SentinelBot.enhance _ _ _ _) as [[api' detection] events].
      cbn [snd] in He. split; [contradiction |]. intros _.
      unfold db_inserts in He |- *. rewrite flat_map_app, He. reflexivity.
    + split; [contradiction | reflexivity].
Qed.

(** The scanner from a block-listed address, and from an unlisted one. *)
Lemma one_insert_per_unlisted_classification_witness :
  db_inserts (snd (SentinelBot.analyze_request
                     Scenario.blocking Scenario.scanner Scenario.quick_hostile)) = []
  /\ length (db_inserts (snd (SentinelBot.analyze_request
                                Scenario.ready Scenario.scanner Scenario.quick_hostile)))
     = 1%nat.
Proof.
  pose proof (one_insert_per_unlisted_classification
                Scenario.blocking Scenario.scanner Scenario.quick_hostile) as Hblocked.
  pose proof (one_insert_per_unlisted_classification
                Scenario.ready Scenario.scanner Scenario.quick_hostile) as Hready.
  destruct (SentinelBot.analyze_request Scenario.blocking _ _) as [[s1 d1] e1].
  destruct (SentinelBot.analyze_request Scenario.ready _ _) as [[s2 d2] e2].
  cbn [snd]. split.
  - apply Hblocked. right. by_computation.
  - rewrite (proj2 Hready); [reflexivity |].
    intros [H | H]; revert H; by_computation.
Defined.

(** ** The cache of the remote client *)

Section RemoteCache.

Import SpiderThreatAPI.

Variables (api : t) (request_data : Request.t) (net : Network)
          (result : Result).

Hypothesis session_open : session api = true.
Hypothesis success : reply net = Response 200 (Return result).

(** The client after a call that went to the network and succeeded. *)
Lemma await_success (now : Q) :
  cache_lookup api request_data now = None ->
  await api (analyze_threat api request_data now) net
  = ({| session := true;
        cache := <[cache_key request_data := (result, arrival net)]> (cache api) |},
     Return result, [payload_of request_data]).
Proof.
  intros Hmiss. unfold analyze_threat, await. rewrite Hmiss.
  unfold post_and_recover, try_post. now rewrite session_open, success.
Qed.

End RemoteCache.

(** X12. A result fetched from the remote service is served from the
    cache, with no request sent, while less than 300 s have passed since
    the reply came; from 300 s on the entry is ignored and a new request
    is sent. *)
Theorem cached_result_expires
        (api : SpiderThreatAPI.t) (request_data : Request.t)
        (net later_net : SpiderThreatAPI.Network)
        (result : SpiderThreatAPI.Result) (now later : Q) :
  SpiderThreatAPI.session api = true ->
  SpiderThreatAPI.reply net = SpiderThreatAPI.Response 200 (Return result) ->
  SpiderThreatAPI.cache_lookup api request_data now = None ->
  let api' :=
    fst (fst (SpiderThreatAPI.await
                api (SpiderThreatAPI.analyze_threat api request_data now) net)) in
  let again :=
    SpiderThreatAPI.await
      api' (SpiderThreatAPI.analyze_threat api' request_data later) later_net in
  ((later - SpiderThreatAPI.arrival net < 300)%Q ->
   again = (api', Return result, []))
  /\ ((300 <= later - SpiderThreatAPI.arrival net)%Q ->
      snd again = [SpiderThreatAPI.payload_of request_data]).
Proof.
  intros Hsession Hsuccess Hmiss. cbv zeta.
  rewrite (await_success api request_data net result Hsession Hsuccess now Hmiss).
  cbn [fst]. set (api' := {| SpiderThreatAPI.session := true |}).
  assert (Hlookup : SpiderThreatAPI.cache_lookup api' request_data later
                    = if Qltb (later - SpiderThreatAPI.arrival net) 300
                      then Some result else None).
  { unfold SpiderThreatAPI.cache_lookup, api'. cbn [SpiderThreatAPI.cache].
    now rewrite lookup_insert_eq. }
  unfold SpiderThreatAPI.analyze_threat. rewrite Hlookup. split.
  - intros Hfresh. now rewrite (proj2 (Qltb_lt _ _) Hfresh).
  - intros Hstale. rewrite (proj2 (Qltb_ge _ _) Hstale).
    unfold api', SpiderThreatAPI.await. cbn [SpiderThreatAPI.session].
    now destruct (SpiderThreatAPI.post_and_recover _ _ _ _).
Qed.

(** The scanner's request, asked again after one and after five minutes. *)
Lemma cached_result_expires_witness :
  let api := SentinelBot.spider_api Scenario.ready in
  let net := SentinelBot.network Scenario.quick_mild in
  let api' :=
    fst (fst (SpiderThreatAPI.await
                api (SpiderThreatAPI.analyze_threat api Scenario.scanner 1000) net)) in
  SpiderThreatAPI.await
    api' (SpiderThreatAPI.analyze_threat api' Scenario.scanner 1060) net
  = (api', Return (Scenario.scored 6), [])
  /\ snd (SpiderThreatAPI.await
            api' (SpiderThreatAPI.analyze_threat api' Scenario.scanner 1301) net)
     = [SpiderThreatAPI.payload_of Scenario.scanner].
Proof.
  cbv zeta. split.
  - apply (cached_result_expires
             (SentinelBot.spider_api Scenario.ready) Scenario.scanner
             (SentinelBot.network Scenario.quick_mild)
             (SentinelBot.network Scenario.quick_mild)
             (Scenario.scored 6) 1000 1060); try reflexivity.
  - apply (cached_result_expires
             (SentinelBot.spider_api Scenario.ready) Scenario.scanner
             (SentinelBot.network Scenario.quick_mild)
             (SentinelBot.network Scenario.quick_mild)
             (Scenario.scored 6) 1000 1301); try reflexivity.
    vm_compute. discriminate.
Defined.

(** X13. The cache key is computed from the IP, the user agent and the
    path written one after the other, an absent one counting as empty:
    two requests for which this text is the same share one cache entry,
    so the second is given the result fetched for the first, with no
    request sent, whatever its own IP, user agent and path are. *)
Theorem cache_entry_shared_by_concatenation
        (api : SpiderThreatAPI.t) (first second : Request.t)
        (net later_net : SpiderThreatAPI.Network)
        (result : SpiderThreatAPI.Result) (now later : Q) :
  Request.get Request.ip "" first +:+ Request.get Request.user_agent "" first
    +:+ Request.get Request.path "" first
  = Request.get Request.ip "" second +:+ Request.get Request.user_agent "" second
      +:+ Request.get Request.path "" second ->
  SpiderThreatAPI.session api = true ->
  SpiderThreatAPI.reply net = SpiderThreatAPI.Response 200 (Return result) ->
  SpiderThreatAPI.cache_lookup api first now = None ->
  (later - SpiderThreatAPI.arrival net < 300)%Q ->
  let api' :=
    fst (fst (SpiderThreatAPI.await
                api (SpiderThreatAPI.analyze_threat api first now) net)) in
  SpiderThreatAPI.cache_key first = SpiderThreatAPI.cache_key second
  /\ SpiderThreatAPI.await
       api' (SpiderThreatAPI.analyze_threat api' second later) later_net
     = (api', Return result, []).
Proof.
  intros Hsame Hsession Hsuccess Hmiss Hfresh. cbv zeta.
  assert (Hkey : SpiderThreatAPI.cache_key first = SpiderThreatAPI.cache_key second).
  { unfold SpiderThreatAPI.cache_key. now rewrite Hsame. }
  split; [exact Hkey |].
  rewrite (await_success api first net result Hsession Hsuccess now Hmiss).
  cbn [fst]. unfold SpiderThreatAPI.analyze_threat, SpiderThreatAPI.cache_lookup.
  cbn [SpiderThreatAPI.cache]. rewrite <- Hkey, lookup_insert_eq.
  unfold SpiderThreatAPI.cache_ttl.
  now rewrite (proj2 (Qltb_lt _ _) Hfresh).
Qed.

(** [10.0.0.1] with agent [23-agent], then [10.0.0.12] with agent [3-agent]. *)
Lemma cache_entry_shared_by_concatenation_witness :
  let api := SentinelBot.spider_api Scenario.ready in
  let net := SentinelBot.network Scenario.quick_mild in
  let api' :=
    fst (fst (SpiderThreatAPI.await
                api (SpiderThreatAPI.analyze_threat api Collision.first 1000) net)) in
  SpiderThreatAPI.cache_key Collision.first = SpiderThreatAPI.cache_key Collision.second
  /\ SpiderThreatAPI.await
       api' (SpiderThreatAPI.analyze_threat api' Collision.second 1060) net
     = (api', Return (Scenario.scored 6), []).
Proof.
  apply (cache_entry_shared_by_concatenation
           (SentinelBot.spider_api Scenario.ready) Collision.first Collision.second
           (SentinelBot.network Scenario.quick_mild)
           (SentinelBot.network Scenario.quick_mild)
           (Scenario.scored 6) 1000 1060); reflexivity.
Defined.

(** X14. A remote call never removes or changes the cache entry of another
    key and never closes the session; it changes the cache only when the
    service answered 200 with a body that parses, and then the new entry
    holds that body and the time it came.  Neutral scores are not
    cached. *)
Theorem only_successful_replies_are_cached
        (api : SpiderThreatAPI.t) (request_data : Request.t) (now : Q)
        (net : SpiderThreatAPI.Network) :
  let api' :=
    fst (fst (SpiderThreatAPI.await
                api (SpiderThreatAPI.analyze_threat api request_data now) net)) in
  SpiderThreatAPI.session api' = SpiderThreatAPI.session api
  /\ (forall key, key <> SpiderThreatAPI.cache_key request_data ->
                  SpiderThreatAPI.cache api' !! key = SpiderThreatAPI.cache api !! key)
  /\ dom (SpiderThreatAPI.cache api) ⊆ dom (SpiderThreatAPI.cache api')
  /\ (SpiderThreatAPI.cache api' <> SpiderThreatAPI.cache api ->
      exists result,
        SpiderThreatAPI.reply net = SpiderThreatAPI.Response 200 (Return result)
        /\ SpiderThreatAPI.cache api' !! SpiderThreatAPI.cache_key request_data
           = Some (result, SpiderThreatAPI.arrival net)).
Proof.
  cbv zeta.
  assert (Hsame : forall api' : SpiderThreatAPI.t,
             api' = api ->
             SpiderThreatAPI.session api' = SpiderThreatAPI.session api
             /\ (forall key, key <> SpiderThreatAPI.cache_key request_data ->
                             SpiderThreatAPI.cache api' !! key
                             = SpiderThreatAPI.cache api !! key)
             /\ dom (SpiderThreatAPI.cache api) ⊆ dom (SpiderThreatAPI.cache api')
             /\ (SpiderThreatAPI.cache api' <> SpiderThreatAPI.cache api ->
                 exists result,
                   SpiderThreatAPI.reply net
                   = SpiderThreatAPI.Response 200 (Return result)
                   /\ SpiderThreatAPI.cache api' !! SpiderThreatAPI.cache_key request_data
                      = Some (result, SpiderThreatAPI.arrival net))).
  { intros api' ->. split; [reflexivity |]. split; [reflexivity |].
    split; [set_solver |]. intros H. now elim H. }
  unfold SpiderThreatAPI.analyze_threat, SpiderThreatAPI.await.
  destruct (SpiderThreatAPI.cache_lookup api request_data now) as [cached |];
    [now apply Hsame |].
  destruct (SpiderThreatAPI.session api) eqn:Hsession; [| now apply Hsame].
  unfold SpiderThreatAPI.post_and_recover, SpiderThreatAPI.try_post.
  destruct (SpiderThreatAPI.reply net) as [status [result | e] | e].
  - destruct (status =? 200) eqn:Hstatus; [| now apply Hsame].
    apply Z.eqb_eq in Hstatus. subst status.
    cbn [fst SpiderThreatAPI.session SpiderThreatAPI.cache].
    split; [exact Hsession |]. split; [| split].
    + intros key Hkey. now rewrite lookup_insert_ne.
    + rewrite dom_insert_L. apply union_subseteq_r.
    + intros _. exists result. split; [reflexivity | apply lookup_insert_eq].
  - destruct (status =? 200); [destruct e |]; now apply Hsame.
  - destruct e; now apply Hsame.
Qed.

(** X15. When the session of the remote client is open and the reply
    does not come before the 30 ms deadline, the request has been sent,
    the classification keeps its local result, and the remote client is
    left as it was: a reply that would have been a 200 is not cached, so
    the next classification of the same request asks again.  (With the
    session closed nothing is sent at all.) *)
Theorem late_reply_is_lost
        (self : SentinelBot.t) (request_data : Request.t) (env : SentinelBot.Env) :
  Request.get Request.ip "" request_data ∉ SentinelBot.whitelist_ips self ->
  Request.get Request.ip "" request_data ∉ SentinelBot.blocked_ips self ->
  5 <= severity_level (SentinelBot.local_detection self request_data env) < 8 ->
  SpiderThreatAPI.cache_lookup (SentinelBot.spider_api self) request_data
                               (SentinelBot.t_cache env) = None ->
  (3 # 100 <= SpiderThreatAPI.latency (SentinelBot.network env))%Q ->
  let '(self', detection, events) := SentinelBot.analyze_request self request_data env in
  SentinelBot.spider_api self' = SentinelBot.spider_api self
  /\ posts events
     = (if SpiderThreatAPI.session (SentinelBot.spider_api self)
        then [SpiderThreatAPI.payload_of request_data] else [])
  /\ detection = SentinelBot.local_detection self request_data env
  /\ forall later,
       SpiderThreatAPI.cache_lookup (SentinelBot.spider_api self') request_data later
       = SpiderThreatAPI.cache_lookup (SentinelBot.spider_api self) request_data later.
Proof.
  intros Hw Hb Hs Hmiss Hlate.
  rewrite analyze_request_medium by assumption.
  change (SentinelBot.spider_api (SentinelBot.after_local self request_data env))
    with (SentinelBot.spider_api self).
  destruct (SpiderThreatAPI.session (SentinelBot.spider_api self)) eqn:Hsession.
  - rewrite enhance_late by assumption. repeat split.
  - rewrite enhance_closed by assumption.
    split; [reflexivity |]. split; [reflexivity |]. split; [| reflexivity].
    unfold SentinelBot.apply_spider_result. cbn.
    apply set_spider_score_same, local_detection_spider_score.
Qed.

(** The service would answer 9.0, after 40 ms. *)
Lemma late_reply_is_lost_witness :
  let '(self', detection, events) :=
    SentinelBot.analyze_request Scenario.ready Scenario.scanner Scenario.too_late in
  SentinelBot.spider_api self' = SentinelBot.spider_api Scenario.ready
  /\ posts events = [SpiderThreatAPI.payload_of Scenario.scanner]
  /\ detection
     = SentinelBot.local_detection Scenario.ready Scenario.scanner Scenario.too_late
  /\ forall later,
       SpiderThreatAPI.cache_lookup (SentinelBot.spider_api self') Scenario.scanner later
       = SpiderThreatAPI.cache_lookup (SentinelBot.spider_api Scenario.ready)
                                      Scenario.scanner later.
Proof.
  apply (late_reply_is_lost Scenario.ready Scenario.scanner Scenario.too_late).
  - by_computation.
  - by_computation.
  - vm_compute. split; [discriminate | reflexivity].
  - reflexivity.
  - vm_compute. discriminate.
Defined.

(** ** What the remote step changes *)

(** X16. In a classification that reaches the remote step, the remote
    result can only touch the remote score, the severity and the action:
    the threat type, the confidence, the threats and the detection time
    stay those of the local analysis.  The severity becomes 9 exactly when
    the call returned a score above 8.0 (a score of 8.0 itself, or an
    absent one, does not escalate); otherwise severity and action stay
    local. *)
Theorem remote_step_only_escalates
        (self : SentinelBot.t) (request_data : Request.t) (env : SentinelBot.Env) :
  Request.get Request.ip "" request_data ∉ SentinelBot.whitelist_ips self ->
  Request.get Request.ip "" request_data ∉ SentinelBot.blocked_ips self ->
  5 <= severity_level (SentinelBot.local_detection self request_data env) < 8 ->
  let local := SentinelBot.local_detection self request_data env in
  let detection := snd (fst (SentinelBot.analyze_request self request_data env)) in
  threat_type detection = threat_type local
  /\ confidence detection = confidence local
  /\ threat_data detection = threat_data local
  /\ detection_time detection = detection_time local
  /\ (severity_level detection = 9
      <-> exists spider_result,
          remote_outcome self request_data env = Return spider_result
          /\ (8 < score_of spider_result)%Q)
  /\ (severity_level detection <> 9 ->
      severity_level detection = severity_level local
      /\ recommended_action detection = recommended_action local).
Proof.
  intros Hw Hb Hs. cbv zeta. rewrite medium_detection by assumption.
  destruct (remote_outcome self request_data env) as [result | e].
  - unfold SentinelBot.apply_spider_result. fold (score_of result).
    destruct (Qltb 8 (score_of result)) eqn:E; cbn.
    + apply Qltb_lt in E. repeat split; try (intros; lia).
      intros _. eauto.
    + apply Qltb_ge in E. repeat split; try (intros; lia).
      intros [r [Hr Hscore]]. injection Hr as <-.
      exfalso. exact (Qlt_not_le _ _ Hscore E).
  - repeat split; try (intros; lia).
    intros [r [Hr _]]. discriminate.
Qed.

(** The scanner's request with a remote score of 6.0. *)
Lemma remote_step_only_escalates_witness :
  let local :=
    SentinelBot.local_detection Scenario.ready Scenario.scanner Scenario.quick_mild in
  let detection :=
    snd (fst (SentinelBot.analyze_request
                Scenario.ready Scenario.scanner Scenario.quick_mild)) in
  severity_level detection = severity_level local
  /\ recommended_action detection = recommended_action local.
Proof.
  cbv zeta.
  apply (remote_step_only_escalates Scenario.ready Scenario.scanner Scenario.quick_mild).
  - by_computation.
  - by_computation.
  - vm_compute. split; [discriminate | reflexivity].
  - vm_compute. discriminate.
Defined.

(** X17. The detection time on the result of a classification that
    passes the lists is the duration of the local analysis alone, in
    milliseconds: it holds neither the list check nor the remote call,
    while the latency given to the metrics runs from the start of the
    classification to its end. *)
Theorem detection_time_is_local
        (self : SentinelBot.t) (request_data : Request.t) (env : SentinelBot.Env) :
  ~ listed self request_data ->
  let '(self', detection, _) := SentinelBot.analyze_request self request_data env in
  detection_time detection
  = ((LocalThreatDetector.end_time (SentinelBot.local_clock env)
      - LocalThreatDetector.start_time (SentinelBot.local_clock env)) * 1000)%Q
  /\ SentinelBot.avg_detection_time self'
     = ((SentinelBot.avg_detection_time self * inject_Z (SentinelBot.detection_count self)
         + (SentinelBot.t_end env - SentinelBot.t_start env) * 1000)
        / inject_Z (SentinelBot.detection_count self + 1))%Q.
Proof.
  intros Hl.
  assert (Hlocal : detection_time (SentinelBot.local_detection self request_data env)
                   = ((LocalThreatDetector.end_time (SentinelBot.local_clock env)
                       - LocalThreatDetector.start_time (SentinelBot.local_clock env))
                      * 1000)%Q).
  { unfold SentinelBot.local_detection, SentinelBot.local_result.
    now rewrite analyze_request_report. }
  assert (Hsame : forall spider_result,
             detection_time (SentinelBot.apply_spider_result
                               (SentinelBot.local_detection self request_data env)
                               spider_result)
             = detection_time (SentinelBot.local_detection self request_data env)).
  { intros r. unfold SentinelBot.apply_spider_result. now destruct (Qltb 8 _). }
  destruct (analyze_request_updates_metrics self request_data env Hl)
    as [before [Hstate [Hc [Ha _]]]].
  unfold listed in Hl.
  assert (Hd : detection_time
                 (snd (fst (SentinelBot.analyze_request self request_data env)))
               = detection_time (SentinelBot.local_detection self request_data env)).
  { destruct (Z_le_gt_dec 8 (severity_level
                               (SentinelBot.local_detection self request_data env))).
    { rewrite analyze_request_high by tauto. reflexivity. }
    destruct (Z_le_gt_dec 5 (severity_level
                               (SentinelBot.local_detection self request_data env))).
    - rewrite medium_detection by (tauto || lia).
      destruct (remote_outcome self request_data env); [apply Hsame | reflexivity].
    - rewrite analyze_request_low by (tauto || lia). reflexivity. }
  destruct (SentinelBot.analyze_request self request_data env)
    as [[self' detection] events].
  cbn [fst snd] in Hstate, Hd. split; [now rewrite Hd |].
  rewrite Hstate, _update_metrics_average, Hc, Ha. reflexivity.
Qed.

(** 2 ms of local analysis, a reply after 10 ms. *)
Lemma detection_time_is_local_witness :
  detection_time (snd (fst (SentinelBot.analyze_request
                              Scenario.ready Scenario.scanner Scenario.quick_mild)))
  = ((LocalThreatDetector.end_time (SentinelBot.local_clock Scenario.quick_mild)
      - LocalThreatDetector.start_time (SentinelBot.local_clock Scenario.quick_mild))
     * 1000)%Q.
Proof.
  pose proof (detection_time_is_local
                Scenario.ready Scenario.scanner Scenario.quick_mild) as H.
  destruct (SentinelBot.analyze_request Scenario.ready Scenario.scanner
                                        Scenario.quick_mild) as [[s d] e].
  apply H. intros [Hl | Hl]; revert Hl; by_computation.
Defined.

(** ** The lists *)

(** X18. A classification never changes the block list or the allow
    list: an IP whose request was given [block_immediately] is not added
    to the block list, and its next request is analysed again. *)
Theorem classification_never_changes_lists
        (self : SentinelBot.t) (request_data : Request.t) (env : SentinelBot.Env) :
  let self' := fst (fst (SentinelBot.analyze_request self request_data env)) in
  SentinelBot.blocked_ips self' = SentinelBot.blocked_ips self
  /\ SentinelBot.whitelist_ips self' = SentinelBot.whitelist_ips self
  /\ forall next, listed self' next <-> listed self next.
Proof.
  cbv zeta.
  assert (H : SentinelBot.blocked_ips
                (fst (fst (SentinelBot.analyze_request self request_data env)))
              = SentinelBot.blocked_ips self
              /\ SentinelBot.whitelist_ips
                   (fst (fst (SentinelBot.analyze_request self request_data env)))
                 = SentinelBot.whitelist_ips self).
  { destruct (decide (listed self request_data)) as [Hl | Hl].
    - rewrite analyze_request_listed by exact Hl. split; reflexivity.
    - destruct (analyze_request_updates_metrics self request_data env Hl)
        as [before [-> [_ [_ [Hw Hb]]]]].
      split; assumption. }
  destruct H as [Hb Hw]. split; [exact Hb |]. split; [exact Hw |].
  intros next. unfold listed. now rewrite Hb, Hw.
Qed.

Lemma block_ip_unblock_ip (self : SentinelBot.t) (ip : string) :
  ip ∉ SentinelBot.blocked_ips self ->
  SentinelBot.unblock_ip (SentinelBot.block_ip self ip) ip = self.
Proof.
  intros Hnot. destruct self as [api detector blocked allowed n avg].
  unfold SentinelBot.unblock_ip, SentinelBot.block_ip. cbn in *.
  f_equal. apply set_eq. intros x.
  rewrite elem_of_difference, elem_of_union, elem_of_singleton. split.
  - intros [[-> | H] Hne]; [now elim Hne | exact H].
  - intros H. split; [now right | intros ->; contradiction].
Qed.

(** X19. After [block_ip], a request from that IP, unless it is
    allow-listed, is answered from the block list: severity 10,
    confidence 1, [block_immediately], with no analysis, no remote call
    and no insert.  [unblock_ip] takes the IP off the list again, and when
    it was not blocked before, blocking then unblocking gives back the
    state there was. *)
Theorem block_ip_then_classify
        (self : SentinelBot.t) (ip : string)
        (request_data : Request.t) (env : SentinelBot.Env) :
  Request.get Request.ip "" request_data = ip ->
  ip ∉ SentinelBot.whitelist_ips self ->
  SentinelBot.analyze_request (SentinelBot.block_ip self ip) request_data env
  = (SentinelBot.block_ip self ip,
     SentinelBot._create_blocked_detection
       request_data (SentinelBot.t_start env) (SentinelBot.t_listed env),
     [])
  /\ (ip ∉ SentinelBot.blocked_ips
              (SentinelBot.unblock_ip (SentinelBot.block_ip self ip) ip))
  /\ (ip ∉ SentinelBot.blocked_ips self ->
      SentinelBot.analyze_request
        (SentinelBot.unblock_ip (SentinelBot.block_ip self ip) ip) request_data env
      = SentinelBot.analyze_request self request_data env).
Proof.
  intros Hip Hw. split; [| split].
  - apply analyze_request_blocked; rewrite Hip; cbn; [exact Hw |].
    apply elem_of_union_l, elem_of_singleton. reflexivity.
  - cbn. intros H. apply elem_of_difference in H as [_ H].
    apply H, elem_of_singleton. reflexivity.
  - intros Hnot. now rewrite block_ip_unblock_ip.
Qed.

(** The scanner's address is blocked by hand. *)
Lemma block_ip_then_classify_witness :
  severity_level
    (snd (fst (SentinelBot.analyze_request
                 (SentinelBot.block_ip Scenario.ready "10.0.0.1")
                 Scenario.scanner Scenario.quick_mild)))
  = 10.
Proof.
  rewrite (proj1 (block_ip_then_classify
                    Scenario.ready "10.0.0.1" Scenario.scanner Scenario.quick_mild
                    eq_refl ltac:(by_computation))).
  reflexivity.
Defined.

(** X20. Blocking or unblocking one IP does not change how a request from
    another IP is classified: the detection and everything the
    classification does outside are the same. *)
Theorem other_ips_are_unaffected
        (self : SentinelBot.t) (ip : string)
        (request_data : Request.t) (env : SentinelBot.Env) :
  Request.get Request.ip "" request_data <> ip ->
  snd (fst (SentinelBot.analyze_request (SentinelBot.block_ip self ip) request_data env))
  = snd (fst (SentinelBot.analyze_request self request_data env))
  /\ snd (SentinelBot.analyze_request (SentinelBot.block_ip self ip) request_data env)
     = snd (SentinelBot.analyze_request self request_data env)
  /\ snd (fst (SentinelBot.analyze_request
                 (SentinelBot.unblock_ip self ip) request_data env))
     = snd (fst (SentinelBot.analyze_request self request_data env))
  /\ snd (SentinelBot.analyze_request (SentinelBot.unblock_ip self ip) request_data env)
     = snd (SentinelBot.analyze_request self request_data env).
Proof.
  intros Hne.
  assert (Hsame : forall other : SentinelBot.t,
             SentinelBot.spider_api other = SentinelBot.spider_api self ->
             SentinelBot.local_detector other = SentinelBot.local_detector self ->
             SentinelBot.whitelist_ips other = SentinelBot.whitelist_ips self ->
             (Request.get Request.ip "" request_data ∈ SentinelBot.blocked_ips other
              <-> Request.get Request.ip "" request_data ∈ SentinelBot.blocked_ips self) ->
             snd (fst (SentinelBot.analyze_request other request_data env))
             = snd (fst (SentinelBot.analyze_request self request_data env))
             /\ snd (SentinelBot.analyze_request other request_data env)
                = snd (SentinelBot.analyze_request self request_data env)).
  { intros other Hapi Hdet Hwl Hbl.
    assert (Hlocal : SentinelBot.local_detection other request_data env
                     = SentinelBot.local_detection self request_data env).
    { unfold SentinelBot.local_detection, SentinelBot.local_result. now rewrite Hdet. }
    assert (Hafter : SentinelBot.spider_api
                       (SentinelBot.after_local other request_data env)
                     = SentinelBot.spider_api
                         (SentinelBot.after_local self request_data env))
      by exact Hapi.
    destruct (decide (Request.get Request.ip "" request_data
                      ∈ SentinelBot.whitelist_ips self)) as [Hw | Hw].
    { rewrite !analyze_request_whitelisted by (rewrite ?Hwl; exact Hw).
      split; reflexivity. }
    destruct (decide (Request.get Request.ip "" request_data
                      ∈ SentinelBot.blocked_ips self)) as [Hb | Hb].
    { rewrite !analyze_request_blocked by (rewrite ?Hwl; tauto).
      split; reflexivity. }
    rewrite !analyze_request_unlisted by (rewrite ?Hwl; tauto).
    rewrite Hlocal, Hafter.
    destruct (8 <=? _); [split; reflexivity |].
    destruct (if 5 <=? _ then _ else _) as [[api' detection] events].
    split; reflexivity. }
  destruct (Hsame (SentinelBot.block_ip self ip)) as [H1 H2];
    try reflexivity;
    [cbn; rewrite elem_of_union, elem_of_singleton; tauto |].
  destruct (Hsame (SentinelBot.unblock_ip self ip)) as [H3 H4];
    try reflexivity;
    [cbn; rewrite elem_of_difference, elem_of_singleton; tauto |].
  repeat split; assumption.
Qed.

(** The browser while the scanner's address is blocked. *)
Lemma other_ips_are_unaffected_witness :
  snd (fst (SentinelBot.analyze_request
              (SentinelBot.block_ip Scenario.ready "10.0.0.1")
              Scenario.browser Scenario.quick_mild))
  = snd (fst (SentinelBot.analyze_request
                Scenario.ready Scenario.browser Scenario.quick_mild)).
Proof.
  apply (other_ips_are_unaffected
           Scenario.ready "10.0.0.1" Scenario.browser Scenario.quick_mild).
  vm_compute. discriminate.
Defined.

(** ** The statistics *)

Lemma Qsum_bound (l : list Q) (bound : Q) :
  (forall x, In x l -> (x <= bound)%Q) ->
  (Qsum l <= bound * inject_Z (Z.of_nat (length l)))%Q.
Proof.
  induction l as [| a l IH]; intros H.
  - cbn. rewrite Qmult_0_r. apply Qle_refl.
  - cbn [Qsum fold_right length]. fold (Qsum l).
    replace (Z.of_nat (S (length l))) with (Z.of_nat (length l) + 1) by lia.
    rewrite inject_Z_plus.
    setoid_replace (bound * (inject_Z (Z.of_nat (length l)) + inject_Z 1))%Q
      with (bound + bound * inject_Z (Z.of_nat (length l)))%Q
      using relation Qeq by ring.
    apply Qplus_le_compat.
    + apply H. now left.
    + apply IH. intros x Hx. apply H. now right.
Qed.

(** X21. Starting from a count of 0, when every classification that
    passed the lists took at most 50 ms, the statistics report
    [target_met], with the number of those classifications as count; an
    average score of [NULL] is reported as 0. *)
Theorem target_met_within_budget
        (self : SentinelBot.t) (inputs : list (Request.t * SentinelBot.Env))
        (row : Reporting.Row) :
  SentinelBot.detection_count self = 0 ->
  recorded_latencies self inputs <> [] ->
  (forall x, In x (recorded_latencies self inputs) -> (x <= 50)%Q) ->
  exists stats,
    Reporting.get_threat_stats (classify_all self inputs) (Return row) = Return stats
    /\ Reporting.target_met stats = true
    /\ Reporting.detection_count stats
       = Z.of_nat (length (recorded_latencies self inputs))
    /\ (Reporting.avg_spider_score row = None ->
        Reporting.stats_avg_spider_score stats = 0%Q).
Proof.
  intros H0 Hne Hall.
  destruct (classify_all_metrics inputs self 0%nat 0%Q H0) as [Hc Ha].
  { cbn. ring. }
  cbv zeta in Hc, Ha. cbn [Nat.add] in Hc. rewrite Hc in Ha.
  eexists. split; [reflexivity |].
  cbn [Reporting.target_met Reporting.detection_count Reporting.stats_avg_spider_score].
  split; [| split; [exact Hc | now intros ->]].
  apply Qle_bool_iff. unfold SentinelBot.target_response_time.
  set (n := inject_Z (Z.of_nat (length (recorded_latencies self inputs)))) in *.
  assert (Hpos : (0 < n)%Q).
  { unfold n. change 0%Q with (inject_Z 0). rewrite <- Zlt_Qlt.
    destruct (recorded_latencies self inputs); [now elim Hne | cbn [length]; lia]. }
  apply (Qmult_lt_0_le_reg_r _ _ n Hpos).
  rewrite Ha, Qplus_0_l. now apply Qsum_bound.
Qed.

(** Two classifications of 13 ms each. *)
Lemma target_met_within_budget_witness :
  exists stats,
    Reporting.get_threat_stats
      (classify_all Scenario.ready
                    [ (Scenario.scanner, Scenario.quick_mild);
                      (Scenario.browser, Scenario.quick_mild) ])
      (Return {| Reporting.total_threats := 1; Reporting.critical_threats := 0;
                 Reporting.high_threats := 1; Reporting.avg_spider_score := None;
                 Reporting.unique_ips := 1 |})
    = Return stats
    /\ Reporting.target_met stats = true
    /\ Reporting.detection_count stats = 2
    /\ (@None Q = None -> Reporting.stats_avg_spider_score stats = 0%Q).
Proof.
  apply (target_met_within_budget
           Scenario.ready
           [ (Scenario.scanner, Scenario.quick_mild);
             (Scenario.browser, Scenario.quick_mild) ]
           {| Reporting.total_threats := 1; Reporting.critical_threats := 0;
              Reporting.high_threats := 1; Reporting.avg_spider_score := None;
              Reporting.unique_ips := 1 |}).
  - reflexivity.
  - vm_compute. discriminate.
  - intros x Hx.
    assert (Hall : forallb (fun y => Qle_bool y 50)
                           (recorded_latencies
                              Scenario.ready
                              [ (Scenario.scanner, Scenario.quick_mild);
                                (Scenario.browser, Scenario.quick_mild) ])
                   = true) by (vm_compute; reflexivity).
    rewrite forallb_forall in Hall. apply Qle_bool_iff. exact (Hall x Hx).
Defined.

(** ** A client that was not initialised *)

(** X22. While the session of the remote client has not been opened, a
    classification that reaches the remote step still returns: it gives
    its local detection, and the remote client stays as it was, whatever
    the network would have answered. *)
Theorem uninitialised_client_keeps_local_result
        (self : SentinelBot.t) (request_data : Request.t) (env : SentinelBot.Env) :
  SpiderThreatAPI.session (SentinelBot.spider_api self) = false ->
  Request.get Request.ip "" request_data ∉ SentinelBot.whitelist_ips self ->
  Request.get Request.ip "" request_data ∉ SentinelBot.blocked_ips self ->
  5 <= severity_level (SentinelBot.local_detection self request_data env) < 8 ->
  SpiderThreatAPI.cache_lookup (SentinelBot.spider_api self) request_data
                               (SentinelBot.t_cache env) = None ->
  let '(self', detection, _) := SentinelBot.analyze_request self request_data env in
  detection = SentinelBot.local_detection self request_data env
  /\ SentinelBot.spider_api self' = SentinelBot.spider_api self.
Proof.
  intros Hsession Hw Hb Hs Hmiss.
  rewrite analyze_request_medium by assumption.
  change (SentinelBot.spider_api (SentinelBot.after_local self request_data env))
    with (SentinelBot.spider_api self).
  rewrite enhance_closed by assumption. split; [| reflexivity].
  unfold SentinelBot.apply_spider_result. cbn.
  apply set_spider_score_same, local_detection_spider_score.
Qed.

(** The scanner's request before [initialize] has run. *)
Lemma uninitialised_client_keeps_local_result_witness :
  let '(self', detection, _) :=
    SentinelBot.analyze_request SentinelBot.init Scenario.scanner Scenario.quick_hostile in
  detection
  = SentinelBot.local_detection SentinelBot.init Scenario.scanner Scenario.quick_hostile
  /\ SentinelBot.spider_api self' = SentinelBot.spider_api SentinelBot.init.
Proof.
  apply (uninitialised_client_keeps_local_result
           SentinelBot.init Scenario.scanner Scenario.quick_hostile).
  - reflexivity.
  - by_computation.
  - by_computation.
  - vm_compute. split; [discriminate | reflexivity].
  - reflexivity.
Defined.
